(** * ShipsGo client: request / cache / retry / credit layer

    A shallow embedding of [scripts/shipsgo-client.ts] and the properties
    proved about it.  Strings are byte strings read as ASCII text ([asciiText] below
    names the strings on which the string methods of the model are those of
    the source); JavaScript
    numbers that hold counts, status codes and epoch times are integers,
    delays and coordinates are rationals; [None] stands for a value that is
    [undefined] or [null]. *)

From Stdlib Require Import ZArith QArith String Ascii List Bool Lia Permutation.
From stdpp Require Import base option gmap strings pretty.

Open Scope string_scope.
Open Scope Z_scope.

(** ** JavaScript primitives used by the client *)

(** Truthiness of the values the client tests with [if (x)], [x || y] and
    [!x]: an absent value, the empty string and the number zero are falsy. *)
Class Truthy (A : Type) := truthy : A -> bool.

#[global] Instance truthy_string : Truthy string :=
  fun s => match s with EmptyString => false | String _ _ => true end.
#[global] Instance truthy_Z : Truthy Z := fun n => negb (n =? 0).
#[global] Instance truthy_Q : Truthy Q := fun q => negb (Qnum q =? 0).
#[global] Instance truthy_option {A} `{Truthy A} : Truthy (option A) :=
  fun o => match o with Some a => truthy a | None => false end.

(** [a || b] on possibly absent values: the first operand when it is truthy,
    the second otherwise. *)
Definition js_or {A} `{Truthy A} (a b : option A) : option A :=
  if truthy a then a else b.
Infix "|||" := js_or (at level 50, left associativity).

(** [a || d] when the last operand is a literal, so the result is never absent. *)
Definition js_or_default {A} `{Truthy A} (a : option A) (d : A) : A :=
  match a with Some x => if truthy x then x else d | None => d end.

(** [a ?? d]: only an absent left operand yields the right one. *)
Definition js_nullish {A} (a : option A) (d : A) : A :=
  match a with Some x => x | None => d end.

(** Text of ASCII characters only: one byte of the model is then one
    UTF-16 unit of the source's string. *)
Definition asciiText (s : string) : bool :=
  forallb (fun c => Nat.ltb (nat_of_ascii c) 128) (list_ascii_of_string s).

(** [String.prototype.toUpperCase], on ASCII text: the letters [a] to [z]
    are upper-cased and nothing else changes.  Outside ASCII the method of
    the source maps further characters (U+0131 to [I], U+00DF to [SS]) and
    this function is not it; the properties that depend on it are stated
    for [asciiText]. *)
Definition upperAscii (c : ascii) : ascii :=
  let n := nat_of_ascii c in
  if Nat.leb 97 n && Nat.leb n 122 then ascii_of_nat (n - 32) else c.

Fixpoint toUpperCase (s : string) : string :=
  match s with
  | EmptyString => EmptyString
  | String c r => String (upperAscii c) (toUpperCase r)
  end.

(** The character class [[A-Z_]]. *)
Definition isUpperOrUnderscore (c : ascii) : bool :=
  let n := nat_of_ascii c in
  (Nat.leb 65 n && Nat.leb n 90) || Nat.eqb n 95.

(** [s.replace(/[^A-Z_]/g, "_")], on ASCII text, where the bytes of the
    model are the UTF-16 units the regular expression replaces one by one. *)
Fixpoint replaceNonUpper (s : string) : string :=
  match s with
  | EmptyString => EmptyString
  | String c r =>
      String (if isUpperOrUnderscore c then c else "_"%char) (replaceNonUpper r)
  end.

(** Property lookup in an object literal with string keys. *)
Fixpoint objectGet {V} (o : list (string * V)) (k : string) : option V :=
  match o with
  | [] => None
  | (k', v) :: r => if String.eqb k' k then Some v else objectGet r k
  end.

(** ** Data model *)

(** [Shipment["status"]]. *)
Inductive Status :=
| PENDING | EN_ROUTE | ARRIVED | DELIVERED | DISCARDED | NOT_FOUND.

(** The [statusMap] literal of [mapStatus], in the order of the source.
    No key of [Object.prototype] is made of capitals and underscores only, so
    the lookup never reaches an inherited property; and every value is a
    non-empty string, so [statusMap[normalized] || "PENDING"] takes the
    default on a missing key only. *)
Definition statusMap : list (string * Status) :=
  [ ("PENDING", PENDING);
    ("INPROGRESS", EN_ROUTE);
    ("IN_PROGRESS", EN_ROUTE);
    ("IN_TRANSIT", EN_ROUTE);
    ("EN_ROUTE", EN_ROUTE);
    ("DISCHARGED", ARRIVED);
    ("ARRIVED", ARRIVED);
    ("DELIVERED", DELIVERED);
    ("DISCARDED", DISCARDED);
    ("NOT_FOUND", NOT_FOUND) ].

(** [mapStatus(status)]; the argument is absent when the payload has
    neither [status] nor [shippingStatus]. *)
Definition mapStatus (status : option string) : Status :=
  match status with
  | None => PENDING
  | Some s =>
      if negb (truthy s) then PENDING
      else
        let normalized := replaceNonUpper (toUpperCase s) in
        js_nullish (objectGet statusMap normalized) PENDING
  end.

(** A JSON scalar where the source leaves a field untyped ([unknown]) and
    only tests it or passes it to [String()]: identifiers and numeric
    options. *)
Inductive Scalar :=
| SStr (s : string)
| SNum (n : Z).

#[global] Instance truthy_Scalar : Truthy Scalar :=
  fun v => match v with SStr s => truthy s | SNum n => truthy n end.

(** [String(v)]. *)
Definition js_String (v : Scalar) : string :=
  match v with SStr s => s | SNum n => pretty n end.

(** A JavaScript number that holds an integer, or [NaN]. *)
Inductive JsNum :=
| NaN
| Num (n : Z).

(** ** Raw payloads

    The API's JSON objects, with the schema the source's casts give them:
    a field read as [raw.f as string] is an optional string, and so on.
    Both naming conventions of a field are separate fields. *)
Record RawVessel := { rv_name : option string; rv_imo : option string }.

Record RawPort := {
  rp_code : option string;
  rp_name : option string;
  rp_departure : option string;
  rp_eta : option string;
  rp_ata : option string
}.

Record RawEvent := {
  re_event : option string;
  re_description : option string;
  re_location : option string;
  re_timestamp : option string;
  re_date : option string;
  re_isActual : option bool;
  re_is_actual : option bool
}.

Record RawCoordinates := {
  rc_lat : option Q;
  rc_latitude : option Q;
  rc_lng : option Q;
  rc_longitude : option Q
}.

Record RawShipment := {
  r_id : option Scalar;
  r_requestId : option Scalar;
  r_status : option string;
  r_shippingStatus : option string;
  r_containerNumber : option string;
  r_container_number : option string;
  r_blNumber : option string;
  r_bl_number : option string;
  r_bookingNumber : option string;
  r_booking_number : option string;
  r_carrier : option string;
  r_shippingLine : option string;
  r_createdAt : option string;
  r_created_at : option string;
  r_updatedAt : option string;
  r_updated_at : option string;
  r_customReference : option string;
  r_custom_reference : option string;
  r_vessel : option RawVessel;
  r_vesselName : option string;
  r_vesselImo : option string;
  r_pol : option RawPort;
  r_portOfLoading : option string;
  r_polCode : option string;
  r_etd : option string;
  r_atd : option string;
  r_pod : option RawPort;
  r_portOfDischarge : option string;
  r_podCode : option string;
  r_eta : option string;
  r_ata : option string;
  r_milestones : option (list RawEvent);
  r_events : option (list RawEvent);
  r_coordinates : option RawCoordinates;
  r_latitude : option Q;
  r_longitude : option Q;
  r_discardedAt : option string;
  r_discarded_at : option string
}.

(** The empty object [{}], which [request] also yields for a body that is
    not JSON. *)
Definition emptyRaw : RawShipment :=
  {| r_id := None; r_requestId := None; r_status := None;
     r_shippingStatus := None; r_containerNumber := None;
     r_container_number := None; r_blNumber := None; r_bl_number := None;
     r_bookingNumber := None; r_booking_number := None; r_carrier := None;
     r_shippingLine := None; r_createdAt := None; r_created_at := None;
     r_updatedAt := None; r_updated_at := None; r_customReference := None;
     r_custom_reference := None; r_vessel := None; r_vesselName := None;
     r_vesselImo := None; r_pol := None; r_portOfLoading := None;
     r_polCode := None; r_etd := None; r_atd := None; r_pod := None;
     r_portOfDischarge := None; r_podCode := None; r_eta := None;
     r_ata := None; r_milestones := None; r_events := None;
     r_coordinates := None; r_latitude := None; r_longitude := None;
     r_discardedAt := None; r_discarded_at := None |}.

(** Objects and arrays are truthy whatever they hold. *)
#[global] Instance truthy_RawVessel : Truthy RawVessel := fun _ => true.
#[global] Instance truthy_RawPort : Truthy RawPort := fun _ => true.
#[global] Instance truthy_RawCoordinates : Truthy RawCoordinates := fun _ => true.
#[global] Instance truthy_list {A} : Truthy (list A) := fun _ => true.

(** The payload of a listing: [{ shipments?, data?, count? }]. *)
Record ListPayload := {
  lp_shipments : option (list RawShipment);
  lp_data : option (list RawShipment);
  lp_count : option Z
}.

(** The fields [getSharingLink] reads from a shipment object. *)
Record RawLocation := { loc_name : option string }.

Record RawRoutePort := {
  rt_location : option RawLocation;
  rt_date_of_discharge : option string
}.

Record RawRoute := {
  port_of_loading : option RawRoutePort;
  port_of_discharge : option RawRoutePort
}.

Record RawTokens := { tokens_map : option string }.

Record LinkData := {
  ld_tokens : option RawTokens;
  ld_route : option RawRoute;
  ld_container_number : option string;
  ld_status : option string
}.

(** The envelope: the fields at the top level, and the object under
    [shipment] when there is one. *)
Record LinkPayload := {
  lk_shipment : option LinkData;
  lk_top : LinkData
}.

#[global] Instance truthy_LinkData : Truthy LinkData := fun _ => true.

(** A parsed response body, read through the type each caller gives to
    [request<T>]; a body that is not JSON reads as [{}] in every view. *)
Record Body := {
  body_shipment : RawShipment;
  body_listing : ListPayload;
  body_link : LinkPayload;
  body_message : option string
}.

Record Response := {
  resp_status : Z;
  resp_retryAfter : option string;
  resp_body : Body
}.

(** [response.ok]. *)
Definition resp_ok (r : Response) : bool :=
  (200 <=? resp_status r) && (resp_status r <=? 299).

(** What [fetch] does with a call: it answers, is aborted by the 30 s
    timer ([AbortError]), or rejects with another error. *)
Inductive FetchOutcome :=
| Responded (r : Response)
| Aborted
| Rejected (message : string).

(** The error classes of the client; [OtherError] is a plain [Error]. *)
Inductive Error :=
| ApiError (status : Z) (data : Body)
| RateLimitError (retryAfter : option JsNum)
| InsufficientCreditsError (message : string)
| OtherError (message : string).

(** ** External collaborators

    What the client imports and does not define: the cache package's key
    builder and TTL table ([@local/plugin-cache]) and the JavaScript
    built-ins whose results the client only passes on. *)
Class Host := {
  (** [createCacheKey(operation, params)]: a deterministic key. *)
  createCacheKey : string -> list (string * option Scalar) -> string;
  (** The [TTL] table of the cache package. *)
  TTL_HOUR : Z;
  TTL_DAY : Z;
  TTL_FIFTEEN_MINUTES : Z;
  TTL_THIRTY_MINUTES : Z;
  (** [new Date(s).getTime()]: [NaN] for an invalid date. *)
  Date_getTime : string -> JsNum;
  (** [parseInt(s, 10)]. *)
  parseInt10 : string -> JsNum;
  encodeURIComponent : string -> string;
  (** [new URLSearchParams] filled by [append] in list order, then [toString()]. *)
  URLSearchParams_toString : list (string * string) -> string;
  (** [JSON.stringify] of a response body, for the message of an [ApiError]. *)
  JSON_stringify : Body -> string
}.

(** ** The canonical shape *)

Record Milestone := {
  event : string;
  location : option string;
  timestamp : string;
  is_actual : bool
}.

Record Vessel := { vessel_name : string; vessel_imo : option string }.

Record Pol := {
  pol_code : string;
  pol_name : string;
  pol_departure : option string
}.

Record Pod := {
  pod_code : string;
  pod_name : string;
  pod_eta : option string;
  pod_ata : option string
}.

(** [coordinates]: the interface types both fields as numbers; an object
    with no usable field leaves them [undefined]. *)
Record Coordinates := { lat : option Q; lng : option Q }.

Record Shipment := {
  id : string;
  requestId : option string;
  status : Status;
  container_number : option string;
  bl_number : option string;
  booking_number : option string;
  carrier : option string;
  vessel : option Vessel;
  pol : option Pol;
  pod : option Pod;
  milestones : option (list Milestone);
  coordinates : option Coordinates;
  created_at : string;
  updated_at : string;
  discarded_at : option string;
  custom_reference : option string
}.

(** ** Response mapper *)

(** [a ?? b] with a possibly absent right operand. *)
Definition js_nullish_opt {A} (a b : option A) : option A :=
  match a with Some _ => a | None => b end.

(** [Array.isArray(x)] on a field that holds an array when it is present. *)
Definition isArray {A} (x : option (list A)) : bool :=
  match x with Some _ => true | None => false end.

(** The callback of [events.map] in [mapToShipment]. *)
Definition mapMilestone (e : RawEvent) : Milestone :=
  {| event := js_or_default (re_event e ||| re_description e) "";
     location := re_location e;
     timestamp := js_or_default (re_timestamp e ||| re_date e) "";
     is_actual := js_nullish (js_nullish_opt (re_isActual e) (re_is_actual e)) true |}.

(** [mapToShipment(raw)]; [now] is [new Date().toISOString()]. *)
Definition mapToShipment (now : string) (raw : RawShipment) : Shipment :=
  {| id := js_String (js_or_default (r_id raw ||| r_requestId raw) (SStr ""));
     requestId :=
       if truthy (r_requestId raw) then js_String <$> r_requestId raw else None;
     status := mapStatus (r_status raw ||| r_shippingStatus raw);
     container_number := r_containerNumber raw ||| r_container_number raw;
     bl_number := r_blNumber raw ||| r_bl_number raw;
     booking_number := r_bookingNumber raw ||| r_booking_number raw;
     carrier := r_carrier raw ||| r_shippingLine raw;
     created_at := js_or_default (r_createdAt raw ||| r_created_at raw) now;
     updated_at := js_or_default (r_updatedAt raw ||| r_updated_at raw) now;
     custom_reference := r_customReference raw ||| r_custom_reference raw;
     vessel :=
       if truthy (r_vessel raw) || truthy (r_vesselName raw) then
         Some {| vessel_name :=
                   js_or_default ((r_vessel raw ≫= rv_name) ||| r_vesselName raw) "";
                 vessel_imo := (r_vessel raw ≫= rv_imo) ||| r_vesselImo raw |}
       else None;
     pol :=
       if truthy (r_pol raw) || truthy (r_portOfLoading raw) then
         Some {| pol_code :=
                   js_or_default ((r_pol raw ≫= rp_code) ||| r_polCode raw) "";
                 pol_name :=
                   js_or_default ((r_pol raw ≫= rp_name) ||| r_portOfLoading raw) "";
                 pol_departure :=
                   (r_pol raw ≫= rp_departure) ||| r_etd raw ||| r_atd raw |}
       else None;
     pod :=
       if truthy (r_pod raw) || truthy (r_portOfDischarge raw) then
         Some {| pod_code :=
                   js_or_default ((r_pod raw ≫= rp_code) ||| r_podCode raw) "";
                 pod_name :=
                   js_or_default ((r_pod raw ≫= rp_name) ||| r_portOfDischarge raw) "";
                 pod_eta := (r_pod raw ≫= rp_eta) ||| r_eta raw;
                 pod_ata := (r_pod raw ≫= rp_ata) ||| r_ata raw |}
       else None;
     milestones :=
       if isArray (r_milestones raw) || isArray (r_events raw) then
         map mapMilestone <$> (r_milestones raw ||| r_events raw)
       else None;
     coordinates :=
       if truthy (r_coordinates raw)
          || (truthy (r_latitude raw) && truthy (r_longitude raw)) then
         Some {| lat := (r_coordinates raw ≫= rc_lat)
                        ||| (r_coordinates raw ≫= rc_latitude)
                        ||| r_latitude raw;
                 lng := (r_coordinates raw ≫= rc_lng)
                        ||| (r_coordinates raw ≫= rc_longitude)
                        ||| r_longitude raw |}
       else None;
     discarded_at :=
       if truthy (r_discardedAt raw) || truthy (r_discarded_at raw) then
         r_discardedAt raw ||| r_discarded_at raw
       else None |}.

(** [getCacheTTL(shipment)]. *)
Definition getCacheTTL `{Host} (shipment : Shipment) : Z :=
  match status shipment with
  | PENDING | EN_ROUTE => TTL_HOUR * 2
  | ARRIVED => TTL_HOUR * 4
  | DELIVERED | DISCARDED => TTL_DAY
  | _ => TTL_HOUR * 2
  end.

(** ** Best-match selector *)

(** Subtraction of JavaScript numbers: [NaN] when an operand is [NaN]. *)
Definition js_sub (a b : JsNum) : JsNum :=
  match a, b with
  | Num x, Num y => Num (x - y)
  | _, _ => NaN
  end.

(** [Array.prototype.sort(compare)]: the sort is stable and reads a
    comparator result [NaN] as [0]; [x] stays before [y] unless
    [compare(x, y) > 0].  For a comparator that is a total preorder every
    stable sort returns this list. *)
Definition staysBefore (v : JsNum) : bool :=
  match v with NaN => true | Num n => n <=? 0 end.

Fixpoint insertSorted {A} (compare : A -> A -> JsNum) (x : A) (l : list A) : list A :=
  match l with
  | [] => [x]
  | y :: r =>
      if staysBefore (compare x y) then x :: y :: r
      else y :: insertSorted compare x r
  end.

Definition js_sort {A} (compare : A -> A -> JsNum) (l : list A) : list A :=
  foldr (insertSorted compare) [] l.

(** The [statusOrder] table of [selectBestMatch]; every status has an entry,
    so the [?? 5] default is never taken. *)
Definition statusOrder (s : Status) : Z :=
  match s with
  | EN_ROUTE => 0
  | PENDING => 1
  | ARRIVED => 2
  | DELIVERED => 3
  | DISCARDED => 4
  | NOT_FOUND => 5
  end.

(** The comparator passed to [sort]. *)
Definition compareShipments `{Host} (a b : Shipment) : JsNum :=
  let statusDiff := statusOrder (status a) - statusOrder (status b) in
  if negb (statusDiff =? 0) then Num statusDiff
  else js_sub (Date_getTime (created_at b)) (Date_getTime (created_at a)).

(** The predicate of [.filter(s => !s.discarded_at)]. *)
Definition notDiscarded (s : Shipment) : bool := negb (truthy (discarded_at s)).

Definition selectBestMatch `{Host} (shipments : list Shipment) : option Shipment :=
  match shipments with
  | [] => None
  | [s] => Some s
  | _ =>
      js_nullish_opt
        (head (js_sort compareShipments (List.filter notDiscarded shipments)))
        (head shipments)
  end.

(** ** Remote calls *)

(** [ShipmentCreateRequest]; [shipment_type] is always ["ocean"]. *)
Record ShipmentCreateRequest := {
  req_bl_number : option string;
  req_container_number : option string;
  req_booking_number : option string
}.

(** The body of a request: the create request or a [ShipmentUpdateRequest]. *)
Inductive RequestBody :=
| CreateBody (data : ShipmentCreateRequest)
| UpdateBody (reference : string).

Record Call := {
  call_method : string;
  call_endpoint : string;
  call_body : option RequestBody
}.

(** [error.message], as the [catch] of the reference patch reads it. *)
Definition errorMessage `{Host} (e : Error) : string :=
  match e with
  | ApiError st data => "API Error " ++ pretty st ++ ": " ++ JSON_stringify data
  | RateLimitError ra =>
      "Rate limited" ++
      match ra with
      | Some (Num n) => if truthy n then ", retry after " ++ pretty n ++ "s" else ""
      | _ => ""
      end
  | InsufficientCreditsError m => m
  | OtherError m => m
  end.

(** ** Results of the public operations *)

Inductive Source := created | existing | cached.

Record CreateResult := {
  shipment : Shipment;
  source : Source;
  creditUsed : bool;
  warning : option string
}.

Record SharingLinkResult := {
  url : string;
  shipmentId : string;
  containerNumber : option string;
  link_status : string;
  link_pol : option string;
  link_pod : option string;
  link_eta : option string
}.

(** [{ shipments, count }], the result of [listShipments]. *)
Record Listing := { shipments : list Shipment; count : Z }.

(** ** Cache store *)

(** Modelled from the spec: the store of [@local/plugin-cache], which is not
    part of the sources: a key/value store whose entries carry their TTL.
    The store is untyped; the client reads and writes it at one type per
    family of operation names, so there is one map per type: tracked
    shipments (a shipment or [null]), listings, searches and sharing links.
    An entry that is present is one that has not expired. *)
Record Cache := {
  c_shipment : gmap string (option Shipment * Z);
  c_listing : gmap string (Listing * Z);
  c_search : gmap string (list Shipment * Z);
  c_link : gmap string (SharingLinkResult * Z)
}.

(** The part of the store an operation works on. *)
Record Slot (T : Type) := {
  slot_read : Cache -> gmap string (T * Z);
  slot_write : gmap string (T * Z) -> Cache -> Cache
}.
Arguments slot_read {T}.
Arguments slot_write {T}.

Definition shipmentSlot : Slot (option Shipment) :=
  {| slot_read := c_shipment;
     slot_write m c := {| c_shipment := m; c_listing := c_listing c;
                          c_search := c_search c; c_link := c_link c |} |}.

Definition listingSlot : Slot Listing :=
  {| slot_read := c_listing;
     slot_write m c := {| c_shipment := c_shipment c; c_listing := m;
                          c_search := c_search c; c_link := c_link c |} |}.

Definition searchSlot : Slot (list Shipment) :=
  {| slot_read := c_search;
     slot_write m c := {| c_shipment := c_shipment c; c_listing := c_listing c;
                          c_search := m; c_link := c_link c |} |}.

Definition linkSlot : Slot SharingLinkResult :=
  {| slot_read := c_link;
     slot_write m c := {| c_shipment := c_shipment c; c_listing := c_listing c;
                          c_search := c_search c; c_link := m |} |}.

Definition emptyCache : Cache :=
  {| c_shipment := ∅; c_listing := ∅; c_search := ∅; c_link := ∅ |}.

(** ** The world an operation runs in *)

(** The remote side and the clock: the answer of [fetch] to the [n]-th
    call of a run, the [n]-th draw of [Math.random()], and the instant
    [new Date().toISOString()] reads. *)
Class Remote := {
  fetch : nat -> Call -> FetchOutcome;
  Math_random : nat -> Q;
  clock_now : string
}.

(** The state an operation reads and changes: the store, the client's
    [cacheDisabled] flag, which is also the state of the store's switch
    (see [cache_get]), and the record of what the run did: the remote calls
    in order, the delays slept, the number of random draws. *)
Record World := {
  cache : Cache;
  cacheDisabled : bool;
  calls : list Call;
  sleeps : list Q;
  draws : nat
}.

Definition withCache (c : Cache) (w : World) : World :=
  {| cache := c; cacheDisabled := cacheDisabled w; calls := calls w;
     sleeps := sleeps w; draws := draws w |}.

Definition logCall (c : Call) (w : World) : World :=
  {| cache := cache w; cacheDisabled := cacheDisabled w;
     calls := calls w ++ [c]; sleeps := sleeps w; draws := draws w |}.

Definition logSleep (ms : Q) (w : World) : World :=
  {| cache := cache w; cacheDisabled := cacheDisabled w; calls := calls w;
     sleeps := sleeps w ++ [ms]; draws := draws w |}.

Definition countDraw (w : World) : World :=
  {| cache := cache w; cacheDisabled := cacheDisabled w; calls := calls w;
     sleeps := sleeps w; draws := S (draws w) |}.

(** An [async] function: it changes the world and returns or throws. *)
Inductive Result (A : Type) :=
| Ok (a : A)
| Throw (e : Error).
Arguments Ok {A}.
Arguments Throw {A}.

Definition M (A : Type) : Type := World -> Result A * World.

#[global] Instance M_ret : MRet M := fun A a w => (Ok a, w).

#[global] Instance M_bind : MBind M := fun A B f m w =>
  match m w with
  | (Ok a, w') => f a w'
  | (Throw e, w') => (Throw e, w')
  end.

Definition throw {A} (e : Error) : M A := fun w => (Throw e, w).

(** [try { body } catch (e) { handler }]. *)
Definition tryCatch {A} (body : M A) (handler : Error -> M A) : M A := fun w =>
  match body w with
  | (Ok a, w') => (Ok a, w')
  | (Throw e, w') => handler e w'
  end.

(** Modelled from the spec: [cache.get(key)] of the store, [{hit, data}]:
    [None] is a miss, [Some v] a hit on [v].  The store has a global switch,
    [disable()] and [enable()], that affects every lookup: while it is off a
    lookup is a miss.  The client flips it only in [disableCache] and
    [enableCache], together with its own [cacheDisabled], so the one flag of
    the world is the state of both. *)
Definition cache_get {T} (slot : Slot T) (key : string) : M (option T) := fun w =>
  (Ok (if cacheDisabled w then None else fst <$> slot_read slot (cache w) !! key), w).

(** Modelled from the spec: [cache.set(key, value, {ttl})] of the store. *)
Definition cache_set {T} (slot : Slot T) (key : string) (v : T) (ttl : Z) : M unit :=
  fun w =>
    (Ok tt,
     withCache (slot_write slot (<[key := (v, ttl)]> (slot_read slot (cache w))) (cache w)) w).

(** Modelled from the spec: [cache.getOrFetch(key, producer, {ttl,
    bypassCache})] of the store: on a miss or a bypass it invokes the
    producer, stores the result with the given TTL and returns it; on a hit
    it returns the cached value without invoking the producer.  A producer
    that throws stores nothing. *)
Definition getOrFetch {T} (slot : Slot T) (key : string) (producer : M T)
    (ttl : Z) (bypassCache : bool) : M T :=
  hit ← cache_get slot key;
  match hit with
  | Some v => if bypassCache then v ← producer; _ ← cache_set slot key v ttl; mret v
              else mret v
  | None => v ← producer; _ ← cache_set slot key v ttl; mret v
  end.

(** [this.cacheDisabled]. *)
Definition readCacheDisabled : M bool := fun w => (Ok (cacheDisabled w), w).

(** [disableCache()] and [enableCache()]: the client's flag and the
    store's switch change together. *)
Definition setCacheDisabled (off : bool) (w : World) : World :=
  {| cache := cache w; cacheDisabled := off; calls := calls w;
     sleeps := sleeps w; draws := draws w |}.

Definition disableCache : M unit := fun w => (Ok tt, setCacheDisabled true w).

Definition enableCache : M unit := fun w => (Ok tt, setCacheDisabled false w).

(** [new Date().toISOString()]. *)
Definition readNow `{Remote} : M string := fun w => (Ok clock_now, w).

(** ** HTTP helpers *)

(** [request(method, endpoint, body)].  The bookkeeping of the rate-limit
    file ([updateRateLimitFromResponse]) is left out: it writes a file that
    nothing below reads, and swallows the failures of reading and writing
    it. *)
Definition request `{Host} `{Remote} (method endpoint : string)
    (body : option RequestBody) : M Response := fun w =>
  let call := {| call_method := method; call_endpoint := endpoint;
                 call_body := body |} in
  let w' := logCall call w in
  match fetch (length (calls w)) call with
  | Responded response =>
      if resp_status response =? 429 then
        let retryAfter := resp_retryAfter response in
        (Throw (RateLimitError
                  (if truthy retryAfter then parseInt10 <$> retryAfter else None)),
         w')
      else if resp_status response =? 402 then
        (Throw (InsufficientCreditsError
                  (js_or_default (body_message (resp_body response))
                     "Insufficient credits")),
         w')
      else (Ok response, w')
  | Aborted => (Throw (OtherError "ShipsGo API request timed out after 30s"), w')
  | Rejected message => (Throw (OtherError message), w')
  end.

(** [sleep(ms)]. *)
Definition sleep (ms : Q) : M unit := fun w => (Ok tt, logSleep ms w).

(** [Math.random()]. *)
Definition random `{Remote} : M Q := fun w => (Ok (Math_random (draws w)), countDraw w).

(** The options of [fetchWithRetry] and their default. *)
Record RetryOptions := { maxRetries : nat; baseDelay : Z }.

Definition defaultRetryOptions : RetryOptions :=
  {| maxRetries := 3; baseDelay := 1000 |}.

(** [error instanceof ApiError && error.status >= 400 && error.status < 500
    && error.status !== 429]. *)
Definition isClientError (e : Error) : bool :=
  match e with
  | ApiError st _ => (400 <=? st) && (st <? 500) && negb (st =? 429)
  | _ => false
  end.

(** The delay before the next attempt: the backoff with its jitter, or the
    error's [retryAfter] in seconds when it is a [RateLimitError] with a
    truthy one. *)
Definition retryDelay (options : RetryOptions) (attempt : nat) (rnd : Q)
    (e : Error) : Q :=
  let delay := (inject_Z (baseDelay options * 2 ^ Z.of_nat attempt) + rnd * 500)%Q in
  match e with
  | RateLimitError (Some (Num n)) => if truthy n then inject_Z (n * 1000) else delay
  | _ => delay
  end.

(** The [for] loop of [fetchWithRetry], from [attempt] on; [remaining] is
    the number of iterations left, [maxRetries + 1 - attempt]. *)
Fixpoint retryLoop `{Remote} {T} (fn : M T) (options : RetryOptions)
    (remaining attempt : nat) (lastError : option Error) : M T :=
  match remaining with
  | O => throw (js_nullish lastError (OtherError "Max retries exceeded"))
  | S remaining' => fun w =>
      match fn w with
      | (Ok v, w1) => (Ok v, w1)
      | (Throw e, w1) =>
          if isClientError e then (Throw e, w1)
          else if Nat.eqb attempt (maxRetries options) then (Throw e, w1)
          else
            (rnd ← random;
             _ ← sleep (retryDelay options attempt rnd e);
             retryLoop fn options remaining' (S attempt) (Some e)) w1
      end
  end.

Definition fetchWithRetry `{Remote} {T} (fn : M T) (options : RetryOptions) : M T :=
  retryLoop fn options (S (maxRetries options)) 0 None.

(** ** Tracking and query service *)

Definition buildCacheKey `{Host} (data : ShipmentCreateRequest) : string :=
  if truthy (req_bl_number data) then
    createCacheKey "shipment:bl" [("bl", SStr <$> req_bl_number data)]
  else if truthy (req_container_number data) then
    createCacheKey "shipment:container"
      [("container", SStr <$> req_container_number data)]
  else if truthy (req_booking_number data) then
    createCacheKey "shipment:booking" [("booking", SStr <$> req_booking_number data)]
  else createCacheKey "shipment:unknown" [].

(** The candidates of a listing: [data.shipments || data.data || []]. *)
Definition listedShipments (data : ListPayload) : list RawShipment :=
  js_or_default (lp_shipments data ||| lp_data data) [].

(** The cache key and the endpoint of a tracker, as the source builds
    them from the number. *)
Definition trackerCacheKey `{Host} (operation param number : string) : string :=
  createCacheKey operation [(param, Some (SStr (toUpperCase number)))].

Definition trackerEndpoint `{Host} (filter number : string) : string :=
  "/ocean/shipments?" ++ filter ++ "=" ++ encodeURIComponent (toUpperCase number).

(** The three trackers are one function up to the operation name, the key
    parameter and the query filter: [trackByBL], [trackByContainer] and
    [trackByBooking] below instantiate it. *)
Definition trackByNumber `{Host} `{Remote} (operation param filter : string)
    (number : string) : M (option Shipment) :=
  let cacheKey := trackerCacheKey operation param number in
  bypass ← readCacheDisabled;
  getOrFetch shipmentSlot cacheKey
    (response ← request "GET" (trackerEndpoint filter number) None;
     if negb (resp_ok response) then
       if resp_status response =? 404 then mret None
       else throw (ApiError (resp_status response) (resp_body response))
     else
       let shipments := listedShipments (body_listing (resp_body response)) in
       if Nat.eqb (length shipments) 0 then mret None
       else
         now ← readNow;
         mret (selectBestMatch (map (mapToShipment now) shipments)))
    (TTL_HOUR * 2) bypass.

Definition trackByBL `{Host} `{Remote} (blNumber : string) : M (option Shipment) :=
  trackByNumber "shipment:bl" "bl" "bl_number" blNumber.

Definition trackByContainer `{Host} `{Remote} (containerNumber : string)
    : M (option Shipment) :=
  trackByNumber "shipment:container" "container" "container_number" containerNumber.

Definition trackByBooking `{Host} `{Remote} (bookingNumber : string)
    : M (option Shipment) :=
  trackByNumber "shipment:booking" "booking" "booking_number" bookingNumber.

Definition fetchByReference `{Host} `{Remote} (data : ShipmentCreateRequest)
    : M (option Shipment) :=
  if truthy (req_bl_number data) then
    trackByBL (default "" (req_bl_number data))
  else if truthy (req_container_number data) then
    trackByContainer (default "" (req_container_number data))
  else if truthy (req_booking_number data) then
    trackByBooking (default "" (req_booking_number data))
  else mret None.

(** The reference patch after a successful create: its outcome is a
    warning, never an error. *)
Definition patchReference `{Host} `{Remote}
    (customReference : option string) (shipment : Shipment) : M (option string) :=
  if truthy customReference && truthy (id shipment) then
    tryCatch
      (patchResponse ← request "PATCH" ("/ocean/shipments/" ++ id shipment)
          (UpdateBody <$> customReference);
       mret (if negb (resp_ok patchResponse) then
               Some ("Reference update failed ("
                       ++ pretty (resp_status patchResponse)
                       ++ "). Shipment created but reference not set.")
             else None))
      (fun e => mret (Some ("Reference update failed: " ++ errorMessage e)))
  else mret None.

(** The operation [createShipment] hands to [fetchWithRetry]. *)
Definition createAttempt `{Host} `{Remote}
    (cacheKey : string) (data : ShipmentCreateRequest)
    (customReference : option string) : M CreateResult :=
  response ← request "POST" "/ocean/shipments" (Some (CreateBody data));
  let responseData := resp_body response in
  if (resp_status response =? 200) || (resp_status response =? 201) then
    now ← readNow;
    let shipment := mapToShipment now (body_shipment responseData) in
    warning ← patchReference customReference shipment;
    _ ← cache_set shipmentSlot cacheKey (Some shipment) (getCacheTTL shipment);
    mret {| shipment := shipment; source := created; creditUsed := true;
            warning := warning |}
  else if resp_status response =? 409 then
    found ← fetchByReference data;
    match found with
    | Some s =>
        _ ← cache_set shipmentSlot cacheKey (Some s) (getCacheTTL s);
        mret {| shipment := s; source := existing; creditUsed := false;
                warning := None |}
    | None => throw (OtherError "409 returned but shipment not found")
    end
  else throw (ApiError (resp_status response) responseData).

(** [createShipment(data, customReference)]. *)
Definition createShipment `{Host} `{Remote}
    (data : ShipmentCreateRequest) (customReference : option string)
    : M CreateResult :=
  let cacheKey := buildCacheKey data in
  cachedResult ← cache_get shipmentSlot cacheKey;
  match cachedResult with
  | Some (Some s) =>
      if negb (truthy (discarded_at s)) then
        mret {| shipment := s; source := cached; creditUsed := false;
                warning := None |}
      else
        fetchWithRetry (createAttempt cacheKey data customReference)
          defaultRetryOptions
  | _ =>
      fetchWithRetry (createAttempt cacheKey data customReference)
        defaultRetryOptions
  end.

(** [ListOptions]. *)
Record ListOptions := {
  lo_status : option string;
  lo_limit : option Z;
  lo_offset : option Z;
  lo_eta_from : option string;
  lo_eta_to : option string;
  lo_sort : option string;
  lo_order : option string
}.

(** [if (x) params.append(name, String(x))] for one option. *)
Definition appendParam {A} `{Truthy A} (name : string) (render : A -> string)
    (x : option A) : list (string * string) :=
  match x with
  | Some v => if truthy v then [(name, render v)] else []
  | None => []
  end.

(** The cache key and the endpoint of a listing, as the source builds them
    from the options; an absent [options] reads every option as absent. *)
Definition listCacheKey `{Host} (options : option ListOptions) : string :=
  createCacheKey "list:shipments"
    [ ("status", SStr <$> (options ≫= lo_status));
      ("limit", SNum <$> (options ≫= lo_limit));
      ("offset", SNum <$> (options ≫= lo_offset));
      ("eta_from", SStr <$> (options ≫= lo_eta_from));
      ("eta_to", SStr <$> (options ≫= lo_eta_to));
      ("sort", SStr <$> (options ≫= lo_sort));
      ("order", SStr <$> (options ≫= lo_order)) ].

Definition listEndpoint `{Host} (options : option ListOptions) : string :=
  let params :=
    (appendParam "status" (fun s => s) (options ≫= lo_status)
     ++ appendParam "limit" pretty (options ≫= lo_limit)
     ++ appendParam "offset" pretty (options ≫= lo_offset)
     ++ appendParam "eta_from" (fun s => s) (options ≫= lo_eta_from)
     ++ appendParam "eta_to" (fun s => s) (options ≫= lo_eta_to)
     ++ appendParam "sort" (fun s => s) (options ≫= lo_sort)
     ++ appendParam "order" (fun s => s) (options ≫= lo_order))%list in
  let queryString := URLSearchParams_toString params in
  "/ocean/shipments" ++ (if truthy queryString then "?" ++ queryString else "").

(** [listShipments(options)]. *)
Definition listShipments `{Host} `{Remote} (options : option ListOptions) : M Listing :=
  let cacheKey := listCacheKey options in
  bypass ← readCacheDisabled;
  getOrFetch listingSlot cacheKey
    (response ← request "GET" (listEndpoint options) None;
     if negb (resp_ok response) then
       throw (ApiError (resp_status response) (resp_body response))
     else
       let data := body_listing (resp_body response) in
       let found := listedShipments data in
       now ← readNow;
       mret {| shipments := map (mapToShipment now) found;
               count := js_nullish (lp_count data) (Z.of_nat (length found)) |})
    TTL_FIFTEEN_MINUTES bypass.

(** The cache key and the endpoint of a search, as the source builds them
    from the reference. *)
Definition searchCacheKey `{Host} (reference : string) : string :=
  createCacheKey "search" [("ref", Some (SStr reference))].

Definition searchEndpoint `{Host} (reference : string) : string :=
  "/ocean/shipments?reference=" ++ encodeURIComponent reference.

(** [searchByReference(reference)]. *)
Definition searchByReference `{Host} `{Remote} (reference : string)
    : M (list Shipment) :=
  let cacheKey := searchCacheKey reference in
  bypass ← readCacheDisabled;
  getOrFetch searchSlot cacheKey
    (response ← request "GET" (searchEndpoint reference) None;
     if negb (resp_ok response) then
       if resp_status response =? 404 then mret []
       else throw (ApiError (resp_status response) (resp_body response))
     else
       now ← readNow;
       mret (map (mapToShipment now)
               (listedShipments (body_listing (resp_body response)))))
    TTL_FIFTEEN_MINUTES bypass.

Definition sharingLinkCacheKey `{Host} (id : string) : string :=
  createCacheKey "sharing-link" [("id", Some (SStr id))].

(** [getSharingLink(id)]. *)
Definition getSharingLink `{Host} `{Remote} (id : string)
    : M (option SharingLinkResult) :=
  let cacheKey := sharingLinkCacheKey id in
  hit ← cache_get linkSlot cacheKey;
  match hit with
  | Some result => mret (Some result)
  | None =>
      response ← request "GET" ("/ocean/shipments/" ++ id) None;
      if negb (resp_ok response) then
        if resp_status response =? 404 then mret None
        else throw (ApiError (resp_status response) (resp_body response))
      else
        let data := body_link (resp_body response) in
        let shipmentData := js_or_default (lk_shipment data) (lk_top data) in
        let mapToken := ld_tokens shipmentData ≫= tokens_map in
        match mapToken with
        | None => mret None
        | Some token =>
            if negb (truthy token) then mret None
            else
              let route := ld_route shipmentData in
              let pol := route ≫= port_of_loading in
              let pod := route ≫= port_of_discharge in
              let result :=
                {| url := "https://map.shipsgo.com/ocean/shipments/" ++ id
                            ++ "?token=" ++ token;
                   shipmentId := id;
                   containerNumber := ld_container_number shipmentData;
                   link_status := js_or_default (ld_status shipmentData) "UNKNOWN";
                   link_pol := (pol ≫= rt_location) ≫= loc_name;
                   link_pod := (pod ≫= rt_location) ≫= loc_name;
                   link_eta := pod ≫= rt_date_of_discharge |} in
              _ ← cache_set linkSlot cacheKey result TTL_DAY;
              mret (Some result)
        end
  end.

(** ** The spec's wording of status normalisation *)

Definition isLetter (c : ascii) : bool :=
  let n := nat_of_ascii c in
  (Nat.leb 65 n && Nat.leb n 90) || (Nat.leb 97 n && Nat.leb n 122).

(** One character: upper-cased, then replaced by an underscore unless it is
    a letter or an underscore. *)
Definition normalizeChar (c : ascii) : ascii :=
  let u := upperAscii c in
  if isLetter u || Ascii.eqb u "_"%char then u else "_"%char.

Fixpoint normalizeStatus (s : string) : string :=
  match s with
  | EmptyString => EmptyString
  | String c r => String (normalizeChar c) (normalizeStatus r)
  end.

(** The synonym table: the names each status is recognised under. *)
Definition synonymsOf (st : Status) : list string :=
  match st with
  | PENDING => ["PENDING"]
  | EN_ROUTE => ["INPROGRESS"; "IN_PROGRESS"; "IN_TRANSIT"; "EN_ROUTE"]
  | ARRIVED => ["DISCHARGED"; "ARRIVED"]
  | DELIVERED => ["DELIVERED"]
  | DISCARDED => ["DISCARDED"]
  | NOT_FOUND => ["NOT_FOUND"]
  end.

Definition allStatuses : list Status :=
  [PENDING; EN_ROUTE; ARRIVED; DELIVERED; DISCARDED; NOT_FOUND].

(** ** Vocabulary of the properties *)

(** A top-level latitude or longitude that is absent or zero. *)
Definition zeroOrAbsent (x : option Q) : Prop :=
  match x with None => True | Some q => (q == 0)%Q end.

(** [x] stays before [y] under the comparator. *)
Definition before {A} (compare : A -> A -> JsNum) (x y : A) : bool :=
  staysBefore (compare x y).

(** The head of the sorted list, computed alone: the earliest element that
    stays before everything after it. *)
Fixpoint best {A} (compare : A -> A -> JsNum) (l : list A) : option A :=
  match l with
  | [] => None
  | x :: r =>
      match best compare r with
      | None => Some x
      | Some y => if before compare x y then Some x else Some y
      end
  end.

(** The candidates that pass the filter. *)
Definition survivors (l : list Shipment) : list Shipment :=
  List.filter notDiscarded l.

(** The instant a shipment was created, as [new Date(s.created_at).getTime()]. *)
Definition createdTime `{Host} (s : Shipment) : JsNum := Date_getTime (created_at s).

(** The creation timestamp parses as a date. *)
Definition validDate `{Host} (s : Shipment) : Prop := exists t, createdTime s = Num t.

(** The order of the spec: a lower status priority first, and at equal
    priority the more recent creation first. *)
Definition ranksBefore `{Host} (a b : Shipment) : Prop :=
  statusOrder (status a) < statusOrder (status b) \/
  (statusOrder (status a) = statusOrder (status b) /\
   exists ta tb, createdTime a = Num ta /\ createdTime b = Num tb /\ tb <= ta).

(** No two candidates of the list rank equal. *)
Definition noTies `{Host} (l : list Shipment) : Prop :=
  forall a b, In a l -> In b l -> ranksBefore a b -> ranksBefore b a -> a = b.

(** What the selector promises about its result [s] on every list [l]:
    it is a candidate, the first one as given when all are discarded, an
    undiscarded one otherwise.  This much holds whatever the sort does
    with its input. *)
Record Selected (l : list Shipment) (s : Shipment) : Prop := {
  sel_member : In s l;
  sel_fallback : survivors l = [] -> head l = Some s;
  sel_survivor : survivors l <> [] -> In s (survivors l)
}.

(** What it promises about the rank of [s] when the creation timestamps of
    the undiscarded candidates parse: [s] ranks before every undiscarded
    candidate, and is the earliest such in the input order. *)
Record BestMatch `{Host} (l : list Shipment) (s : Shipment) : Prop := {
  bm_least : forall t, In t (survivors l) -> ranksBefore s t;
  bm_stable : survivors l <> [] ->
    exists l1 l2, survivors l = (l1 ++ s :: l2)%list /\
                  forall t, In t l1 -> ~ ranksBefore t s
}.

(** The selection as the spec words it: drop the discarded candidates
    unless that empties the list, sort what is left, return the head. *)
Definition selectBestMatch_as_specified `{Host} (l : list Shipment) : option Shipment :=
  let eligible := match survivors l with [] => l | kept => kept end in
  head (js_sort compareShipments eligible).

(** The failures the policy retries: a status outside 4xx, a 429, a rate
    limit, a network failure or a timeout.  The insufficient-credits error
    is in neither class here. *)
Definition retryable (e : Error) : bool :=
  match e with
  | ApiError st _ => negb ((400 <=? st) && (st <? 500)) || (st =? 429)
  | RateLimitError _ => true
  | OtherError _ => true
  | InsufficientCreditsError _ => false
  end.

(** The retry-after of a failure, in seconds, when it carries one that is a
    number other than zero. *)
Definition retryAfterOf (e : Error) : option Z :=
  match e with
  | RateLimitError (Some (Num n)) => if n =? 0 then None else Some n
  | _ => None
  end.

(** The policy in the spec's words: the outcomes it allows for the wrapper
    when the operation [fn] is about to make attempt number [attempt] in
    the state [w].  A jitter is any delay below 500 ms.  An attempt that
    fails for insufficient credits is left unconstrained. *)
Inductive RetryPolicy `{Remote} {T} (fn : M T) (options : RetryOptions)
    : nat -> World -> Result T * World -> Prop :=
| policy_success attempt w v w' :
    fn w = (Ok v, w') ->
    RetryPolicy fn options attempt w (Ok v, w')
| policy_fatal attempt w st data w' :
    fn w = (Throw (ApiError st data), w') ->
    400 <= st < 500 -> st <> 429 ->
    RetryPolicy fn options attempt w (Throw (ApiError st data), w')
| policy_exhausted w e w' :
    fn w = (Throw e, w') ->
    retryable e = true ->
    RetryPolicy fn options (maxRetries options) w (Throw e, w')
| policy_retry attempt w e w' jitter out :
    fn w = (Throw e, w') ->
    retryable e = true ->
    (attempt < maxRetries options)%nat ->
    (0 <= jitter)%Q -> (jitter < 500)%Q ->
    RetryPolicy fn options (S attempt)
      (logSleep
         match retryAfterOf e with
         | Some seconds => inject_Z (seconds * 1000)
         | None => (inject_Z (baseDelay options * 2 ^ Z.of_nat attempt) + jitter)%Q
         end
         (countDraw w'))
      out ->
    RetryPolicy fn options attempt w out
| policy_credits attempt w message w' out :
    fn w = (Throw (InsufficientCreditsError message), w') ->
    RetryPolicy fn options attempt w out.

(** A call without a body: [GET endpoint]. *)
Definition getCall (endpoint : string) : Call :=
  {| call_method := "GET"; call_endpoint := endpoint; call_body := None |}.

(** The remote create: [POST /ocean/shipments] with the flat request. *)
Definition createCall (data : ShipmentCreateRequest) : Call :=
  {| call_method := "POST"; call_endpoint := "/ocean/shipments";
     call_body := Some (CreateBody data) |}.

(** An operation only adds to the log of remote calls. *)
Definition appendsCalls {A} (m : M A) : Prop :=
  forall w, exists rest, calls (snd (m w)) = (calls w ++ rest)%list.

(** The map token under the [shipment] field, and the one at the top level. *)
Definition nestedToken (data : LinkPayload) : option string :=
  (lk_shipment data ≫= ld_tokens) ≫= tokens_map.

Definition topLevelToken (data : LinkPayload) : option string :=
  ld_tokens (lk_top data) ≫= tokens_map.

(** The payload carries [token] where the source reads it: under the
    [shipment] field, [{ shipment: { tokens: { map } } }], or at the top
    level, [{ tokens: { map } }], when the response is the shipment itself
    and has no [shipment] field. *)
Definition carriesToken (data : LinkPayload) (token : string) : Prop :=
  token <> "" /\
  (nestedToken data = Some token \/
   (lk_shipment data = None /\ topLevelToken data = Some token)).

(** Every other payload: no token where the source reads it. *)
Definition carriesNoToken (data : LinkPayload) : Prop :=
  forall token, ~ carriesToken data token.

(** The cache holds, under the key of the request, the shipment [s] for
    [createShipment] to reuse: the lookup is a hit, so the cache is not
    disabled, on a shipment with no discarded timestamp. *)
Definition reusable `{Host} (data : ShipmentCreateRequest) (w : World)
    (s : Shipment) : Prop :=
  cacheDisabled w = false /\
  (exists ttl, c_shipment (cache w) !! buildCacheKey data = Some (Some s, ttl)) /\
  truthy (discarded_at s) = false.


(** The operation [op] addresses the cache entry [key] of [slot] and the
    remote query [GET endpoint]: with the cache enabled and an entry under
    [key], it returns the entry and does nothing else; on a miss, or with
    the cache disabled, it makes exactly one remote call, that query, and
    what it then returns is stored under [key] with the TTL [ttl], every
    other entry staying as it was. *)
Definition addresses {T} (slot : Slot T) (op : M T) (key endpoint : string)
    (ttl : Z) : Prop :=
  (forall w v ttl',
     cacheDisabled w = false ->
     slot_read slot (cache w) !! key = Some (v, ttl') ->
     op w = (Ok v, w)) /\
  (forall w,
     cacheDisabled w = true \/ slot_read slot (cache w) !! key = None ->
     calls (snd (op w)) = (calls w ++ [getCall endpoint])%list /\
     cacheDisabled (snd (op w)) = cacheDisabled w /\
     (forall v, fst (op w) = Ok v ->
        slot_read slot (cache (snd (op w))) !! key = Some (v, ttl)) /\
     (forall k, k <> key ->
        slot_read slot (cache (snd (op w))) !! k = slot_read slot (cache w) !! k)).

(** After [op] returned a value, with the cache enabled, [op'] returns
    the same value from the cache and makes no remote call. *)
Definition sharesEntry {T} (op op' : M T) : Prop :=
  forall w v,
    cacheDisabled w = false -> fst (op w) = Ok v ->
    op' (snd (op w)) = (Ok v, snd (op w)).

(** Two references that differ at most in the case of their letters. *)
Definition caseVariant (r r' : string) : Prop := toUpperCase r = toUpperCase r'.

(** ** An example host

    Values for the external collaborators, used to run the model on
    concrete inputs. *)

(** Modelled from the spec: the [TTL] table of the cache package, which is
    not part of the sources, in seconds: the spec gives two hours to a
    pending shipment ([TTL.HOUR * 2]) and twenty-four to a delivered one
    ([TTL.DAY]); the fifteen and thirty minutes are those of the listings. *)
Definition exampleTTL_HOUR : Z := 3600.
Definition exampleTTL_DAY : Z := 86400.
Definition exampleTTL_FIFTEEN_MINUTES : Z := 900.
Definition exampleTTL_THIRTY_MINUTES : Z := 1800.

Definition renderParam (p : string * option Scalar) : string :=
  fst p ++ "=" ++ match snd p with Some v => js_String v | None => "" end ++ ";".

(** Modelled from the spec: [createCacheKey] of the cache package, a
    deterministic key built from the operation name and the parameters. *)
Definition exampleCacheKey (operation : string)
    (params : list (string * option Scalar)) : string :=
  operation ++ "?" ++ String.concat "" (map renderParam params).

(** The value of the leading decimal digits of a string. *)
Fixpoint leadingDigits (s : string) (acc : option Z) : option Z :=
  match s with
  | EmptyString => acc
  | String c r =>
      let n := nat_of_ascii c in
      if Nat.leb 48 n && Nat.leb n 57 then
        leadingDigits r (Some (default 0 acc * 10 + Z.of_nat (n - 48)))
      else acc
  end.

Definition exampleParseInt (s : string) : JsNum :=
  match leadingDigits s None with Some n => Num n | None => NaN end.

(** The epoch milliseconds of the instants the examples use; any other
    string is an invalid date here. *)
Definition exampleGetTime (s : string) : JsNum :=
  if String.eqb s "2024-01-01T00:00:00.000Z" then Num 1704067200000
  else if String.eqb s "2024-02-01T00:00:00.000Z" then Num 1706745600000
  else NaN.

Definition exampleQuery (params : list (string * string)) : string :=
  String.concat "&" (map (fun p => fst p ++ "=" ++ snd p) params).

Definition exampleHost : Host :=
  {| createCacheKey := exampleCacheKey;
     TTL_HOUR := exampleTTL_HOUR;
     TTL_DAY := exampleTTL_DAY;
     TTL_FIFTEEN_MINUTES := exampleTTL_FIFTEEN_MINUTES;
     TTL_THIRTY_MINUTES := exampleTTL_THIRTY_MINUTES;
     Date_getTime := exampleGetTime;
     parseInt10 := exampleParseInt;
     encodeURIComponent := fun s => s;
     URLSearchParams_toString := exampleQuery;
     JSON_stringify := fun _ => "{}" |}.

(** A shipment with the given identifier, status, creation instant and
    discarded instant, and nothing else. *)
Definition exampleShipment (i : string) (st : Status) (createdAt : string)
    (discardedAt : option string) : Shipment :=
  {| id := i; requestId := None; status := st; container_number := None;
     bl_number := None; booking_number := None; carrier := None;
     vessel := None; pol := None; pod := None; milestones := None;
     coordinates := None; created_at := createdAt; updated_at := createdAt;
     discarded_at := discardedAt; custom_reference := None |}.

(** ** Example payloads, remotes and worlds *)

(** The payload of shipment 5773482 with a top-level latitude and
    longitude and no other field. *)
Definition rawWithPosition (la lo : option Q) : RawShipment :=
  {| r_id := Some (SNum 5773482); r_requestId := None; r_status := None;
     r_shippingStatus := None; r_containerNumber := None;
     r_container_number := None; r_blNumber := None; r_bl_number := None;
     r_bookingNumber := None; r_booking_number := None; r_carrier := None;
     r_shippingLine := None; r_createdAt := None; r_created_at := None;
     r_updatedAt := None; r_updated_at := None; r_customReference := None;
     r_custom_reference := None; r_vessel := None; r_vesselName := None;
     r_vesselImo := None; r_pol := None; r_portOfLoading := None;
     r_polCode := None; r_etd := None; r_atd := None; r_pod := None;
     r_portOfDischarge := None; r_podCode := None; r_eta := None;
     r_ata := None; r_milestones := None; r_events := None;
     r_coordinates := None; r_latitude := la; r_longitude := lo;
     r_discardedAt := None; r_discarded_at := None |}.

(** Two live shipments that tie, and two discarded ones. *)
Definition tiedA : Shipment :=
  exampleShipment "A" EN_ROUTE "2024-01-01T00:00:00.000Z" None.

Definition tiedB : Shipment :=
  exampleShipment "B" EN_ROUTE "2024-01-01T00:00:00.000Z" None.

Definition goneDelivered : Shipment :=
  exampleShipment "D" DELIVERED "2024-01-01T00:00:00.000Z"
    (Some "2024-02-01T00:00:00.000Z").

Definition goneEnRoute : Shipment :=
  exampleShipment "E" EN_ROUTE "2024-01-01T00:00:00.000Z"
    (Some "2024-02-01T00:00:00.000Z").

(** A pending shipment, and a more recent one that is en route. *)
Definition olderPending : Shipment :=
  exampleShipment "P" PENDING "2024-01-01T00:00:00.000Z" None.

Definition newerEnRoute : Shipment :=
  exampleShipment "R" EN_ROUTE "2024-02-01T00:00:00.000Z" None.

(** A shipment object with none of the fields [getSharingLink] reads. *)
Definition emptyLinkData : LinkData :=
  {| ld_tokens := None; ld_route := None; ld_container_number := None;
     ld_status := None |}.

(** The body [{}]. *)
Definition emptyBody : Body :=
  {| body_shipment := emptyRaw;
     body_listing := {| lp_shipments := None; lp_data := None; lp_count := None |};
     body_link := {| lk_shipment := None; lk_top := emptyLinkData |};
     body_message := None |}.

(** An answer with the given status, [Retry-After] header and body. *)
Definition respond (st : Z) (retryAfter : option string) (b : Body) : FetchOutcome :=
  Responded {| resp_status := st; resp_retryAfter := retryAfter; resp_body := b |}.

(** A remote that answers the calls of a run in turn from a script, then
    with [fallback]; every random draw is one half. *)
Definition scriptedRemote (script : list FetchOutcome) (fallback : FetchOutcome)
    : Remote :=
  {| fetch := fun n _ => nth n script fallback;
     Math_random := fun _ => 1 # 2;
     clock_now := "2024-01-01T00:00:00.000Z" |}.

(** A fresh client: nothing cached, nothing done yet. *)
Definition freshWorld : World :=
  {| cache := emptyCache; cacheDisabled := false; calls := []; sleeps := [];
     draws := 0 |}.

(** [{ shipment_type: "ocean", container_number: "HAMU1058953" }]. *)
Definition containerRequest : ShipmentCreateRequest :=
  {| req_bl_number := None; req_container_number := Some "HAMU1058953";
     req_booking_number := None |}.

(** A backend out of credits, and one that rate-limits with
    [Retry-After: 0]. *)
Definition outOfCredits : Remote :=
  scriptedRemote [] (respond 402 None emptyBody).

Definition rateLimitedNow : Remote :=
  scriptedRemote [] (respond 429 (Some "0") emptyBody).

(** A backend that answers 404 to everything. *)
Definition notFoundRemote : Remote :=
  scriptedRemote [] (respond 404 None emptyBody).

(** The documented payload: the token one level down, under [shipment]. *)
Definition tokenBody : Body :=
  {| body_shipment := emptyRaw;
     body_listing := {| lp_shipments := None; lp_data := None; lp_count := None |};
     body_link :=
       {| lk_shipment :=
            Some {| ld_tokens := Some {| tokens_map := Some "example-token-uuid" |};
                    ld_route := None;
                    ld_container_number := Some "HAMU1058953";
                    ld_status := Some "EN_ROUTE" |};
          lk_top := emptyLinkData |};
     body_message := None |}.

(** A payload with the token at the top level beside a [shipment] object
    that has none. *)
Definition shadowedTokenBody : Body :=
  {| body_shipment := emptyRaw;
     body_listing := {| lp_shipments := None; lp_data := None; lp_count := None |};
     body_link :=
       {| lk_shipment := Some emptyLinkData;
          lk_top :=
            {| ld_tokens := Some {| tokens_map := Some "example-token-uuid" |};
               ld_route := None; ld_container_number := None;
               ld_status := None |} |};
     body_message := None |}.

Definition tokenResponse : Response :=
  {| resp_status := 200; resp_retryAfter := None; resp_body := tokenBody |}.

Definition tokenRemote : Remote := scriptedRemote [] (Responded tokenResponse).

Definition shadowedTokenRemote : Remote :=
  scriptedRemote [] (respond 200 None shadowedTokenBody).

(** A backend that lists one shipment whatever the query. *)
Definition oneShipmentBody : Body :=
  {| body_shipment := emptyRaw;
     body_listing :=
       {| lp_shipments := Some [rawWithPosition None None]; lp_data := None;
          lp_count := None |};
     body_link := {| lk_shipment := None; lk_top := emptyLinkData |};
     body_message := None |}.

Definition listingRemote : Remote :=
  scriptedRemote [] (respond 200 None oneShipmentBody).

(** A backend that creates the shipment: 201 with the shipment as body. *)
Definition createdBody : Body :=
  {| body_shipment := rawWithPosition None None;
     body_listing := {| lp_shipments := None; lp_data := None; lp_count := None |};
     body_link := {| lk_shipment := None; lk_top := emptyLinkData |};
     body_message := None |}.

Definition creatingRemote : Remote :=
  scriptedRemote [] (respond 201 None createdBody).

(** [{ shipment_type: "ocean", bl_number: "MAEU123456789" }]. *)
Definition blRequest : ShipmentCreateRequest :=
  {| req_bl_number := Some "MAEU123456789"; req_container_number := None;
     req_booking_number := None |}.

(** A backend that knows the shipment already: 409 to the create, then the
    listing to the tracker. *)
Definition conflictRemote : Remote :=
  scriptedRemote [respond 409 None emptyBody] (respond 200 None oneShipmentBody).

(** A backend that creates the shipment and fails the reference patch. *)
Definition patchFailingRemote : Remote :=
  scriptedRemote [respond 201 None createdBody] (respond 500 None emptyBody).

(** A backend that fails twice with a 500 before it creates the shipment. *)
Definition flakyRemote : Remote :=
  scriptedRemote [respond 500 None emptyBody; respond 500 None emptyBody]
    (respond 201 None createdBody).

(** What an observer sees of a run of [createShipment]: the source and
    credit of the result or the error, the calls made and the delays slept. *)
Definition observeCreate (run : Result CreateResult * World)
    : Result (Source * bool * option string) * list (string * string) * list Q :=
  (match fst run with
   | Ok result => Ok (source result, creditUsed result, warning result)
   | Throw e => Throw e
   end,
   map (fun c => (call_method c, call_endpoint c)) (calls (snd run)),
   map Qred (sleeps (snd run))).

(** ** Vocabulary of the further properties *)

(** What [request] makes of each answer of [fetch]. *)
Definition requestOutcome `{Host} (o : FetchOutcome) : Result Response :=
  match o with
  | Responded response =>
      if resp_status response =? 429 then
        Throw (RateLimitError
                 (if truthy (resp_retryAfter response)
                  then parseInt10 <$> resp_retryAfter response else None))
      else if resp_status response =? 402 then
        Throw (InsufficientCreditsError
                 (js_or_default (body_message (resp_body response))
                    "Insufficient credits"))
      else Ok response
  | Aborted => Throw (OtherError "ShipsGo API request timed out after 30s")
  | Rejected message => Throw (OtherError message)
  end.

(** What [getSharingLink] does after a miss: the fetch, the token and the
    result. *)
Definition fetchSharingLink `{Host} `{Remote} (id : string)
    : M (option SharingLinkResult) :=
  response ← request "GET" ("/ocean/shipments/" ++ id) None;
  if negb (resp_ok response) then
    if resp_status response =? 404 then mret None
    else throw (ApiError (resp_status response) (resp_body response))
  else
    let data := body_link (resp_body response) in
    let shipmentData := js_or_default (lk_shipment data) (lk_top data) in
    let mapToken := ld_tokens shipmentData ≫= tokens_map in
    match mapToken with
    | None => mret None
    | Some token =>
        if negb (truthy token) then mret None
        else
          let route := ld_route shipmentData in
          let pol := route ≫= port_of_loading in
          let pod := route ≫= port_of_discharge in
          let result :=
            {| url := "https://map.shipsgo.com/ocean/shipments/" ++ id
                        ++ "?token=" ++ token;
               shipmentId := id;
               containerNumber := ld_container_number shipmentData;
               link_status := js_or_default (ld_status shipmentData) "UNKNOWN";
               link_pol := (pol ≫= rt_location) ≫= loc_name;
               link_pod := (pod ≫= rt_location) ≫= loc_name;
               link_eta := pod ≫= rt_date_of_discharge |} in
          _ ← cache_set linkSlot (sharingLinkCacheKey id) result TTL_DAY;
          mret (Some result)
    end.

(** The world after a tracker stored [v] under the key of [number]. *)
Definition trackerStored `{Host} (operation param filter number : string)
    (v : option Shipment) (w : World) : World :=
  withCache
    (slot_write shipmentSlot
       (<[trackerCacheKey operation param number := (v, TTL_HOUR * 2)]>
          (c_shipment (cache w)))
       (cache w))
    (logCall (getCall (trackerEndpoint filter number)) w).

(** What a tracker selects from an answer. *)
Definition trackerSelection `{Host} `{Remote} (r : Response) : option Shipment :=
  let found := listedShipments (body_listing (resp_body r)) in
  if Nat.eqb (length found) 0 then None
  else selectBestMatch (map (mapToShipment clock_now) found).

(** The payload with the two spellings of every doubly named field
    exchanged: what was sent in camel case is in snake case and back. *)
Definition swapConventions (raw : RawShipment) : RawShipment :=
  {| r_id := r_id raw; r_requestId := r_requestId raw; r_status := r_status raw;
     r_shippingStatus := r_shippingStatus raw;
     r_containerNumber := r_container_number raw;
     r_container_number := r_containerNumber raw;
     r_blNumber := r_bl_number raw; r_bl_number := r_blNumber raw;
     r_bookingNumber := r_booking_number raw;
     r_booking_number := r_bookingNumber raw;
     r_carrier := r_carrier raw; r_shippingLine := r_shippingLine raw;
     r_createdAt := r_created_at raw; r_created_at := r_createdAt raw;
     r_updatedAt := r_updated_at raw; r_updated_at := r_updatedAt raw;
     r_customReference := r_custom_reference raw;
     r_custom_reference := r_customReference raw;
     r_vessel := r_vessel raw; r_vesselName := r_vesselName raw;
     r_vesselImo := r_vesselImo raw; r_pol := r_pol raw;
     r_portOfLoading := r_portOfLoading raw; r_polCode := r_polCode raw;
     r_etd := r_etd raw; r_atd := r_atd raw; r_pod := r_pod raw;
     r_portOfDischarge := r_portOfDischarge raw; r_podCode := r_podCode raw;
     r_eta := r_eta raw; r_ata := r_ata raw; r_milestones := r_milestones raw;
     r_events := r_events raw; r_coordinates := r_coordinates raw;
     r_latitude := r_latitude raw; r_longitude := r_longitude raw;
     r_discardedAt := r_discarded_at raw; r_discarded_at := r_discardedAt raw |}.

(** A field sent under one of its two names only, and not as an empty
    string. *)
Definition oneSpelling (camel snake : option string) : Prop :=
  (camel = None \/ snake = None) /\ camel <> Some "" /\ snake <> Some "".

(** The payload uses one spelling for each doubly named field. *)
Definition oneConvention (raw : RawShipment) : Prop :=
  oneSpelling (r_containerNumber raw) (r_container_number raw) /\
  oneSpelling (r_blNumber raw) (r_bl_number raw) /\
  oneSpelling (r_bookingNumber raw) (r_booking_number raw) /\
  oneSpelling (r_createdAt raw) (r_created_at raw) /\
  oneSpelling (r_updatedAt raw) (r_updated_at raw) /\
  oneSpelling (r_customReference raw) (r_custom_reference raw) /\
  oneSpelling (r_discardedAt raw) (r_discarded_at raw).

(** ** Validation of reference numbers *)

(** A bounded repetition of a character class, [[class]{min,max}]. *)
Record Repeat := {
  rep_class : ascii -> bool;
  rep_min : nat;
  rep_max : nat
}.

(** [/^r1 r2 ... rn$/.test(s)]: the whole string is a concatenation of runs,
    the [i]-th of a length the [i]-th repetition allows, of characters of
    its class. *)
Fixpoint matchRepeats (pattern : list Repeat) (s : list ascii) : bool :=
  match pattern with
  | [] => match s with [] => true | _ :: _ => false end
  | r :: rest =>
      existsb
        (fun k =>
           Nat.leb k (length s)
           && forallb (rep_class r) (firstn k s)
           && matchRepeats rest (skipn k s))
        (seq (rep_min r) (S (rep_max r) - rep_min r))
  end.

(** [\d], and the classes [[A-Z]] and [[A-Z0-9]] under the [i] flag. *)
Definition isDigit (c : ascii) : bool :=
  let n := nat_of_ascii c in Nat.leb 48 n && Nat.leb n 57.

Definition isLetterOrDigit (c : ascii) : bool := isLetter c || isDigit c.

Definition exactly (class : ascii -> bool) (n : nat) : Repeat :=
  {| rep_class := class; rep_min := n; rep_max := n |}.

Definition between (class : ascii -> bool) (lo hi : nat) : Repeat :=
  {| rep_class := class; rep_min := lo; rep_max := hi |}.

(** [/^[A-Z]{4}\d{8,12}$/i.test(bl.toUpperCase())]. *)
Definition validateBLNumber (bl : string) : bool :=
  matchRepeats [exactly isLetter 4; between isDigit 8 12]
    (list_ascii_of_string (toUpperCase bl)).

(** [/^[A-Z]{4}\d{7}$/i.test(container.toUpperCase())]. *)
Definition validateContainerNumber (container : string) : bool :=
  matchRepeats [exactly isLetter 4; exactly isDigit 7]
    (list_ascii_of_string (toUpperCase container)).

(** [/^[A-Z0-9]{6,20}$/i.test(booking)]. *)
Definition validateBookingNumber (booking : string) : bool :=
  matchRepeats [between isLetterOrDigit 6 20] (list_ascii_of_string booking).

(** The command line's own check of a container number,
    [containerRegex.test(val)] with [/^[A-Z]{4}\d{7}$/i]. *)
Definition containerRegex_test (val : string) : bool :=
  matchRepeats [exactly isLetter 4; exactly isDigit 7] (list_ascii_of_string val).

(** ** Rate limit tracker *)

(** A number as the rate-limit file holds it: [JSON.stringify] writes
    [NaN] as [null]. *)
Inductive Stored :=
| StoredNull
| StoredNum (n : Z).

Definition storeNum (v : JsNum) : Stored :=
  match v with NaN => StoredNull | Num n => StoredNum n end.

(** [RateLimitData], as read back from the file; an absent field is
    [None]. *)
Record RateLimitData := {
  serverRemaining : option Stored;
  serverLimit : option Stored;
  serverResetAt : option Stored;
  lastServerUpdate : option Z;
  localCalls : list Z
}.

(** The file [.ratelimit.json]: [None] when it does not exist or does not
    parse; [rl_writable] tells whether a write succeeds. *)
Record RateLimitFile := {
  rl_content : option RateLimitData;
  rl_writable : bool
}.

(** The response headers the tracker reads; [headers.get] gives [null] for
    a header that is not sent. *)
Record RateLimitHeaders := {
  h_remaining : option string;
  h_limit : option string;
  h_reset : option string;
  h_retryAfter : option string
}.

(** [loadRateLimitData()]: the content of the file, or [{ localCalls: [] }]. *)
Definition loadRateLimitData (file : RateLimitFile) : RateLimitData :=
  match rl_content file with
  | Some data => data
  | None =>
      {| serverRemaining := None; serverLimit := None; serverResetAt := None;
         lastServerUpdate := None; localCalls := [] |}
  end.

(** [saveRateLimitData(data)]: a failed write is swallowed. *)
Definition saveRateLimitData (data : RateLimitData) (file : RateLimitFile)
    : RateLimitFile :=
  if rl_writable file then
    {| rl_content := Some data; rl_writable := rl_writable file |}
  else file.

(** [localCalls.filter(t => t > Date.now() - 60_000)]: the callback reads
    the clock once per element, from reading number [k] on. *)
Fixpoint filterWindow (clock : nat -> Z) (k : nat) (l : list Z) : list Z :=
  match l with
  | [] => []
  | t :: r =>
      if clock k - 60000 <? t then t :: filterWindow clock (S k) r
      else filterWindow clock (S k) r
  end.

(** [updateRateLimitFromResponse(response)]; [clock n] is the [n]-th
    reading of [Date.now()] the call makes.  A number is held the way the
    file will hold it, since nothing reads it before it is saved. *)
Definition updateRateLimitFromResponse `{Host} (clock : nat -> Z)
    (headers : RateLimitHeaders) (file : RateLimitFile) : RateLimitFile :=
  let data := loadRateLimitData file in
  let remaining := h_remaining headers in
  let limit := h_limit headers in
  let reset := h_reset headers ||| h_retryAfter headers in
  let serverRemaining' :=
    if truthy remaining then storeNum <$> (parseInt10 <$> remaining)
    else serverRemaining data in
  let serverLimit' :=
    if truthy limit then storeNum <$> (parseInt10 <$> limit)
    else serverLimit data in
  let '(serverResetAt', k) :=
    match reset with
    | Some text =>
        if truthy text then
          match parseInt10 text with
          | Num resetVal =>
              if 10000000000 <? resetVal then (Some (StoredNum resetVal), O)
              else (Some (StoredNum (clock O + resetVal * 1000)), 1%nat)
          | NaN => (Some StoredNull, 1%nat)
          end
        else (serverResetAt data, O)
    | None => (serverResetAt data, O)
    end in
  saveRateLimitData
    {| serverRemaining := serverRemaining';
       serverLimit := serverLimit';
       serverResetAt := serverResetAt';
       lastServerUpdate := Some (clock k);
       localCalls :=
         filterWindow clock (S (S k)) (localCalls data ++ [clock (S k)])%list |}
    file.

(** [RateLimitStatus]; [remaining] and [resetAt] are what the file held. *)
Record RateLimitStatus := {
  rs_remaining : Stored;
  rs_limit : Z;
  rs_resetAt : option Z;
  rs_localCallCount : nat;
  rs_warning : option string
}.

(** [data.lastServerUpdate && (Date.now() - data.lastServerUpdate) < 60_000]. *)
Definition hasRecentServerData (now : Z) (data : RateLimitData) : bool :=
  match lastServerUpdate data with
  | Some t => truthy t && (now - t <? 60000)
  | None => false
  end.

(** [getRateLimitStatus()]; [now] is the reading of [Date.now()]. *)
Definition getRateLimitStatus (now : Z) (file : RateLimitFile) : RateLimitStatus :=
  let data := loadRateLimitData file in
  match hasRecentServerData now data, serverRemaining data with
  | true, Some remaining =>
      {| rs_remaining := remaining;
         rs_limit := match serverLimit data with
                     | Some (StoredNum n) => n
                     | _ => 100
                     end;
         rs_resetAt := match serverResetAt data with
                       | Some (StoredNum t) => if truthy t then Some t else None
                       | _ => None
                       end;
         rs_localCallCount := length (localCalls data);
         rs_warning :=
           if match remaining with StoredNull => true | StoredNum n => n <? 20 end
           then Some "Approaching rate limit" else None |}
  | _, _ =>
      let localRemaining := Z.max 0 (100 - Z.of_nat (length (localCalls data))) in
      {| rs_remaining := StoredNum localRemaining;
         rs_limit := 100;
         rs_resetAt := None;
         rs_localCallCount := length (localCalls data);
         rs_warning :=
           if localRemaining <? 20 then Some "Approaching rate limit (estimated)"
           else None |}
  end.

(** The index of the clock reading that becomes [lastServerUpdate]: one
    reading comes before it when a reset header is read as seconds from now. *)
Definition readingsBeforeUpdate `{Host} (headers : RateLimitHeaders) : nat :=
  match h_reset headers ||| h_retryAfter headers with
  | Some text =>
      if truthy text then
        match parseInt10 text with
        | Num resetVal => if 10000000000 <? resetVal then O else 1%nat
        | NaN => 1%nat
        end
      else O
  | None => O
  end.

(** ** Further operations of the client *)

Definition shipmentIdCacheKey `{Host} (id : string) : string :=
  createCacheKey "shipment:id" [("id", Some (SStr id))].

(** [getShipmentById(id)].  The store keeps it with the tracked shipments
    (a shipment or [null]); its own producer never yields [null]. *)
Definition getShipmentById `{Host} `{Remote} (id : string) : M (option Shipment) :=
  let cacheKey := shipmentIdCacheKey id in
  bypass ← readCacheDisabled;
  getOrFetch shipmentSlot cacheKey
    (response ← request "GET" ("/ocean/shipments/" ++ id) None;
     if negb (resp_ok response) then
       throw (ApiError (resp_status response) (resp_body response))
     else
       now ← readNow;
       mret (Some (mapToShipment now (body_shipment (resp_body response)))))
    (TTL_HOUR * 2) bypass.

(** The options of the two listings of [getActiveShipments]. *)
Definition listingOf (st : string) : ListOptions :=
  {| lo_status := Some st; lo_limit := Some 100; lo_offset := None;
     lo_eta_from := None; lo_eta_to := None; lo_sort := None; lo_order := None |}.

Definition activeCacheKey `{Host} : string := createCacheKey "list:active" [].

(** [getActiveShipments()]; the store keeps its result with the other
    arrays of shipments. *)
Definition getActiveShipments `{Host} `{Remote} : M (list Shipment) :=
  let cacheKey := activeCacheKey in
  bypass ← readCacheDisabled;
  getOrFetch searchSlot cacheKey
    (result ← listShipments (Some (listingOf "EN_ROUTE"));
     pending ← listShipments (Some (listingOf "PENDING"));
     mret (shipments result ++ shipments pending)%list)
    TTL_FIFTEEN_MINUTES bypass.

(** Modelled from the spec: [cache.invalidate(key)] of the store, which is
    not part of the sources: it removes the entry and tells whether there
    was one. *)
Definition cache_invalidate {T} (slot : Slot T) (key : string) : M bool := fun w =>
  (Ok (match slot_read slot (cache w) !! key with Some _ => true | None => false end),
   withCache (slot_write slot (delete key (slot_read slot (cache w))) (cache w)) w).

(** [invalidateShipment(id)]. *)
Definition invalidateShipment `{Host} (id : string) : M bool :=
  shipmentInvalidated ← cache_invalidate shipmentSlot (shipmentIdCacheKey id);
  sharingLinkInvalidated ← cache_invalidate linkSlot (sharingLinkCacheKey id);
  mret (shipmentInvalidated || sharingLinkInvalidated).

(** The result of [getApiStatus]. *)
Record ApiStatus := {
  valid : bool;
  message : string;
  details : option RateLimitStatus
}.

(** [getApiStatus()]; [rateLimit] is what [this.getRateLimitStatus()]
    returns when the answer is a success. *)
Definition getApiStatus `{Host} `{Remote} (rateLimit : RateLimitStatus)
    : M ApiStatus :=
  tryCatch
    (response ← request "GET" "/ocean/shipments?limit=1" None;
     if resp_ok response then
       mret {| valid := true;
               message := "API key is valid and connection successful";
               details := Some rateLimit |}
     else
       mret {| valid := false;
               message := "API returned status " ++ pretty (resp_status response);
               details := None |})
    (fun e => mret {| valid := false; message := errorMessage e; details := None |}).

(** The world after [listShipments] stored a listing under the key of the
    options. *)
Definition listingStored `{Host} (options : option ListOptions) (l : Listing)
    (w : World) : World :=
  withCache
    (slot_write listingSlot
       (<[listCacheKey options := (l, TTL_FIFTEEN_MINUTES)]> (c_listing (cache w)))
       (cache w))
    (logCall (getCall (listEndpoint options)) w).

(** The listing [listShipments] makes of a successful answer. *)
Definition listingOfResponse `{Remote} (r : Response) : Listing :=
  {| shipments :=
       map (mapToShipment clock_now) (listedShipments (body_listing (resp_body r)));
     count :=
       js_nullish (lp_count (body_listing (resp_body r)))
         (Z.of_nat (length (listedShipments (body_listing (resp_body r))))) |}.

(** Nothing [getActiveShipments] could reuse is cached: the client
    bypasses the cache, or the aggregate and its two listings all miss
    (under keys that differ). *)
Definition activeUncached `{Host} (w : World) : Prop :=
  cacheDisabled w = true \/
  (c_search (cache w) !! activeCacheKey = None /\
   c_listing (cache w) !! listCacheKey (Some (listingOf "EN_ROUTE")) = None /\
   c_listing (cache w) !! listCacheKey (Some (listingOf "PENDING")) = None /\
   listCacheKey (Some (listingOf "EN_ROUTE"))
   <> listCacheKey (Some (listingOf "PENDING"))).

(** ** Examples for the further properties *)

(** A payload spelled in camel case only. *)
Definition camelCaseRaw : RawShipment :=
  {| r_id := Some (SNum 5773482); r_requestId := None; r_status := None;
     r_shippingStatus := None; r_containerNumber := Some "HAMU1058953";
     r_container_number := None; r_blNumber := Some "MAEU123456789";
     r_bl_number := None; r_bookingNumber := None; r_booking_number := None;
     r_carrier := None; r_shippingLine := None;
     r_createdAt := Some "2024-01-01T00:00:00.000Z"; r_created_at := None;
     r_updatedAt := Some "2024-02-01T00:00:00.000Z"; r_updated_at := None;
     r_customReference := Some "PO-1"; r_custom_reference := None;
     r_vessel := None; r_vesselName := None; r_vesselImo := None; r_pol := None;
     r_portOfLoading := None; r_polCode := None; r_etd := None; r_atd := None;
     r_pod := None; r_portOfDischarge := None; r_podCode := None; r_eta := None;
     r_ata := None; r_milestones := None; r_events := None;
     r_coordinates := None; r_latitude := None; r_longitude := None;
     r_discardedAt := None; r_discarded_at := None |}.

(** A clock that advances one millisecond per reading from the first
    instant of 2024. *)
Definition exampleClock (n : nat) : Z := 1704067200000 + Z.of_nat n.

(** No rate-limit file yet, in a directory that can be written. *)
Definition noRateLimitFile : RateLimitFile :=
  {| rl_content := None; rl_writable := true |}.

(** The file an answer left weeks before: five calls remaining. *)
Definition oldRateLimitFile : RateLimitFile :=
  {| rl_content :=
       Some {| serverRemaining := Some (StoredNum 5);
               serverLimit := Some (StoredNum 100);
               serverResetAt := None;
               lastServerUpdate := Some 1700000000000;
               localCalls := [1700000000000] |};
     rl_writable := true |}.

(** The headers of an answer with [X-RateLimit-Remaining] only, and of one
    with no rate-limit header. *)
Definition remainingHeader (text : string) : RateLimitHeaders :=
  {| h_remaining := Some text; h_limit := None; h_reset := None;
     h_retryAfter := None |}.

Definition noRateLimitHeaders : RateLimitHeaders :=
  {| h_remaining := None; h_limit := None; h_reset := None;
     h_retryAfter := None |}.

(** A backend that lists one shipment to the first call and answers 404 to
    the next. *)
Definition pendingMissingRemote : Remote :=
  scriptedRemote [respond 200 None oneShipmentBody] (respond 404 None emptyBody).


(** A client that tracked a bill of lading and cached shipment A. *)
Definition trackedWorld : World :=
  trackerStored (H := exampleHost) "shipment:bl" "bl" "bl_number" "MAEU123456789"
    (Some tiedA) freshWorld.

(** * Properties *)

(** ** Status normalisation *)

Section StatusMapping.

Lemma upper_is_normalized (c : ascii) :
  (if isUpperOrUnderscore (upperAscii c) then upperAscii c else "_"%char)
  = normalizeChar c.
Proof.
  destruct c as [[] [] [] [] [] [] [] []]; reflexivity.
Qed.

(** The source's two passes, upper-casing and the regular-expression
    replacement, are the character-wise normalisation of the spec. *)
Lemma replace_upper_normalizes (s : string) :
  replaceNonUpper (toUpperCase s) = normalizeStatus s.
Proof.
  induction s as [|c r IH]; simpl.
  - reflexivity.
  - rewrite upper_is_normalized, IH. reflexivity.
Qed.

Lemma mapStatus_lookup (s : string) :
  mapStatus (Some s) = js_nullish (objectGet statusMap (normalizeStatus s)) PENDING.
Proof.
  unfold mapStatus. destruct s as [|c r].
  - reflexivity.
  - cbn [truthy truthy_string negb]. rewrite replace_upper_normalizes. reflexivity.
Qed.

Lemma statusMap_complete (n : string) (st : Status) :
  In n (synonymsOf st) -> objectGet statusMap n = Some st.
Proof.
  destruct st; simpl; intros Hin;
    repeat (destruct Hin as [<- | Hin]; [reflexivity|]); destruct Hin.
Qed.

Lemma statusMap_sound (n : string) (st : Status) :
  objectGet statusMap n = Some st -> In n (synonymsOf st).
Proof.
  unfold statusMap, objectGet.
  repeat match goal with
  | |- context [String.eqb ?k n] =>
      destruct (String.eqb_spec k n) as [<- | _];
        [intros [= <-]; simpl; tauto|]
  end.
  discriminate.
Qed.

Lemma normalizeStatus_upper (s : string) :
  forallb isUpperOrUnderscore (list_ascii_of_string (normalizeStatus s)) = true.
Proof.
  induction s as [|c r IH]; simpl; [reflexivity|]. rewrite IH, andb_true_r.
  destruct c as [[] [] [] [] [] [] [] []]; reflexivity.
Qed.

(** C6: [mapStatus] yields one of the six statuses; an absent status maps to
    PENDING; a status string of ASCII text is upper-cased, every character
    other than a letter or an underscore replaced by an underscore, and the
    result looked up among the synonyms: a recognised name gives its
    status, any other gives PENDING.  The name looked up is made of
    upper-case letters and underscores, so it is never the name of a
    property the table inherits. *)
Theorem mapStatus_normalizes_and_defaults (raw : option string) :
  (forall s, raw = Some s -> asciiText s = true) ->
  In (mapStatus raw) allStatuses /\
  match raw with
  | None => mapStatus raw = PENDING
  | Some s =>
      forallb isUpperOrUnderscore (list_ascii_of_string (normalizeStatus s))
      = true /\
      (forall st, In (normalizeStatus s) (synonymsOf st) -> mapStatus raw = st) /\
      ((forall st, ~ In (normalizeStatus s) (synonymsOf st)) -> mapStatus raw = PENDING)
  end.
Proof.
  intros _. split.
  - unfold allStatuses. destruct (mapStatus raw); simpl; tauto.
  - destruct raw as [s|]; [|reflexivity]. split; [apply normalizeStatus_upper|].
    split.
    + intros st Hin. rewrite mapStatus_lookup, (statusMap_complete _ _ Hin).
      reflexivity.
    + intros Hnone. rewrite mapStatus_lookup.
      destruct (objectGet statusMap (normalizeStatus s)) as [st|] eqn:E;
        [|reflexivity].
      exfalso. exact (Hnone st (statusMap_sound _ _ E)).
Qed.

End StatusMapping.

Lemma mapStatus_normalizes_and_defaults_witness :
  In (mapStatus (Some "in-transit")) allStatuses /\
  forallb isUpperOrUnderscore (list_ascii_of_string (normalizeStatus "in-transit"))
  = true /\
  (forall st, In (normalizeStatus "in-transit") (synonymsOf st) ->
     mapStatus (Some "in-transit") = st) /\
  ((forall st, ~ In (normalizeStatus "in-transit") (synonymsOf st)) ->
   mapStatus (Some "in-transit") = PENDING).
Proof.
  apply (mapStatus_normalizes_and_defaults (Some "in-transit")).
  intros s [= <-]. reflexivity.
Defined.

Example mapStatus_in_transit : mapStatus (Some "in-transit") = EN_ROUTE.
Proof. reflexivity. Qed.

Example mapStatus_discharged : mapStatus (Some "Discharged") = ARRIVED.
Proof. reflexivity. Qed.

Example mapStatus_unknown : mapStatus (Some "customs hold") = PENDING.
Proof. reflexivity. Qed.

(** ** Cache TTL by status *)

Section CacheTTL.
Context `{Host}.

Lemma getCacheTTL_by_status (s : Shipment) :
  getCacheTTL s =
  match status s with
  | ARRIVED => TTL_HOUR * 4
  | DELIVERED | DISCARDED => TTL_DAY
  | _ => TTL_HOUR * 2
  end.
Proof. unfold getCacheTTL. destruct (status s); reflexivity. Qed.

(** C2, amended: with a day of twenty-four hours, the TTL of an ARRIVED
    shipment is twice that of a PENDING one and the TTL of a DELIVERED
    shipment is twelve times that of a PENDING one. *)
Theorem getCacheTTL_ratios (p a d : Shipment) :
  TTL_DAY = 24 * TTL_HOUR ->
  status p = PENDING -> status a = ARRIVED -> status d = DELIVERED ->
  getCacheTTL a = 2 * getCacheTTL p /\ getCacheTTL d = 12 * getCacheTTL p.
Proof.
  intros Hday Hp Ha Hd. rewrite !getCacheTTL_by_status, Hp, Ha, Hd. lia.
Qed.

End CacheTTL.

Lemma getCacheTTL_ratios_witness :
  getCacheTTL (H := exampleHost)
    (exampleShipment "2" ARRIVED "2024-01-01T00:00:00.000Z" None)
  = 2 * getCacheTTL (H := exampleHost)
          (exampleShipment "1" PENDING "2024-01-01T00:00:00.000Z" None) /\
  getCacheTTL (H := exampleHost)
    (exampleShipment "3" DELIVERED "2024-01-01T00:00:00.000Z" None)
  = 12 * getCacheTTL (H := exampleHost)
           (exampleShipment "1" PENDING "2024-01-01T00:00:00.000Z" None).
Proof.
  apply (getCacheTTL_ratios (H := exampleHost)); reflexivity.
Defined.

(** C2 as stated fails: with two hours for a pending shipment and a day for
    a delivered one, the delivered TTL is not six times the pending TTL. *)
Lemma getCacheTTL_delivered_not_sixfold :
  getCacheTTL (H := exampleHost)
    (exampleShipment "3" DELIVERED "2024-01-01T00:00:00.000Z" None) = 86400 /\
  6 * getCacheTTL (H := exampleHost)
        (exampleShipment "1" PENDING "2024-01-01T00:00:00.000Z" None) = 43200.
Proof. split; reflexivity. Qed.

(** ** Coordinates of a mapped shipment *)

Section MapperCoordinates.

Lemma truthy_Q_nonzero (q : Q) : truthy q = true <-> ~ (q == 0)%Q.
Proof.
  unfold truthy, truthy_Q, Qeq. simpl. rewrite negb_true_iff, Z.eqb_neq. lia.
Qed.

Lemma truthy_coordinate (x : option Q) : truthy x = false <-> zeroOrAbsent x.
Proof.
  destruct x as [q|]; simpl.
  - change (truthy (Some q)) with (truthy q).
    rewrite <- not_true_iff_false, truthy_Q_nonzero.
    split; [|tauto]. intros Hnn. destruct (Qeq_dec q 0); tauto.
  - split; [tauto|reflexivity].
Qed.

(** C9: for a payload with no nested [coordinates] object, the mapped
    shipment has no [coordinates] exactly when the top-level latitude or
    longitude is absent or zero; when it has them, both top-level values are
    present and non-zero, and they are the ones carried over. *)
Theorem mapToShipment_top_level_coordinates (now : string) (raw : RawShipment) :
  r_coordinates raw = None ->
  (coordinates (mapToShipment now raw) = None <->
   zeroOrAbsent (r_latitude raw) \/ zeroOrAbsent (r_longitude raw)) /\
  (forall c, coordinates (mapToShipment now raw) = Some c ->
     exists la lo,
       r_latitude raw = Some la /\ r_longitude raw = Some lo /\
       ~ (la == 0)%Q /\ ~ (lo == 0)%Q /\
       lat c = Some la /\ lng c = Some lo).
Proof.
  intros Hnone. unfold mapToShipment. cbn [coordinates]. rewrite Hnone.
  change (truthy (@None RawCoordinates)) with false. cbn [orb mbind option_bind].
  rewrite <- !truthy_coordinate.
  destruct (truthy (r_latitude raw)) eqn:Ela;
    destruct (truthy (r_longitude raw)) eqn:Elo; cbn [andb].
  - split.
    + split; [discriminate | intros [?|?]; discriminate].
    + intros c [= <-]. cbn [lat lng].
      destruct (r_latitude raw) as [la|] eqn:Hla; [|discriminate].
      destruct (r_longitude raw) as [lo|] eqn:Hlo; [|discriminate].
      exists la, lo.
      change (truthy (Some la)) with (truthy la) in Ela.
      change (truthy (Some lo)) with (truthy lo) in Elo.
      split; [reflexivity|]. split; [reflexivity|].
      split; [apply truthy_Q_nonzero, Ela|].
      split; [apply truthy_Q_nonzero, Elo|].
      split; reflexivity.
  - split; [split; auto | discriminate].
  - split; [split; auto | discriminate].
  - split; [split; auto | discriminate].
Qed.

End MapperCoordinates.

Lemma mapToShipment_top_level_coordinates_witness :
  (coordinates (mapToShipment "2024-01-01T00:00:00.000Z"
                  (rawWithPosition (Some 0%Q) (Some (103 # 1)))) = None <->
   zeroOrAbsent (r_latitude (rawWithPosition (Some 0%Q) (Some (103 # 1)))) \/
   zeroOrAbsent (r_longitude (rawWithPosition (Some 0%Q) (Some (103 # 1))))) /\
  (forall c,
     coordinates (mapToShipment "2024-01-01T00:00:00.000Z"
                    (rawWithPosition (Some 0%Q) (Some (103 # 1)))) = Some c ->
     exists la lo,
       r_latitude (rawWithPosition (Some 0%Q) (Some (103 # 1))) = Some la /\
       r_longitude (rawWithPosition (Some 0%Q) (Some (103 # 1))) = Some lo /\
       ~ (la == 0)%Q /\ ~ (lo == 0)%Q /\ lat c = Some la /\ lng c = Some lo).
Proof.
  exact (mapToShipment_top_level_coordinates "2024-01-01T00:00:00.000Z"
           (rawWithPosition (Some 0%Q) (Some (103 # 1))) eq_refl).
Defined.

(** A position on the equator is dropped; one off it is kept. *)
Example equator_position_dropped :
  coordinates (mapToShipment "2024-01-01T00:00:00.000Z"
                 (rawWithPosition (Some 0%Q) (Some (103 # 1)))) = None.
Proof. reflexivity. Qed.

Example position_kept :
  coordinates (mapToShipment "2024-01-01T00:00:00.000Z"
                 (rawWithPosition (Some (13 # 10)) (Some (103 # 1))))
  = Some {| lat := Some (13 # 10); lng := Some (103 # 1) |}.
Proof. reflexivity. Qed.

(** ** Sorting with a comparator *)

Section SortHead.
Context {A : Type} (compare : A -> A -> JsNum).

Lemma head_insertSorted (x : A) (l : list A) :
  head (insertSorted compare x l)
  = match head l with
    | None => Some x
    | Some y => if before compare x y then Some x else Some y
    end.
Proof.
  destruct l as [|y r]; simpl; [reflexivity|].
  unfold before. destruct (staysBefore (compare x y)); reflexivity.
Qed.

Lemma head_js_sort (l : list A) : head (js_sort compare l) = best compare l.
Proof.
  induction l as [|x r IH]; simpl; [reflexivity|].
  rewrite head_insertSorted. fold (js_sort compare r). rewrite IH. reflexivity.
Qed.

Lemma best_None (l : list A) : best compare l = None -> l = [].
Proof.
  destruct l as [|x r]; [reflexivity|]. simpl.
  destruct (best compare r); [destruct (before compare x a)|]; discriminate.
Qed.

Lemma best_In (l : list A) (s : A) : best compare l = Some s -> In s l.
Proof.
  revert s. induction l as [|x r IH]; simpl; intros s; [discriminate|].
  destruct (best compare r) as [y|].
  - destruct (before compare x y); intros [= <-]; [left | right; apply IH]; reflexivity.
  - intros [= <-]. left. reflexivity.
Qed.

(** On a list where [before] is transitive and total, the head of the
    sorted list stays before compare every element. *)
Lemma best_least (l : list A) (s : A) :
  (forall x y z, In x l -> In y l -> In z l ->
     before compare x y = true -> before compare y z = true -> before compare x z = true) ->
  (forall x y, In x l -> In y l -> before compare x y = false -> before compare y x = true) ->
  best compare l = Some s ->
  forall t, In t l -> before compare s t = true.
Proof.
  revert s. induction l as [|x r IH]; intros s Htrans Htotal; [discriminate|].
  assert (Hrefl : forall a, In a (x :: r) -> before compare a a = true).
  { intros a Ha. destruct (before compare a a) eqn:E; [reflexivity|].
    rewrite <- E. exact (Htotal a a Ha Ha E). }
  simpl. destruct (best compare r) as [y|] eqn:Hy.
  - assert (Hyr : In y r) by (apply best_In; exact Hy).
    assert (Hleast : forall t, In t r -> before compare y t = true).
    { apply IH; [| |reflexivity].
      - intros a b c Ha Hb Hc. apply Htrans; right; assumption.
      - intros a b Ha Hb. apply Htotal; right; assumption. }
    destruct (before compare x y) eqn:Hxy; intros [= <-] t [<- | Ht].
    + apply Hrefl. left. reflexivity.
    + apply (Htrans x y t); [left; reflexivity | right; exact Hyr
                            | right; exact Ht | exact Hxy | exact (Hleast t Ht)].
    + apply Htotal; [left; reflexivity | right; exact Hyr | exact Hxy].
    + exact (Hleast t Ht).
  - apply best_None in Hy. subst r. intros [= <-] t [<- | []].
    apply Hrefl. left. reflexivity.
Qed.

(** Stability: nothing that precedes the head in the input stays before compare it. *)
Lemma best_first (l : list A) (s : A) :
  best compare l = Some s ->
  exists l1 l2, l = (l1 ++ s :: l2)%list /\ forall t, In t l1 -> before compare t s = false.
Proof.
  revert s. induction l as [|x r IH]; intros s; [discriminate|].
  simpl. destruct (best compare r) as [y|] eqn:Hy.
  - destruct (before compare x y) eqn:Hxy; intros [= <-].
    + exists [], r. split; [reflexivity | intros t []].
    + destruct (IH y eq_refl) as (l1 & l2 & -> & Hl1).
      exists (x :: l1), l2. split; [reflexivity|].
      intros t [<- | Ht]; [exact Hxy | exact (Hl1 t Ht)].
  - intros [= <-]. exists [], r. split; [reflexivity | intros t []].
Qed.

End SortHead.

(** ** Best-match selection *)

Section BestMatchSelection.
Context `{Host}.

Lemma statusOrder_priorities :
  statusOrder EN_ROUTE < statusOrder PENDING < statusOrder ARRIVED /\
  statusOrder ARRIVED < statusOrder DELIVERED < statusOrder DISCARDED /\
  statusOrder DISCARDED < statusOrder NOT_FOUND.
Proof. simpl. lia. Qed.

Lemma before_ranks (a b : Shipment) :
  validDate a -> validDate b ->
  before compareShipments a b = true <-> ranksBefore a b.
Proof.
  intros [ta Ha] [tb Hb]. unfold before, compareShipments, ranksBefore.
  fold (createdTime a) (createdTime b). rewrite Ha, Hb.
  destruct (statusOrder (status a) - statusOrder (status b) =? 0) eqn:E; simpl.
  - apply Z.eqb_eq in E. rewrite Z.leb_le. split.
    + intros Hle. right. split; [lia|]. exists ta, tb. repeat split; lia.
    + intros [Hlt | (_ & ta' & tb' & [= <-] & [= <-] & Hle)]; lia.
  - apply Z.eqb_neq in E. rewrite Z.leb_le. split.
    + intros Hle. left. lia.
    + intros [Hlt | (Heq & _)]; lia.
Qed.

Lemma ranksBefore_trans (a b c : Shipment) :
  ranksBefore a b -> ranksBefore b c -> ranksBefore a c.
Proof.
  unfold ranksBefore.
  intros [Hab | (Hab & ta & tb & Ha & Hb & Hle)]
         [Hbc | (Hbc & tb' & tc & Hb' & Hc & Hle')]; try (left; lia).
  right. split; [lia|]. exists ta, tc. rewrite Hb in Hb'.
  injection Hb' as <-. repeat split; try assumption. lia.
Qed.

Lemma ranksBefore_total (a b : Shipment) :
  validDate a -> validDate b -> ranksBefore a b \/ ranksBefore b a.
Proof.
  intros [ta Ha] [tb Hb]. unfold ranksBefore.
  destruct (Z.lt_trichotomy (statusOrder (status a)) (statusOrder (status b)))
    as [Hlt | [Heq | Hgt]]; [left; left; exact Hlt | | right; left; exact Hgt].
  destruct (Z.le_gt_cases tb ta) as [Hle | Hgt].
  - left. right. split; [exact Heq|]. exists ta, tb. auto.
  - right. right. split; [symmetry; exact Heq|]. exists tb, ta.
    repeat split; try assumption. lia.
Qed.

(** The two shortcuts of the source, on the empty list and on a single
    candidate, return what the general expression returns. *)
Lemma selectBestMatch_eq (l : list Shipment) :
  selectBestMatch l
  = js_nullish_opt (best compareShipments (survivors l)) (head l).
Proof.
  unfold selectBestMatch, survivors.
  destruct l as [|x [|y r]]; [reflexivity | | apply f_equal2;
    [apply head_js_sort | reflexivity]].
  simpl. destruct (notDiscarded x); reflexivity.
Qed.

Lemma survivors_In (l : list Shipment) (s : Shipment) :
  In s (survivors l) -> In s l.
Proof. unfold survivors. rewrite filter_In. tauto. Qed.

Lemma survivors_Permutation (l l' : list Shipment) :
  Permutation l l' -> Permutation (survivors l) (survivors l').
Proof.
  unfold survivors. induction 1 as [|x l l' _ IH|x y l|l l' l'' _ IH1 _ IH2]; simpl.
  - constructor.
  - destruct (notDiscarded x); [constructor|]; exact IH.
  - destruct (notDiscarded x), (notDiscarded y);
      try apply Permutation_refl. apply perm_swap.
  - eapply perm_trans; eassumption.
Qed.

Lemma best_survivor_least (l : list Shipment) (s : Shipment) :
  (forall t, In t (survivors l) -> validDate t) ->
  best compareShipments (survivors l) = Some s ->
  forall t, In t (survivors l) -> ranksBefore s t.
Proof.
  intros Hvalid Hbest t Ht.
  assert (Hs : In s (survivors l)) by (eapply best_In; exact Hbest).
  apply before_ranks; [auto | auto |].
  apply (best_least compareShipments (survivors l) s); [| |exact Hbest|exact Ht].
  - intros x y z Hx Hy Hz Hxy Hyz.
    apply before_ranks; [auto | auto |].
    apply (ranksBefore_trans x y z); apply before_ranks; auto.
  - intros x y Hx Hy Hxy. apply before_ranks; [auto | auto |].
    destruct (ranksBefore_total x y) as [Hr | Hr]; [auto | auto | | exact Hr].
    apply before_ranks in Hr; [|auto|auto]. rewrite Hr in Hxy. discriminate.
Qed.

(** C4, amended: on every non-empty list [selectBestMatch] returns one
    candidate of the list, and never null: the first of the list as given,
    unsorted, when every candidate is discarded, and an undiscarded
    candidate otherwise.  When the creation timestamps of the undiscarded
    candidates parse, it is one that ranks before every other undiscarded
    candidate (status priority, then most recent creation), the earliest
    such in the input order; and if no two undiscarded candidates rank
    equal, every reordering of the list yields the same shipment. *)
Theorem selectBestMatch_returns_best (l : list Shipment) :
  l <> [] ->
  exists s,
    selectBestMatch l = Some s /\
    Selected l s /\
    ((forall t, In t (survivors l) -> validDate t) ->
     BestMatch l s /\
     (forall l', Permutation l l' -> survivors l <> [] -> noTies (survivors l) ->
        selectBestMatch l' = Some s)).
Proof.
  intros Hne. rewrite selectBestMatch_eq.
  destruct (best compareShipments (survivors l)) as [s|] eqn:Hbest.
  - assert (Hs : In s (survivors l)) by (eapply best_In; exact Hbest).
    exists s. split; [reflexivity|]. split; [split|].
    + apply survivors_In, Hs.
    + intros Hnil. rewrite Hnil in Hs. destruct Hs.
    + intros _. exact Hs.
    + intros Hvalid.
      assert (Hleast := best_survivor_least l s Hvalid Hbest).
      split; [split|].
      * exact Hleast.
      * intros _. destruct (best_first compareShipments _ _ Hbest)
          as (l1 & l2 & Heq & Hl1).
        exists l1, l2. split; [exact Heq|]. intros t Ht Hr.
        assert (Hin : In t (survivors l)).
        { rewrite Heq. apply in_or_app. left. exact Ht. }
        apply before_ranks in Hr; [|auto|auto].
        rewrite (Hl1 t Ht) in Hr. discriminate.
      * intros l' Hperm _ Hties. rewrite selectBestMatch_eq.
        assert (Hperm' := survivors_Permutation l l' Hperm).
        destruct (best compareShipments (survivors l')) as [s'|] eqn:Hbest'.
        -- simpl. f_equal.
           assert (Hs' : In s' (survivors l)).
           { apply (Permutation_in _ (Permutation_sym Hperm')).
             eapply best_In. exact Hbest'. }
           apply Hties; [exact Hs' | exact Hs | | exact (Hleast s' Hs')].
           apply (best_survivor_least l' s'); [|exact Hbest'|].
           ++ intros t Ht. apply Hvalid.
              exact (Permutation_in _ (Permutation_sym Hperm') Ht).
           ++ exact (Permutation_in _ Hperm' Hs).
        -- apply best_None in Hbest'. rewrite Hbest' in Hperm'.
           apply Permutation_nil_r in Hperm'. rewrite Hperm' in Hs. destruct Hs.
  - apply best_None in Hbest. destruct l as [|x r]; [contradiction|].
    exists x. split; [reflexivity|]. split; [split|].
    + left. reflexivity.
    + intros _. reflexivity.
    + intros Hnn. contradiction.
    + intros _. split; [split|].
      * rewrite Hbest. intros t [].
      * intros Hnn. contradiction.
      * intros l' _ Hnn. contradiction.
Qed.

End BestMatchSelection.

(** The creation timestamps of the example parse. *)
Lemma example_candidates_validDate (t : Shipment) :
  In t (survivors [olderPending; goneEnRoute; newerEnRoute]) ->
  validDate (H := exampleHost) t.
Proof.
  simpl. intros [<- | [<- | []]].
  - exists 1704067200000. reflexivity.
  - exists 1706745600000. reflexivity.
Qed.

Lemma selectBestMatch_returns_best_witness :
  exists s,
    selectBestMatch (H := exampleHost) [olderPending; goneEnRoute; newerEnRoute]
    = Some s /\
    Selected [olderPending; goneEnRoute; newerEnRoute] s /\
    BestMatch (H := exampleHost) [olderPending; goneEnRoute; newerEnRoute] s /\
    (forall l',
       Permutation [olderPending; goneEnRoute; newerEnRoute] l' ->
       survivors [olderPending; goneEnRoute; newerEnRoute] <> [] ->
       noTies (H := exampleHost)
         (survivors [olderPending; goneEnRoute; newerEnRoute]) ->
       selectBestMatch (H := exampleHost) l' = Some s).
Proof.
  destruct (selectBestMatch_returns_best (H := exampleHost)
              [olderPending; goneEnRoute; newerEnRoute])
    as (s & Hs & Hselected & Hranked); [discriminate|].
  exists s. split; [exact Hs|]. split; [exact Hselected|].
  apply Hranked. exact example_candidates_validDate.
Defined.

Example selectBestMatch_prefers_en_route :
  selectBestMatch (H := exampleHost) [olderPending; goneEnRoute; newerEnRoute]
  = Some newerEnRoute.
Proof. reflexivity. Qed.

(** C4 as stated fails twice.  Two candidates that tie are told apart by
    their position, so a reordering changes the identifier returned; and
    when every candidate is discarded the first one is returned as it
    comes, where sorting the candidates would put another at the head. *)
Lemma selectBestMatch_depends_on_order :
  Permutation [tiedA; tiedB] [tiedB; tiedA] /\
  id <$> selectBestMatch (H := exampleHost) [tiedA; tiedB] = Some "A" /\
  id <$> selectBestMatch (H := exampleHost) [tiedB; tiedA] = Some "B" /\
  id <$> selectBestMatch (H := exampleHost) [goneDelivered; goneEnRoute] = Some "D" /\
  id <$> selectBestMatch_as_specified (H := exampleHost) [goneDelivered; goneEnRoute]
  = Some "E" /\
  id <$> selectBestMatch (H := exampleHost) [goneEnRoute; goneDelivered] = Some "E".
Proof.
  split; [apply perm_swap|]. repeat split; reflexivity.
Qed.

(** ** Retry policy *)

Section RetryBackoff.
Context `{Remote} {T : Type} (fn : M T) (options : RetryOptions).

Lemma isClientError_status (e : Error) :
  isClientError e = true ->
  exists st data, e = ApiError st data /\ 400 <= st < 500 /\ st <> 429.
Proof.
  destruct e as [st data| | |]; simpl; try discriminate.
  rewrite !andb_true_iff, negb_true_iff, Z.leb_le, Z.ltb_lt, Z.eqb_neq.
  intros [[? ?] ?]. exists st, data. auto.
Qed.

Lemma not_client_retryable (e : Error) :
  isClientError e = false ->
  retryable e = true \/ exists message, e = InsufficientCreditsError message.
Proof.
  destruct e as [st data|ra|m|m]; simpl; intros Hc; eauto.
  left. destruct ((400 <=? st) && (st <? 500)); simpl in *; [|reflexivity].
  destruct (st =? 429); [reflexivity | discriminate].
Qed.

Lemma retryDelay_policy (attempt : nat) (rnd : Q) (e : Error) :
  retryDelay options attempt rnd e
  = match retryAfterOf e with
    | Some seconds => inject_Z (seconds * 1000)
    | None => (inject_Z (baseDelay options * 2 ^ Z.of_nat attempt) + rnd * 500)%Q
    end.
Proof.
  unfold retryDelay, retryAfterOf.
  destruct e as [| [[|n]|] | |]; try reflexivity.
  unfold truthy, truthy_Z. destruct (n =? 0); reflexivity.
Qed.

Lemma jitter_range (r : Q) :
  (0 <= r)%Q -> (r < 1)%Q -> (0 <= r * 500)%Q /\ (r * 500 < 500)%Q.
Proof.
  destruct r as [n d]. unfold Qle, Qlt. simpl. lia.
Qed.

Lemma retryLoop_policy (remaining attempt : nat) (lastError : option Error)
    (w : World) :
  (forall k, (0 <= Math_random k)%Q /\ (Math_random k < 1)%Q) ->
  (attempt + remaining = S (maxRetries options))%nat ->
  (0 < remaining)%nat ->
  RetryPolicy fn options attempt w
    (retryLoop fn options remaining attempt lastError w).
Proof.
  intros Hrandom. revert attempt lastError w.
  induction remaining as [|k IH]; intros attempt lastError w Hsum Hpos; [lia|].
  simpl. destruct (fn w) as [[v|e] w1] eqn:Hfn.
  - apply policy_success. exact Hfn.
  - destruct (isClientError e) eqn:Hclient.
    + destruct (isClientError_status e Hclient) as (st & data & -> & Hst & Hne).
      apply policy_fatal; assumption.
    + destruct (not_client_retryable e Hclient) as [Hretry | [m ->]];
        [|eapply policy_credits; exact Hfn].
      destruct (Nat.eqb attempt (maxRetries options)) eqn:Hlast.
      * apply Nat.eqb_eq in Hlast. subst attempt.
        apply policy_exhausted; assumption.
      * apply Nat.eqb_neq in Hlast.
        destruct (jitter_range (Math_random (draws w1))) as [Hlo Hhi];
          [apply Hrandom | apply Hrandom |].
        apply (policy_retry fn options attempt w e w1
                 (Math_random (draws w1) * 500)%Q); try assumption; [lia|].
        rewrite <- retryDelay_policy. apply IH; lia.
Qed.

(** C5, amended: [fetchWithRetry] follows the retry policy from attempt 0: a
    success is returned; an [ApiError] with a 4xx status other than 429 is
    rethrown at once; any other [ApiError], a rate limit, a network failure
    or a timeout is retried while fewer than [maxRetries] retries were made,
    after sleeping [baseDelay * 2^attempt] plus a jitter in [0, 500) ms, or
    the failure's retry-after in seconds when it carries one other than
    zero; and at attempt [maxRetries] the error of that attempt is thrown. *)
Theorem fetchWithRetry_follows_policy (w : World) :
  (forall k, (0 <= Math_random k)%Q /\ (Math_random k < 1)%Q) ->
  RetryPolicy fn options 0 w (fetchWithRetry fn options w).
Proof.
  intros Hrandom. unfold fetchWithRetry.
  apply retryLoop_policy; [exact Hrandom | lia | lia].
Qed.

End RetryBackoff.

Lemma fetchWithRetry_follows_policy_witness :
  RetryPolicy (H := rateLimitedNow)
    (createAttempt (H := exampleHost) (H0 := rateLimitedNow)
       (buildCacheKey (H := exampleHost) containerRequest) containerRequest None)
    defaultRetryOptions 0 freshWorld
    (fetchWithRetry (H := rateLimitedNow)
       (createAttempt (H := exampleHost) (H0 := rateLimitedNow)
          (buildCacheKey (H := exampleHost) containerRequest) containerRequest None)
       defaultRetryOptions freshWorld).
Proof.
  apply (fetchWithRetry_follows_policy (H := rateLimitedNow)).
  intros k. split; [discriminate | reflexivity].
Defined.

(** C5 as stated fails: a 429 that carries [Retry-After: 0] does not
    override the delay; the three retries sleep the backoff with its jitter,
    1250, 2250 and 4250 ms. *)
Lemma retry_after_zero_does_not_override :
  fst (createShipment (H := exampleHost) (H0 := rateLimitedNow)
         containerRequest None freshWorld)
  = Throw (RateLimitError (Some (Num 0))) /\
  map Qred (sleeps (snd (createShipment (H := exampleHost) (H0 := rateLimitedNow)
                           containerRequest None freshWorld)))
  = [1250 # 1; 2250 # 1; 4250 # 1].
Proof. split; vm_compute; reflexivity. Qed.

(** ** Insufficient credits *)

(** C1, on the code: against a backend that answers 402, [createShipment]
    posts four times and sleeps three times before the insufficient-credits
    error reaches the caller. *)
Theorem createShipment_retries_insufficient_credits :
  fst (createShipment (H := exampleHost) (H0 := outOfCredits)
         containerRequest None freshWorld)
  = Throw (InsufficientCreditsError "Insufficient credits") /\
  map call_method
    (calls (snd (createShipment (H := exampleHost) (H0 := outOfCredits)
                   containerRequest None freshWorld)))
  = ["POST"; "POST"; "POST"; "POST"] /\
  map Qred (sleeps (snd (createShipment (H := exampleHost) (H0 := outOfCredits)
                           containerRequest None freshWorld)))
  = [1250 # 1; 2250 # 1; 4250 # 1].
Proof. repeat split; vm_compute; reflexivity. Qed.

(** ** Listing and searching on a 404 *)

Section NotFound.
Context `{Host} `{Remote}.

(** On a miss, or when the client bypasses the cache, [getOrFetch] runs
    the producer. *)
Lemma getOrFetch_fetches {T} (slot : Slot T) (key : string) (producer : M T)
    (ttl : Z) (bypass : bool) (w : World) :
  slot_read slot (cache w) !! key = None \/ bypass = true ->
  getOrFetch slot key producer ttl bypass w
  = (v ← producer; _ ← cache_set slot key v ttl; mret v) w.
Proof.
  intros Hmiss. unfold getOrFetch, cache_get, mbind, M_bind.
  destruct (cacheDisabled w); [reflexivity|].
  destruct (slot_read slot (cache w) !! key) as [[v t]|] eqn:E; simpl;
    [|reflexivity].
  destruct Hmiss as [Hmiss | ->]; [discriminate | reflexivity].
Qed.

(** A response that is neither a 429 nor a 402 is what [request] returns. *)
Lemma request_responded (method endpoint : string) (body : option RequestBody)
    (w : World) (r : Response) :
  fetch (length (calls w))
    {| call_method := method; call_endpoint := endpoint; call_body := body |}
  = Responded r ->
  resp_status r <> 429 -> resp_status r <> 402 ->
  request method endpoint body w
  = (Ok r, logCall {| call_method := method; call_endpoint := endpoint;
                      call_body := body |} w).
Proof.
  intros Hfetch H429 H402. unfold request. rewrite Hfetch.
  apply Z.eqb_neq in H429, H402. rewrite H429, H402. reflexivity.
Qed.

(** C3: the code departs from the claim.  When the listing endpoint
    answers [listShipments] with a 404, the operation does not return an
    empty listing: it raises an [ApiError] that carries the status 404 and
    the body, after that one call, and the cache is left as it was.  The
    search and the trackers, on the same endpoint, take the 404 for an
    empty result. *)
Theorem listShipments_404_raises (options : option ListOptions) (w : World)
    (r : Response) :
  c_listing (cache w) !! listCacheKey options = None \/ cacheDisabled w = true ->
  fetch (length (calls w)) (getCall (listEndpoint options)) = Responded r ->
  resp_status r = 404 ->
  listShipments options w
  = (Throw (ApiError 404 (resp_body r)), logCall (getCall (listEndpoint options)) w).
Proof.
  intros Hmiss Hfetch Hst. unfold listShipments.
  unfold mbind at 1, M_bind at 1, readCacheDisabled.
  rewrite getOrFetch_fetches by exact Hmiss.
  unfold mbind at 1, M_bind at 1. unfold mbind at 1, M_bind at 1.
  rewrite (request_responded _ _ _ _ r Hfetch) by (rewrite Hst; discriminate).
  unfold resp_ok. rewrite Hst. reflexivity.
Qed.

(** The same answer to [searchByReference] is an empty result, which is
    cached. *)
Lemma searchByReference_404_empty (reference : string) (w : World) (r : Response) :
  c_search (cache w) !! searchCacheKey reference = None \/ cacheDisabled w = true ->
  fetch (length (calls w)) (getCall (searchEndpoint reference)) = Responded r ->
  resp_status r = 404 ->
  searchByReference reference w
  = (Ok [],
     withCache
       (slot_write searchSlot
          (<[searchCacheKey reference := ([], TTL_FIFTEEN_MINUTES)]>
             (c_search (cache w)))
          (cache w))
       (logCall (getCall (searchEndpoint reference)) w)).
Proof.
  intros Hmiss Hfetch Hst. unfold searchByReference.
  unfold mbind at 1, M_bind at 1, readCacheDisabled.
  rewrite getOrFetch_fetches by exact Hmiss.
  unfold mbind at 1, M_bind at 1. unfold mbind at 1, M_bind at 1.
  rewrite (request_responded _ _ _ _ r Hfetch) by (rewrite Hst; discriminate).
  unfold resp_ok. rewrite Hst. reflexivity.
Qed.

End NotFound.

Lemma listShipments_404_raises_witness :
  listShipments (H := exampleHost) (H0 := notFoundRemote) None freshWorld
  = (Throw (ApiError 404 emptyBody),
     logCall (getCall (listEndpoint (H := exampleHost) None)) freshWorld).
Proof.
  apply (listShipments_404_raises (H := exampleHost) (H0 := notFoundRemote)
           None freshWorld
           {| resp_status := 404; resp_retryAfter := None; resp_body := emptyBody |}).
  - left. apply lookup_empty.
  - reflexivity.
  - reflexivity.
Defined.

(** The run: a listing with no options, nothing cached, a backend that
    answers 404. *)
Lemma listShipments_404_is_an_error :
  fst (listShipments (H := exampleHost) (H0 := notFoundRemote) None freshWorld)
  = Throw (ApiError 404 emptyBody).
Proof. vm_compute. reflexivity. Qed.

(** ** The log of remote calls *)

Section CallLog.
Context `{Host} `{Remote}.

Lemma appends_ret {A} (a : A) : appendsCalls (mret a).
Proof. intros w. exists []. simpl. rewrite app_nil_r. reflexivity. Qed.

Lemma appends_throw {A} (e : Error) : appendsCalls (@throw A e).
Proof. intros w. exists []. simpl. rewrite app_nil_r. reflexivity. Qed.

Lemma appends_bind {A B} (m : M A) (f : A -> M B) :
  appendsCalls m -> (forall a, appendsCalls (f a)) -> appendsCalls (m ≫= f).
Proof.
  intros Hm Hf w. unfold mbind, M_bind. destruct (Hm w) as [r1 E1].
  destruct (m w) as [[a|e] w1]; simpl in *.
  - destruct (Hf a w1) as [r2 E2]. exists (r1 ++ r2)%list.
    rewrite E2, E1, app_assoc. reflexivity.
  - exists r1. exact E1.
Qed.

Lemma appends_tryCatch {A} (m : M A) (handler : Error -> M A) :
  appendsCalls m -> (forall e, appendsCalls (handler e)) ->
  appendsCalls (tryCatch m handler).
Proof.
  intros Hm Hh w. unfold tryCatch. destruct (Hm w) as [r1 E1].
  destruct (m w) as [[a|e] w1]; simpl in *.
  - exists r1. exact E1.
  - destruct (Hh e w1) as [r2 E2]. exists (r1 ++ r2)%list.
    rewrite E2, E1, app_assoc. reflexivity.
Qed.

Lemma request_logs (method endpoint : string) (body : option RequestBody)
    (w : World) :
  snd (request method endpoint body w)
  = logCall {| call_method := method; call_endpoint := endpoint;
               call_body := body |} w.
Proof.
  unfold request.
  destruct (fetch _ _) as [r| |m]; try reflexivity.
  destruct (resp_status r =? 429); [reflexivity|].
  destruct (resp_status r =? 402); reflexivity.
Qed.

Lemma appends_request (method endpoint : string) (body : option RequestBody) :
  appendsCalls (request method endpoint body).
Proof. intros w. rewrite request_logs. eexists. reflexivity. Qed.

Lemma appends_cache_get {T} (slot : Slot T) (key : string) :
  appendsCalls (cache_get slot key).
Proof. intros w. exists []. simpl. rewrite app_nil_r. reflexivity. Qed.

Lemma appends_cache_set {T} (slot : Slot T) (key : string) (v : T) (ttl : Z) :
  appendsCalls (cache_set slot key v ttl).
Proof. intros w. exists []. simpl. rewrite app_nil_r. reflexivity. Qed.

Lemma appends_sleep (ms : Q) : appendsCalls (sleep ms).
Proof. intros w. exists []. simpl. rewrite app_nil_r. reflexivity. Qed.

Lemma appends_random : appendsCalls random.
Proof. intros w. exists []. simpl. rewrite app_nil_r. reflexivity. Qed.

Lemma appends_readNow : appendsCalls readNow.
Proof. intros w. exists []. simpl. rewrite app_nil_r. reflexivity. Qed.

Lemma appends_readCacheDisabled : appendsCalls readCacheDisabled.
Proof. intros w. exists []. simpl. rewrite app_nil_r. reflexivity. Qed.

End CallLog.

(** Proves [appendsCalls] of an operation built from the steps above. *)
Ltac appends_calls :=
  repeat first
    [ apply appends_ret | apply appends_throw | apply appends_request
    | apply appends_cache_get | apply appends_cache_set | apply appends_sleep
    | apply appends_random | apply appends_readNow
    | apply appends_readCacheDisabled
    | assumption
    | apply appends_bind; [|intros ?]
    | apply appends_tryCatch; [|intros ?]
    | match goal with
      | |- appendsCalls (if ?b then _ else _) => destruct b
      | |- appendsCalls (match ?x with _ => _ end) => destruct x
      end ].

Section CallLogOperations.
Context `{Host} `{Remote}.

Lemma appends_getOrFetch {T} (slot : Slot T) (key : string) (producer : M T)
    (ttl : Z) (bypass : bool) :
  appendsCalls producer -> appendsCalls (getOrFetch slot key producer ttl bypass).
Proof. intros Hp. unfold getOrFetch. appends_calls. Qed.

Lemma appends_trackByNumber (operation param filter number : string) :
  appendsCalls (trackByNumber operation param filter number).
Proof.
  unfold trackByNumber. apply appends_bind; [appends_calls|]. intros bypass.
  apply appends_getOrFetch. appends_calls.
Qed.

Lemma appends_fetchByReference (data : ShipmentCreateRequest) :
  appendsCalls (fetchByReference data).
Proof.
  unfold fetchByReference, trackByBL, trackByContainer, trackByBooking.
  repeat match goal with
  | |- appendsCalls (if ?b then _ else _) => destruct b
  end; try apply appends_trackByNumber. apply appends_ret.
Qed.

Lemma appends_patchReference (customReference : option string) (s : Shipment) :
  appendsCalls (patchReference customReference s).
Proof. unfold patchReference. appends_calls. Qed.

Lemma appends_retryLoop {T} (fn : M T) (options : RetryOptions)
    (remaining attempt : nat) (lastError : option Error) :
  appendsCalls fn ->
  appendsCalls (retryLoop fn options remaining attempt lastError).
Proof.
  intros Hfn. revert attempt lastError.
  induction remaining as [|k IH]; intros attempt lastError; simpl.
  - apply appends_throw.
  - intros w. destruct (Hfn w) as [r1 E1].
    destruct (fn w) as [[v|e] w1]; simpl in *; [exists r1; exact E1|].
    destruct (isClientError e); [exists r1; exact E1|].
    destruct (Nat.eqb attempt (maxRetries options)); [exists r1; exact E1|].
    assert (Hrest : appendsCalls
              (rnd ← random;
               _ ← sleep (retryDelay options attempt rnd e);
               retryLoop fn options k (S attempt) (Some e))).
    { apply appends_bind; [apply appends_random|]. intros rnd.
      apply appends_bind; [apply appends_sleep|]. intros _. apply IH. }
    destruct (Hrest w1) as [r2 E2]. exists (r1 ++ r2)%list.
    rewrite E2, E1, app_assoc. reflexivity.
Qed.

(** The log after the wrapper extends the log after the first attempt. *)
Lemma retryLoop_first {T} (fn : M T) (options : RetryOptions)
    (remaining attempt : nat) (lastError : option Error) (w : World) :
  appendsCalls fn ->
  exists rest,
    calls (snd (retryLoop fn options (S remaining) attempt lastError w))
    = (calls (snd (fn w)) ++ rest)%list.
Proof.
  intros Hfn. cbn [retryLoop].
  destruct (fn w) as [[v|e] w1]; cbn [snd];
    [exists []; rewrite app_nil_r; reflexivity|].
  destruct (isClientError e); [exists []; rewrite app_nil_r; reflexivity|].
  destruct (Nat.eqb attempt (maxRetries options));
    [exists []; rewrite app_nil_r; reflexivity|].
  assert (Hrest : appendsCalls
            (rnd ← random;
             _ ← sleep (retryDelay options attempt rnd e);
             retryLoop fn options remaining (S attempt) (Some e))).
  { apply appends_bind; [apply appends_random|]. intros rnd.
    apply appends_bind; [apply appends_sleep|]. intros _.
    apply appends_retryLoop, Hfn. }
  exact (Hrest w1).
Qed.

End CallLogOperations.

(** ** The first call of a create *)

Section CreateCacheCheck.
Context `{Host} `{Remote}.

Lemma createAttempt_posts_first (cacheKey : string) (data : ShipmentCreateRequest)
    (customReference : option string) (w : World) :
  exists rest,
    calls (snd (createAttempt cacheKey data customReference w))
    = (calls w ++ createCall data :: rest)%list.
Proof.
  unfold createAttempt. unfold mbind at 1, M_bind at 1.
  pose proof (request_logs "POST" "/ocean/shipments" (Some (CreateBody data)) w)
    as Hlog.
  destruct (request "POST" "/ocean/shipments" (Some (CreateBody data)) w)
    as [[response|e] w1]; simpl in Hlog; subst w1.
  - match goal with
    | |- exists rest, calls (snd (?k (logCall ?c w))) = _ =>
        assert (Hk : appendsCalls k)
    end.
    { appends_calls; try apply appends_patchReference;
        try apply appends_fetchByReference. }
    destruct (Hk (logCall (createCall data) w)) as [rest Hrest].
    exists rest. unfold createCall in *. rewrite Hrest. simpl.
    rewrite <- app_assoc. reflexivity.
  - exists []. reflexivity.
Qed.

Lemma appends_createAttempt (cacheKey : string) (data : ShipmentCreateRequest)
    (customReference : option string) :
  appendsCalls (createAttempt cacheKey data customReference).
Proof.
  intros w. destruct (createAttempt_posts_first cacheKey data customReference w)
    as [rest Hrest].
  exists (createCall data :: rest). exact Hrest.
Qed.

Lemma fetchWithRetry_create_posts (cacheKey : string)
    (data : ShipmentCreateRequest) (customReference : option string) (w : World) :
  exists rest,
    calls (snd (fetchWithRetry (createAttempt cacheKey data customReference)
                  defaultRetryOptions w))
    = (calls w ++ createCall data :: rest)%list.
Proof.
  destruct (createAttempt_posts_first cacheKey data customReference w)
    as [r1 E1].
  destruct (retryLoop_first (createAttempt cacheKey data customReference)
              defaultRetryOptions (maxRetries defaultRetryOptions) 0 None w
              (appends_createAttempt cacheKey data customReference))
    as [r2 E2].
  exists (r1 ++ r2)%list. unfold fetchWithRetry. rewrite E2, E1.
  rewrite <- app_assoc. reflexivity.
Qed.

End CreateCacheCheck.

(** ** Sharing link *)

Section SharingLink.
Context `{Host} `{Remote}.

Lemma ok_not_special (r : Response) :
  resp_ok r = true -> resp_status r <> 429 /\ resp_status r <> 402.
Proof.
  unfold resp_ok. rewrite andb_true_iff, !Z.leb_le. lia.
Qed.

Lemma truthy_string_nonempty (s : string) : truthy s = true <-> s <> "".
Proof.
  destruct s; unfold truthy, truthy_string; split; intros Hs;
    try reflexivity; try discriminate. contradiction.
Qed.

(** C8, amended: for an id whose link is fetched (a miss, or the cache
    disabled) and whose fetch succeeds, a non-empty map token carried
    where the source reads it (under [shipment], or at the top level of a
    response without a [shipment] field) makes [getSharingLink] return a
    result whose URL is
    [https://map.shipsgo.com/ocean/shipments/{id}?token={mapToken}], stored
    under the id's key for a day; every other payload makes it return null
    after that one call, with the cache as it was. *)
Theorem getSharingLink_url_and_cache (id : string) (w : World) (r : Response) :
  c_link (cache w) !! sharingLinkCacheKey id = None \/ cacheDisabled w = true ->
  fetch (length (calls w)) (getCall ("/ocean/shipments/" ++ id)) = Responded r ->
  resp_ok r = true ->
  (forall token, carriesToken (body_link (resp_body r)) token ->
     exists result,
       url result = "https://map.shipsgo.com/ocean/shipments/" ++ id
                      ++ "?token=" ++ token /\
       shipmentId result = id /\
       getSharingLink id w
       = (Ok (Some result),
          withCache
            (slot_write linkSlot
               (<[sharingLinkCacheKey id := (result, TTL_DAY)]> (c_link (cache w)))
               (cache w))
            (logCall (getCall ("/ocean/shipments/" ++ id)) w))) /\
  (carriesNoToken (body_link (resp_body r)) ->
     getSharingLink id w
     = (Ok None, logCall (getCall ("/ocean/shipments/" ++ id)) w)).
Proof.
  intros Hmiss Hfetch Hok.
  destruct (ok_not_special r Hok) as [H429 H402].
  assert (Hrun : forall k : Response -> M (option SharingLinkResult),
            (request "GET" ("/ocean/shipments/" ++ id) None ≫= k) w
            = k r (logCall (getCall ("/ocean/shipments/" ++ id)) w)).
  { intros k. unfold mbind, M_bind.
    rewrite (request_responded _ _ _ _ r Hfetch H429 H402). reflexivity. }
  assert (Hstart : forall k : Response -> M (option SharingLinkResult),
            (hit ← cache_get linkSlot (sharingLinkCacheKey id);
             match hit with
             | Some result => mret (Some result)
             | None => request "GET" ("/ocean/shipments/" ++ id) None ≫= k
             end) w
            = k r (logCall (getCall ("/ocean/shipments/" ++ id)) w)).
  { intros k. unfold mbind at 1, M_bind at 1, cache_get.
    cbn [slot_read linkSlot].
    destruct (cacheDisabled w) eqn:Hoff; [apply Hrun|].
    destruct Hmiss as [Hmiss | Hmiss]; [|discriminate].
    rewrite Hmiss. cbn [fmap option_fmap option_map]. apply Hrun. }
  unfold getSharingLink. cbv zeta. rewrite Hstart. rewrite Hok. cbn [negb].
  unfold carriesNoToken, carriesToken, nestedToken, topLevelToken.
  destruct (lk_shipment (body_link (resp_body r))) as [d|] eqn:Hship;
    cbn [js_or_default truthy truthy_LinkData mbind option_bind].
  - split.
    + intros token (Hne & [Htok | [Habs _]]); [|discriminate].
      rewrite Htok. apply truthy_string_nonempty in Hne. rewrite Hne. cbn [negb].
      eexists. split; [|split]; [| |reflexivity]; reflexivity.
    + intros Hnone.
      destruct (ld_tokens d ≫= tokens_map) as [token|]; [|reflexivity].
      destruct (truthy token) eqn:Htok; [|reflexivity].
      exfalso. apply (Hnone token). split; [|left; reflexivity].
      apply truthy_string_nonempty. exact Htok.
  - split.
    + intros token (Hne & [Htok | [_ Htok]]); [discriminate|].
      rewrite Htok. apply truthy_string_nonempty in Hne. rewrite Hne. cbn [negb].
      eexists. split; [|split]; [| |reflexivity]; reflexivity.
    + intros Hnone.
      destruct (ld_tokens (lk_top (body_link (resp_body r))) ≫= tokens_map)
        as [token|]; [|reflexivity].
      destruct (truthy token) eqn:Htok; [|reflexivity].
      exfalso. apply (Hnone token). split; [|right; split; reflexivity].
      apply truthy_string_nonempty. exact Htok.
Qed.

End SharingLink.

Lemma getSharingLink_url_and_cache_witness :
  (forall token, carriesToken (body_link (resp_body tokenResponse)) token ->
     exists result,
       url result = "https://map.shipsgo.com/ocean/shipments/" ++ "5773482"
                      ++ "?token=" ++ token /\
       shipmentId result = "5773482" /\
       getSharingLink (H := exampleHost) (H0 := tokenRemote) "5773482" freshWorld
       = (Ok (Some result),
          withCache
            (slot_write linkSlot
               (<[sharingLinkCacheKey (H := exampleHost) "5773482"
                  := (result, TTL_DAY (Host := exampleHost))]>
                  (c_link (cache freshWorld)))
               (cache freshWorld))
            (logCall (getCall ("/ocean/shipments/" ++ "5773482")) freshWorld))) /\
  (carriesNoToken (body_link (resp_body tokenResponse)) ->
     getSharingLink (H := exampleHost) (H0 := tokenRemote) "5773482" freshWorld
     = (Ok None, logCall (getCall ("/ocean/shipments/" ++ "5773482")) freshWorld)).
Proof.
  apply (getSharingLink_url_and_cache (H := exampleHost) (H0 := tokenRemote)
           "5773482" freshWorld tokenResponse).
  - left. apply lookup_empty.
  - reflexivity.
  - reflexivity.
Defined.

(** C8 as stated fails: a token at the top level is not read when the
    response has a [shipment] object, so a payload that carries the token
    at the top level beside a [shipment] object without one gives null. *)
Lemma getSharingLink_top_level_token_shadowed :
  topLevelToken (body_link shadowedTokenBody) = Some "example-token-uuid" /\
  getSharingLink (H := exampleHost) (H0 := shadowedTokenRemote) "5773482" freshWorld
  = (Ok None, logCall (getCall "/ocean/shipments/5773482") freshWorld).
Proof. split; reflexivity. Qed.

Example getSharingLink_example :
  match fst (getSharingLink (H := exampleHost) (H0 := tokenRemote) "5773482"
               freshWorld) with
  | Ok (Some result) => Some (url result)
  | _ => None
  end
  = Some "https://map.shipsgo.com/ocean/shipments/5773482?token=example-token-uuid".
Proof. vm_compute. reflexivity. Qed.

(** ** Letter case of references *)

Section ReferenceCase.
Context `{Host} `{Remote}.

Lemma upperAscii_idempotent (c : ascii) : upperAscii (upperAscii c) = upperAscii c.
Proof. destruct c as [[] [] [] [] [] [] [] []]; reflexivity. Qed.

Lemma toUpperCase_idempotent (s : string) :
  toUpperCase (toUpperCase s) = toUpperCase s.
Proof.
  induction s as [|c r IH]; simpl; [reflexivity|].
  rewrite upperAscii_idempotent, IH. reflexivity.
Qed.

(** A reference and its upper-cased form are case variants. *)
Lemma caseVariant_upper (r : string) : caseVariant r (toUpperCase r).
Proof. unfold caseVariant. symmetry. apply toUpperCase_idempotent. Qed.

Lemma append_cancel_l (p x y : string) : p ++ x = p ++ y -> x = y.
Proof.
  induction p as [|c p IH]; simpl; [tauto|]. intros [= Heq]. exact (IH Heq).
Qed.

Lemma trackByNumber_case (operation param filter r r' : string) :
  caseVariant r r' ->
  trackerCacheKey operation param r = trackerCacheKey operation param r' /\
  trackerEndpoint filter r = trackerEndpoint filter r' /\
  trackByNumber operation param filter r = trackByNumber operation param filter r'.
Proof.
  unfold caseVariant, trackByNumber, trackerCacheKey, trackerEndpoint.
  intros ->. repeat split.
Qed.

(** An operation of the shape the trackers and the search share: the
    flag is read, and [getOrFetch] runs one GET and a continuation that
    neither calls nor stores. *)
Lemma getOrFetch_addresses {T} (slot : Slot T) (key endpoint : string)
    (k : Response -> M T) (ttl : Z) :
  (forall m c, slot_read slot (slot_write slot m c) = m) ->
  (forall r w, snd (k r w) = w) ->
  addresses slot
    (bypass ← readCacheDisabled;
     getOrFetch slot key (response ← request "GET" endpoint None; k response)
       ttl bypass)
    key endpoint ttl.
Proof.
  intros Hslot Hquiet. split.
  - intros w v ttl' Hon Hhit. unfold mbind at 1, M_bind at 1, readCacheDisabled.
    rewrite Hon. unfold getOrFetch, mbind, M_bind, cache_get.
    rewrite Hon, Hhit. reflexivity.
  - intros w Hmiss.
    assert (Hrun :
      (bypass ← readCacheDisabled;
       getOrFetch slot key (response ← request "GET" endpoint None; k response)
         ttl bypass) w
      = match request "GET" endpoint None w with
        | (Ok r, w1) =>
            match k r w1 with
            | (Ok v, w2) =>
                (Ok v,
                 withCache
                   (slot_write slot (<[key := (v, ttl)]> (slot_read slot (cache w2)))
                      (cache w2)) w2)
            | (Throw e, w2) => (Throw e, w2)
            end
        | (Throw e, w1) => (Throw e, w1)
        end).
    { unfold mbind at 1, M_bind at 1, readCacheDisabled.
      rewrite getOrFetch_fetches by (destruct Hmiss as [Hoff | Hnone]; auto).
      unfold mbind, M_bind, cache_set.
      destruct (request "GET" endpoint None w) as [[r|e] w1]; [|reflexivity].
      destruct (k r w1) as [[v|e] w2]; reflexivity. }
    rewrite Hrun. clear Hrun.
    pose proof (request_logs "GET" endpoint None w) as Hlog.
    destruct (request "GET" endpoint None w) as [[r|e] w1]; simpl in Hlog;
      subst w1.
    + pose proof (Hquiet r (logCall (getCall endpoint) w)) as Hk.
      fold (getCall endpoint).
      destruct (k r (logCall (getCall endpoint) w)) as [[v|e] w2];
        simpl in Hk; subst w2; cbn.
      * split; [reflexivity|]. split; [reflexivity|]. split.
        -- intros v' [= <-]. rewrite Hslot. apply lookup_insert_eq.
        -- intros k' Hne. rewrite Hslot. apply lookup_insert_ne.
           intros E. apply Hne. symmetry. exact E.
      * split; [reflexivity|]. split; [reflexivity|]. split;
          [discriminate | reflexivity].
    + cbn. split; [reflexivity|]. split; [reflexivity|]. split;
        [discriminate | reflexivity].
Qed.

Lemma trackByNumber_addresses (operation param filter r : string) :
  addresses shipmentSlot (trackByNumber operation param filter r)
    (createCacheKey operation [(param, Some (SStr (toUpperCase r)))])
    ("/ocean/shipments?" ++ filter ++ "=" ++ encodeURIComponent (toUpperCase r))
    (TTL_HOUR * 2).
Proof.
  unfold trackByNumber, trackerCacheKey, trackerEndpoint.
  apply getOrFetch_addresses; [reflexivity|].
  intros response w. destruct (negb (resp_ok response)).
  - destruct (resp_status response =? 404); reflexivity.
  - cbv zeta. destruct (Nat.eqb _ 0); reflexivity.
Qed.

Lemma searchByReference_addresses (r : string) :
  addresses searchSlot (searchByReference r)
    (createCacheKey "search" [("ref", Some (SStr r))])
    ("/ocean/shipments?reference=" ++ encodeURIComponent r)
    TTL_FIFTEEN_MINUTES.
Proof.
  unfold searchByReference, searchCacheKey, searchEndpoint.
  apply getOrFetch_addresses; [reflexivity|].
  intros response w. destruct (negb (resp_ok response)).
  - destruct (resp_status response =? 404); reflexivity.
  - reflexivity.
Qed.

(** Two operations that address the same entry share it. *)
Lemma addresses_shares {T} (slot : Slot T) (op op' : M T)
    (key endpoint endpoint' : string) (ttl ttl' : Z) :
  addresses slot op key endpoint ttl -> addresses slot op' key endpoint' ttl' ->
  sharesEntry op op'.
Proof.
  intros [Hhit Hmiss] [Hhit' _] w v Hon Hres.
  destruct (slot_read slot (cache w) !! key) as [[cachedValue t]|] eqn:Hlook.
  - rewrite (Hhit w cachedValue t Hon Hlook) in Hres |- *. cbn in Hres |- *.
    injection Hres as <-. exact (Hhit' w cachedValue t Hon Hlook).
  - destruct (Hmiss w (or_intror Hlook)) as (_ & Hflag & Hstored & _).
    apply (Hhit' _ v ttl); [congruence | exact (Hstored v Hres)].
Qed.

(** C10: the three trackers fold the case of the reference.  For a
    reference of ASCII text each of them addresses the cache entry keyed by
    the upper-cased reference and the remote query for the upper-cased
    reference; so case variants are one and the same operation, and what
    one of them fetched the other returns from the cache.
    [searchByReference] addresses the entry and the query of the reference
    as it is: with a key builder and a URI encoder that tell different
    strings apart, a search for a second reference, and so for one that
    differs only in letter case, does not see the entry of the first: it
    makes its own remote call, a different query, and the two entries
    stand side by side. *)
Theorem trackers_fold_case_search_keeps_it :
  (forall a b,
     createCacheKey "search" [("ref", Some (SStr a))]
     = createCacheKey "search" [("ref", Some (SStr b))] -> a = b) ->
  (forall a b, encodeURIComponent a = encodeURIComponent b -> a = b) ->
  (forall r, asciiText r = true ->
     addresses shipmentSlot (trackByBL r)
       (createCacheKey "shipment:bl" [("bl", Some (SStr (toUpperCase r)))])
       ("/ocean/shipments?bl_number=" ++ encodeURIComponent (toUpperCase r))
       (TTL_HOUR * 2) /\
     addresses shipmentSlot (trackByContainer r)
       (createCacheKey "shipment:container"
          [("container", Some (SStr (toUpperCase r)))])
       ("/ocean/shipments?container_number="
          ++ encodeURIComponent (toUpperCase r))
       (TTL_HOUR * 2) /\
     addresses shipmentSlot (trackByBooking r)
       (createCacheKey "shipment:booking"
          [("booking", Some (SStr (toUpperCase r)))])
       ("/ocean/shipments?booking_number=" ++ encodeURIComponent (toUpperCase r))
       (TTL_HOUR * 2)) /\
  (forall r r', asciiText r = true -> asciiText r' = true -> caseVariant r r' ->
     trackByBL r = trackByBL r' /\
     trackByContainer r = trackByContainer r' /\
     trackByBooking r = trackByBooking r' /\
     sharesEntry (trackByBL r) (trackByBL r') /\
     sharesEntry (trackByContainer r) (trackByContainer r') /\
     sharesEntry (trackByBooking r) (trackByBooking r')) /\
  (forall r,
     addresses searchSlot (searchByReference r)
       (createCacheKey "search" [("ref", Some (SStr r))])
       ("/ocean/shipments?reference=" ++ encodeURIComponent r)
       TTL_FIFTEEN_MINUTES) /\
  (forall r r' w found,
     r <> r' -> cacheDisabled w = false ->
     c_search (cache w) !! createCacheKey "search" [("ref", Some (SStr r))] = None ->
     c_search (cache w) !! createCacheKey "search" [("ref", Some (SStr r'))] = None ->
     fst (searchByReference r w) = Ok found ->
     calls (snd (searchByReference r' (snd (searchByReference r w))))
     = (calls w
        ++ [getCall ("/ocean/shipments?reference=" ++ encodeURIComponent r);
            getCall ("/ocean/shipments?reference=" ++ encodeURIComponent r')])%list /\
     getCall ("/ocean/shipments?reference=" ++ encodeURIComponent r)
     <> getCall ("/ocean/shipments?reference=" ++ encodeURIComponent r') /\
     c_search (cache (snd (searchByReference r' (snd (searchByReference r w)))))
       !! createCacheKey "search" [("ref", Some (SStr r))]
     = Some (found, TTL_FIFTEEN_MINUTES)).
Proof.
  intros Hkey Huri. split; [|split; [|split]].
  - intros r _. unfold trackByBL, trackByContainer, trackByBooking.
    split; [|split]; apply trackByNumber_addresses.
  - intros r r' _ _ Hcase. unfold trackByBL, trackByContainer, trackByBooking.
    split; [|split; [|split; [|split; [|split]]]];
      try apply (trackByNumber_case _ _ _ r r' Hcase).
    all: rewrite <- (proj2 (proj2 (trackByNumber_case _ _ _ r r' Hcase)));
      eapply addresses_shares; apply trackByNumber_addresses.
  - exact searchByReference_addresses.
  - intros r r' w found Hne Hon Hmiss Hmiss' Hres.
    assert (Hkeys : createCacheKey "search" [("ref", Some (SStr r'))]
                    <> createCacheKey "search" [("ref", Some (SStr r))]).
    { intros E. apply Hne. symmetry. exact (Hkey _ _ E). }
    destruct (searchByReference_addresses r) as [_ Hfirst].
    destruct (Hfirst w (or_intror Hmiss)) as (Hcalls & Hflag & Hstored & Hframe).
    destruct (searchByReference_addresses r') as [_ Hsecond].
    destruct (Hsecond (snd (searchByReference r w))) as (Hcalls' & _ & _ & Hframe').
    { right. cbn [slot_read searchSlot] in Hframe |- *.
      rewrite (Hframe _ Hkeys). exact Hmiss'. }
    split; [|split].
    + rewrite Hcalls', Hcalls, <- app_assoc. reflexivity.
    + intros [= E]. apply append_cancel_l in E. exact (Hne (Huri _ _ E)).
    + cbn [slot_read searchSlot] in Hframe', Hstored.
      rewrite Hframe' by (intros E; apply Hkeys; symmetry; exact E).
      exact (Hstored found Hres).
Qed.

End ReferenceCase.

Lemma append_semicolon_cancel (a b : string) : a ++ ";" = b ++ ";" -> a = b.
Proof.
  revert b. induction a as [|c a IH]; intros [|d b]; simpl; intros Heq.
  - reflexivity.
  - injection Heq as _ Heq. destruct b; discriminate.
  - injection Heq as _ Heq. destruct a; discriminate.
  - injection Heq as -> Heq. f_equal. exact (IH b Heq).
Qed.

Lemma exampleCacheKey_search_injective (a b : string) :
  exampleCacheKey "search" [("ref", Some (SStr a))]
  = exampleCacheKey "search" [("ref", Some (SStr b))] -> a = b.
Proof.
  unfold exampleCacheKey, renderParam. simpl. intros [= Heq].
  apply append_semicolon_cancel. exact Heq.
Qed.

Lemma trackers_fold_case_search_keeps_it_witness :
  sharesEntry (trackByBL (H := exampleHost) (H0 := listingRemote) "maeu123456789")
    (trackByBL (H := exampleHost) (H0 := listingRemote) "MAEU123456789") /\
  calls (snd (searchByReference (H := exampleHost) (H0 := listingRemote) "SO-1"
                (snd (searchByReference (H := exampleHost) (H0 := listingRemote)
                        "so-1" freshWorld))))
  = [getCall "/ocean/shipments?reference=so-1";
     getCall "/ocean/shipments?reference=SO-1"].
Proof.
  pose proof (trackers_fold_case_search_keeps_it (H := exampleHost)
                (H0 := listingRemote) exampleCacheKey_search_injective
                (fun a b Heq => Heq)) as (_ & Hfold & _ & Hkeeps).
  split.
  - apply (Hfold "maeu123456789" "MAEU123456789"); reflexivity.
  - apply (Hkeeps "so-1" "SO-1" freshWorld
             [mapToShipment "2024-01-01T00:00:00.000Z" (rawWithPosition None None)]).
    + discriminate.
    + reflexivity.
    + apply lookup_empty.
    + apply lookup_empty.
    + reflexivity.
Defined.

(** Tracking a bill of lading in lower case, then in upper case, makes one
    remote call: the second is a cache hit.  Searching the two makes two. *)
Example trackByBL_twice_one_call :
  map call_endpoint
    (calls (snd ((_ ← trackByBL (H := exampleHost) (H0 := listingRemote)
                        "maeu123456789";
                  trackByBL (H := exampleHost) (H0 := listingRemote)
                    "MAEU123456789") freshWorld)))
  = ["/ocean/shipments?bl_number=MAEU123456789"].
Proof. vm_compute. reflexivity. Qed.

Example searchByReference_twice_two_calls :
  map call_endpoint
    (calls (snd ((_ ← searchByReference (H := exampleHost) (H0 := listingRemote)
                        "so-1";
                  searchByReference (H := exampleHost) (H0 := listingRemote)
                    "SO-1") freshWorld)))
  = ["/ocean/shipments?reference=so-1"; "/ocean/shipments?reference=SO-1"].
Proof. vm_compute. reflexivity. Qed.

(** A create against a backend that answers 201, then the same create
    again: the second is served from the cache, with no second call. *)
Example createShipment_twice_one_credit :
  match (first ← createShipment (H := exampleHost) (H0 := creatingRemote)
                   containerRequest None;
         second ← createShipment (H := exampleHost) (H0 := creatingRemote)
                    containerRequest None;
         mret (source first, creditUsed first, source second, creditUsed second))
          freshWorld with
  | (Ok summary, w) => Some (summary, map call_method (calls w))
  | _ => None
  end
  = Some ((created, true, cached, false), ["POST"]).
Proof. vm_compute. reflexivity. Qed.

(** ** End-to-end runs *)

(** A create that meets a 409 fetches the existing shipment through the
    container tracker and uses no credit. *)
Example createShipment_conflict_existing :
  observeCreate (createShipment (H := exampleHost) (H0 := conflictRemote)
                   containerRequest None freshWorld)
  = (Ok (existing, false, None),
     [("POST", "/ocean/shipments");
      ("GET", "/ocean/shipments?container_number=HAMU1058953")],
     []).
Proof. vm_compute. reflexivity. Qed.

(** A create whose reference patch fails with a 500 still succeeds, with a
    warning. *)
Example createShipment_patch_failure_warns :
  observeCreate (createShipment (H := exampleHost) (H0 := patchFailingRemote)
                   blRequest (Some "SO-1") freshWorld)
  = (Ok (created, true,
         Some "Reference update failed (500). Shipment created but reference not set."),
     [("POST", "/ocean/shipments"); ("PATCH", "/ocean/shipments/5773482")],
     []).
Proof. vm_compute. reflexivity. Qed.

(** Two 500s, then a success: the create succeeds at the third attempt,
    after two backoff delays. *)
Example createShipment_succeeds_third_attempt :
  observeCreate (createShipment (H := exampleHost) (H0 := flakyRemote)
                   containerRequest None freshWorld)
  = (Ok (created, true, None),
     [("POST", "/ocean/shipments"); ("POST", "/ocean/shipments");
      ("POST", "/ocean/shipments")],
     [1250 # 1; 2250 # 1]).
Proof. vm_compute. reflexivity. Qed.

(** A 404 to the create is not retried. *)
Example createShipment_404_not_retried :
  observeCreate (createShipment (H := exampleHost) (H0 := notFoundRemote)
                   containerRequest None freshWorld)
  = (Throw (ApiError 404 emptyBody), [("POST", "/ocean/shipments")], []).
Proof. vm_compute. reflexivity. Qed.

(** ** Exhausting the retry budget *)

Section RetryExhaustion.
Context `{Remote} {T : Type} (fn : M T) (options : RetryOptions).

Lemma retryLoop_exhausts (remaining attempt : nat) (lastError : option Error)
    (w : World) :
  (forall w0, exists e w1,
     fn w0 = (Throw e, w1) /\ isClientError e = false /\ sleeps w1 = sleeps w0) ->
  (attempt + remaining = S (maxRetries options))%nat ->
  (0 < remaining)%nat ->
  exists e w',
    retryLoop fn options remaining attempt lastError w = (Throw e, w') /\
    isClientError e = false /\
    (length (sleeps w') = length (sleeps w) + (maxRetries options - attempt))%nat.
Proof.
  intros Hfails. revert attempt lastError w.
  induction remaining as [|k IH]; intros attempt lastError w Hsum Hpos; [lia|].
  destruct (Hfails w) as (e & w1 & Hfn & Hclient & Hsleeps).
  cbn [retryLoop]. rewrite Hfn, Hclient.
  destruct (Nat.eqb attempt (maxRetries options)) eqn:Hlast.
  - apply Nat.eqb_eq in Hlast. exists e, w1. repeat split; [exact Hclient|].
    rewrite Hsleeps. lia.
  - apply Nat.eqb_neq in Hlast.
    destruct (IH (S attempt) (Some e)
                (logSleep (retryDelay options attempt (Math_random (draws w1)) e)
                   (countDraw w1)))
      as (e' & w' & Hrun & Hclient' & Hlen); [lia | lia |].
    exists e', w'. split; [exact Hrun|]. split; [exact Hclient'|].
    rewrite Hlen. cbn [sleeps logSleep countDraw]. rewrite length_app, Hsleeps.
    simpl. lia.
Qed.

(** An operation that fails every time with an error other than a client
    error, and does not sleep itself, is attempted until the budget is
    spent: the wrapper sleeps [maxRetries] times and throws. *)
Theorem fetchWithRetry_exhausts (w : World) :
  (forall w0, exists e w1,
     fn w0 = (Throw e, w1) /\ isClientError e = false /\ sleeps w1 = sleeps w0) ->
  exists e w',
    fetchWithRetry fn options w = (Throw e, w') /\
    isClientError e = false /\
    (length (sleeps w') = length (sleeps w) + maxRetries options)%nat.
Proof.
  intros Hfails.
  destruct (retryLoop_exhausts (S (maxRetries options)) 0 None w Hfails)
    as (e & w' & Hrun & Hclient & Hlen); [lia | lia |].
  exists e, w'. split; [exact Hrun|]. split; [exact Hclient|]. lia.
Qed.

End RetryExhaustion.

(** An operation that is rate-limited whatever the state. *)
Lemma fetchWithRetry_exhausts_witness :
  exists e w',
    fetchWithRetry (H := rateLimitedNow)
      (throw (RateLimitError (Some (Num 30))) : M unit) defaultRetryOptions
      freshWorld
    = (Throw e, w') /\
    isClientError e = false /\
    (length (sleeps w')
     = length (sleeps freshWorld) + maxRetries defaultRetryOptions)%nat.
Proof.
  apply (fetchWithRetry_exhausts (H := rateLimitedNow)).
  intros w0. exists (RateLimitError (Some (Num 30))), w0.
  repeat split; reflexivity.
Defined.

(** ** A tracker on a 404 *)

Section TrackerNotFound.
Context `{Host} `{Remote}.

(** A 404 to a tracker is "not found": it returns null, which is cached
    for two hours. *)
Theorem trackByNumber_404_null (operation param filter number : string)
    (w : World) (r : Response) :
  c_shipment (cache w) !! trackerCacheKey operation param number = None
  \/ cacheDisabled w = true ->
  fetch (length (calls w)) (getCall (trackerEndpoint filter number)) = Responded r ->
  resp_status r = 404 ->
  trackByNumber operation param filter number w
  = (Ok None,
     withCache
       (slot_write shipmentSlot
          (<[trackerCacheKey operation param number := (None, TTL_HOUR * 2)]>
             (c_shipment (cache w)))
          (cache w))
       (logCall (getCall (trackerEndpoint filter number)) w)).
Proof.
  intros Hmiss Hfetch Hst. unfold trackByNumber.
  unfold mbind at 1, M_bind at 1, readCacheDisabled.
  rewrite getOrFetch_fetches by exact Hmiss.
  unfold mbind at 1, M_bind at 1. unfold mbind at 1, M_bind at 1.
  rewrite (request_responded _ _ _ _ r Hfetch) by (rewrite Hst; discriminate).
  unfold resp_ok. rewrite Hst. reflexivity.
Qed.

End TrackerNotFound.

Lemma trackByNumber_404_null_witness :
  trackByBL (H := exampleHost) (H0 := notFoundRemote) "maeu123456789" freshWorld
  = (Ok None,
     withCache
       (slot_write shipmentSlot
          (<[trackerCacheKey (H := exampleHost) "shipment:bl" "bl" "maeu123456789"
             := (None, TTL_HOUR (Host := exampleHost) * 2)]>
             (c_shipment (cache freshWorld)))
          (cache freshWorld))
       (logCall (getCall (trackerEndpoint (H := exampleHost) "bl_number"
                            "maeu123456789"))
          freshWorld)).
Proof.
  apply (trackByNumber_404_null (H := exampleHost) (H0 := notFoundRemote)
           "shipment:bl" "bl" "bl_number" "maeu123456789" freshWorld
           {| resp_status := 404; resp_retryAfter := None; resp_body := emptyBody |}).
  - left. apply lookup_empty.
  - reflexivity.
  - reflexivity.
Defined.

Lemma searchByReference_404_empty_witness :
  searchByReference (H := exampleHost) (H0 := notFoundRemote) "SO-1" freshWorld
  = (Ok [],
     withCache
       (slot_write searchSlot
          (<[searchCacheKey (H := exampleHost) "SO-1"
             := ([], TTL_FIFTEEN_MINUTES (Host := exampleHost))]>
             (c_search (cache freshWorld)))
          (cache freshWorld))
       (logCall (getCall (searchEndpoint (H := exampleHost) "SO-1")) freshWorld)).
Proof.
  apply (searchByReference_404_empty (H := exampleHost) (H0 := notFoundRemote)
           "SO-1" freshWorld
           {| resp_status := 404; resp_retryAfter := None; resp_body := emptyBody |}).
  - left. apply lookup_empty.
  - reflexivity.
  - reflexivity.
Defined.

(** * Further properties *)

(** ** Running the steps of an operation *)

Section Steps.
Context `{Host} `{Remote}.

Lemma request_run (method endpoint : string) (body : option RequestBody)
    (w : World) :
  request method endpoint body w
  = (requestOutcome
       (fetch (length (calls w))
          {| call_method := method; call_endpoint := endpoint; call_body := body |}),
     logCall {| call_method := method; call_endpoint := endpoint;
                call_body := body |} w).
Proof.
  unfold request, requestOutcome.
  destruct (fetch _ _) as [r| |m]; try reflexivity.
  destruct (resp_status r =? 429); [reflexivity|].
  destruct (resp_status r =? 402); reflexivity.
Qed.

Lemma requestOutcome_never_api_error (o : FetchOutcome) (st : Z) (data : Body) :
  requestOutcome o <> Throw (ApiError st data).
Proof.
  destruct o as [r| |m]; simpl; try discriminate.
  destruct (resp_status r =? 429); [discriminate|].
  destruct (resp_status r =? 402); discriminate.
Qed.

Lemma bind_run {A B} (m : M A) (f : A -> M B) (w : World) :
  (m ≫= f) w
  = match m w with
    | (Ok a, w') => f a w'
    | (Throw e, w') => (Throw e, w')
    end.
Proof. reflexivity. Qed.

End Steps.

(** ** Creating a shipment *)

Section CreateFlow.
Context `{Host} `{Remote}.

Lemma patchReference_run (customReference : option string)
    (s : Shipment) (w : World) :
  exists warning w',
    patchReference customReference s w = (Ok warning, w') /\
    cache w' = cache w /\ sleeps w' = sleeps w /\
    cacheDisabled w' = cacheDisabled w /\
    (truthy customReference && truthy (id s) = false ->
     warning = None /\ w' = w).
Proof.
  unfold patchReference.
  destruct (truthy customReference && truthy (id s)) eqn:Hcond.
  - unfold tryCatch. rewrite bind_run, request_run.
    destruct (requestOutcome _) as [r|e]; eexists; eexists;
      (split; [reflexivity|]); repeat split; discriminate.
  - exists None, w. repeat split.
Qed.

(** The reference patch never fails the create: whatever the backend does
    with the PATCH, [patchReference] returns, with a warning or without,
    and leaves the cache and the delays as they were.  With no reference,
    or for a shipment with an empty id, it makes no call at all. *)
Theorem patchReference_never_throws (customReference : option string)
    (s : Shipment) (w : World) :
  exists warning w',
    patchReference customReference s w = (Ok warning, w') /\
    cache w' = cache w /\ sleeps w' = sleeps w /\
    (truthy customReference && truthy (id s) = false ->
     warning = None /\ w' = w).
Proof.
  destruct (patchReference_run customReference s w)
    as (warning & w' & Hrun & Hcache & Hsleeps & _ & Hnone).
  exists warning, w'. auto.
Qed.

Lemma fetchWithRetry_first_ok {T} (fn : M T) (options : RetryOptions)
    (w w' : World) (v : T) :
  fn w = (Ok v, w') -> fetchWithRetry fn options w = (Ok v, w').
Proof.
  intros Hfn. unfold fetchWithRetry. cbn [retryLoop]. rewrite Hfn. reflexivity.
Qed.

(** The cache has nothing [createShipment] can reuse under the key. *)
Lemma createShipment_goes_remote (data : ShipmentCreateRequest)
    (customReference : option string) (w : World) :
  (forall s, ~ reusable data w s) ->
  createShipment data customReference w
  = fetchWithRetry (createAttempt (buildCacheKey data) data customReference)
      defaultRetryOptions w.
Proof.
  intros Hnone. unfold createShipment. rewrite bind_run. unfold cache_get.
  cbn [slot_read shipmentSlot].
  destruct (cacheDisabled w) eqn:Hoff; [reflexivity|].
  destruct (c_shipment (cache w) !! buildCacheKey data) as [[[s|] ttl]|] eqn:E;
    cbn [fmap option_fmap option_map fst]; try reflexivity.
  destruct (truthy (discarded_at s)) eqn:Hlive; [reflexivity|].
  exfalso. apply (Hnone s). split; [exact Hoff|]. split; [|exact Hlive].
  exists ttl. exact E.
Qed.

Lemma createShipment_creates (data : ShipmentCreateRequest)
    (customReference : option string) (w : World) :
  (forall s ttl,
     c_shipment (cache w) !! buildCacheKey data = Some (Some s, ttl) ->
     truthy (discarded_at s) = true) ->
  createShipment data customReference w
  = fetchWithRetry (createAttempt (buildCacheKey data) data customReference)
      defaultRetryOptions w.
Proof.
  intros Hgone. apply createShipment_goes_remote.
  intros s (_ & [ttl Hhit] & Hlive). rewrite (Hgone s ttl Hhit) in Hlive.
  discriminate.
Qed.

Lemma createShipment_reuses (data : ShipmentCreateRequest)
    (customReference : option string) (w : World) (s : Shipment) :
  reusable data w s ->
  createShipment data customReference w
  = (Ok {| shipment := s; source := cached; creditUsed := false;
           warning := None |}, w).
Proof.
  intros (Hon & [ttl Hhit] & Hlive). unfold createShipment. rewrite bind_run.
  unfold cache_get. cbn [slot_read shipmentSlot]. rewrite Hon, Hhit.
  cbn [fmap option_fmap option_map fst]. rewrite Hlive. reflexivity.
Qed.

(** A create that the backend answers with 200 or 201 costs one credit and
    is remembered: the mapped shipment is returned with source created and
    stored under the key of the request with the TTL of its status.  With
    the cache enabled, and unless the backend marked the shipment
    discarded, the same create again, with any reference, is served from
    the cache with no call and no credit; with the cache disabled the same
    create again goes to the backend again. *)
Theorem createShipment_created_then_cached (data : ShipmentCreateRequest)
    (customReference : option string) (w : World) (r : Response) :
  (forall s ttl,
     c_shipment (cache w) !! buildCacheKey data = Some (Some s, ttl) ->
     truthy (discarded_at s) = true) ->
  fetch (length (calls w)) (createCall data) = Responded r ->
  resp_status r = 200 \/ resp_status r = 201 ->
  exists warning w',
    createShipment data customReference w
    = (Ok {| shipment := mapToShipment clock_now (body_shipment (resp_body r));
             source := created; creditUsed := true; warning := warning |}, w') /\
    c_shipment (cache w') !! buildCacheKey data
    = Some (Some (mapToShipment clock_now (body_shipment (resp_body r))),
            getCacheTTL (mapToShipment clock_now (body_shipment (resp_body r)))) /\
    (cacheDisabled w = false ->
     truthy (discarded_at (mapToShipment clock_now (body_shipment (resp_body r))))
     = false ->
     forall again,
       createShipment data again w'
       = (Ok {| shipment := mapToShipment clock_now (body_shipment (resp_body r));
                source := cached; creditUsed := false; warning := None |}, w')) /\
    (cacheDisabled w = true ->
     forall again, exists rest,
       calls (snd (createShipment data again w'))
       = (calls w' ++ createCall data :: rest)%list).
Proof.
  intros Hgone Hfetch Hst.
  set (s := mapToShipment clock_now (body_shipment (resp_body r))).
  destruct (patchReference_run customReference s
              (logCall (createCall data) w))
    as (warning & w1 & Hpatch & Hcache & _ & Hflag & _).
  set (w' := withCache
               (slot_write shipmentSlot
                  (<[buildCacheKey data := (Some s, getCacheTTL s)]>
                     (c_shipment (cache w1)))
                  (cache w1)) w1).
  assert (Hattempt :
            createAttempt (buildCacheKey data) data customReference w
            = (Ok {| shipment := s; source := created; creditUsed := true;
                     warning := warning |}, w')).
  { unfold createAttempt. rewrite bind_run, request_run.
    fold (createCall data). rewrite Hfetch. unfold requestOutcome.
    assert (H429 : (resp_status r =? 429) = false) by (apply Z.eqb_neq; lia).
    assert (H402 : (resp_status r =? 402) = false) by (apply Z.eqb_neq; lia).
    rewrite H429, H402.
    assert (Hok : (resp_status r =? 200) || (resp_status r =? 201) = true).
    { destruct Hst as [-> | ->]; reflexivity. }
    rewrite Hok. rewrite bind_run. unfold readNow at 1. fold s.
    rewrite bind_run, Hpatch. reflexivity. }
  exists warning, w'. split; [|split; [|split]].
  - rewrite createShipment_creates by exact Hgone.
    apply fetchWithRetry_first_ok. exact Hattempt.
  - unfold w'. cbn. apply lookup_insert_eq.
  - intros Hon Hlive again. apply createShipment_reuses.
    split; [|split; [|exact Hlive]].
    + unfold w'. cbn. rewrite Hflag. exact Hon.
    + exists (getCacheTTL s). unfold w'. cbn. apply lookup_insert_eq.
  - intros Hoff again. rewrite createShipment_goes_remote.
    + apply fetchWithRetry_create_posts.
    + intros s' (Hon & _). unfold w' in Hon. cbn in Hon.
      rewrite Hflag in Hon. cbn in Hon. congruence.
Qed.

(** A create that the backend answers with 409: when the lookup by
    reference finds the shipment, it is returned with source existing and
    no credit, and stored under the key of the request; when the lookup
    finds nothing, the attempt throws. *)
Theorem createShipment_conflict (data : ShipmentCreateRequest)
    (customReference : option string) (w w2 : World) (r : Response)
    (found : option Shipment) :
  (forall s ttl,
     c_shipment (cache w) !! buildCacheKey data = Some (Some s, ttl) ->
     truthy (discarded_at s) = true) ->
  fetch (length (calls w)) (createCall data) = Responded r ->
  resp_status r = 409 ->
  fetchByReference data (logCall (createCall data) w) = (Ok found, w2) ->
  match found with
  | Some s =>
      createShipment data customReference w
      = (Ok {| shipment := s; source := existing; creditUsed := false;
               warning := None |},
         withCache
           (slot_write shipmentSlot
              (<[buildCacheKey data := (Some s, getCacheTTL s)]>
                 (c_shipment (cache w2)))
              (cache w2)) w2)
  | None =>
      createAttempt (buildCacheKey data) data customReference w
      = (Throw (OtherError "409 returned but shipment not found"), w2)
  end.
Proof.
  intros Hgone Hfetch Hst Hlookup.
  assert (Hstep : forall k : Response -> M CreateResult,
            (request "POST" "/ocean/shipments" (Some (CreateBody data)) ≫= k) w
            = k r (logCall (createCall data) w)).
  { intros k. rewrite bind_run, request_run. fold (createCall data).
    rewrite Hfetch. unfold requestOutcome. rewrite Hst. reflexivity. }
  destruct found as [s|].
  - rewrite createShipment_creates by exact Hgone.
    apply fetchWithRetry_first_ok. unfold createAttempt. rewrite Hstep.
    rewrite Hst. cbn [Z.eqb orb Pos.eqb]. rewrite bind_run, Hlookup. reflexivity.
  - unfold createAttempt. rewrite Hstep.
    rewrite Hst. cbn [Z.eqb orb Pos.eqb]. rewrite bind_run, Hlookup. reflexivity.
Qed.

End CreateFlow.

Lemma freshWorld_nothing_to_reuse (key : string) (s : Shipment) (ttl : Z) :
  c_shipment (cache freshWorld) !! key = Some (Some s, ttl) ->
  truthy (discarded_at s) = true.
Proof.
  intros Hs. assert (E : c_shipment (cache freshWorld) !! key = None)
    by apply lookup_empty.
  rewrite E in Hs. discriminate.
Qed.

Lemma createShipment_created_then_cached_witness :
  let r := {| resp_status := 201; resp_retryAfter := None;
              resp_body := createdBody |} in
  let s := mapToShipment (clock_now (Remote := creatingRemote))
             (body_shipment (resp_body r)) in
  exists warning w',
    createShipment (H := exampleHost) (H0 := creatingRemote) containerRequest
      (Some "SO-1") freshWorld
    = (Ok {| shipment := s; source := created; creditUsed := true;
             warning := warning |}, w') /\
    c_shipment (cache w') !! buildCacheKey (H := exampleHost) containerRequest
    = Some (Some s, getCacheTTL (H := exampleHost) s) /\
    (cacheDisabled freshWorld = false ->
     truthy (discarded_at s) = false ->
     forall again,
       createShipment (H := exampleHost) (H0 := creatingRemote) containerRequest
         again w'
       = (Ok {| shipment := s; source := cached; creditUsed := false;
                warning := None |}, w')) /\
    (cacheDisabled freshWorld = true ->
     forall again, exists rest,
       calls (snd (createShipment (H := exampleHost) (H0 := creatingRemote)
                     containerRequest again w'))
       = (calls w' ++ createCall containerRequest :: rest)%list).
Proof.
  cbv zeta.
  apply (createShipment_created_then_cached (H := exampleHost)
           (H0 := creatingRemote) containerRequest (Some "SO-1") freshWorld
           {| resp_status := 201; resp_retryAfter := None;
              resp_body := createdBody |}).
  - apply freshWorld_nothing_to_reuse.
  - reflexivity.
  - right. reflexivity.
Defined.

Lemma createShipment_conflict_witness :
  createShipment (H := exampleHost) (H0 := conflictRemote) containerRequest None
    freshWorld
  = (Ok {| shipment := mapToShipment "2024-01-01T00:00:00.000Z"
                         (rawWithPosition None None);
           source := existing; creditUsed := false; warning := None |},
     withCache
       (slot_write shipmentSlot
          (<[buildCacheKey (H := exampleHost) containerRequest
             := (Some (mapToShipment "2024-01-01T00:00:00.000Z"
                         (rawWithPosition None None)),
                 getCacheTTL (H := exampleHost)
                   (mapToShipment "2024-01-01T00:00:00.000Z"
                      (rawWithPosition None None)))]>
             (c_shipment
                (cache (snd (fetchByReference (H := exampleHost)
                               (H0 := conflictRemote) containerRequest
                               (logCall (createCall containerRequest) freshWorld))))))
          (cache (snd (fetchByReference (H := exampleHost) (H0 := conflictRemote)
                         containerRequest
                         (logCall (createCall containerRequest) freshWorld)))))
       (snd (fetchByReference (H := exampleHost) (H0 := conflictRemote)
               containerRequest
               (logCall (createCall containerRequest) freshWorld)))).
Proof.
  apply (createShipment_conflict (H := exampleHost) (H0 := conflictRemote)
           containerRequest None freshWorld
           (snd (fetchByReference (H := exampleHost) (H0 := conflictRemote)
                   containerRequest
                   (logCall (createCall containerRequest) freshWorld)))
           {| resp_status := 409; resp_retryAfter := None; resp_body := emptyBody |}
           (Some (mapToShipment "2024-01-01T00:00:00.000Z"
                    (rawWithPosition None None)))).
  - apply freshWorld_nothing_to_reuse.
  - reflexivity.
  - reflexivity.
  - vm_compute. reflexivity.
Defined.

(** ** Trackers *)

Section TrackerFlow.
Context `{Host} `{Remote}.

Lemma selectBestMatch_In (l : list Shipment) (s : Shipment) :
  selectBestMatch l = Some s -> In s l.
Proof.
  rewrite selectBestMatch_eq.
  destruct (best compareShipments (survivors l)) as [s'|] eqn:Hbest; simpl.
  - intros [= <-]. apply survivors_In. eapply best_In. exact Hbest.
  - destruct l as [|x r]; [discriminate|]. intros [= <-]. left. reflexivity.
Qed.

Lemma selectBestMatch_None (l : list Shipment) :
  selectBestMatch l = None -> l = [].
Proof.
  rewrite selectBestMatch_eq.
  destruct (best compareShipments (survivors l)); [discriminate|].
  destruct l; [reflexivity | discriminate].
Qed.

(** On a hit, with the bypass off, [getOrFetch] returns the cached value
    and changes nothing. *)
Lemma getOrFetch_hit {T} (slot : Slot T) (key : string) (producer : M T)
    (ttl ttl' : Z) (v : T) (w : World) :
  cacheDisabled w = false ->
  slot_read slot (cache w) !! key = Some (v, ttl') ->
  getOrFetch slot key producer ttl false w = (Ok v, w).
Proof.
  intros Hon Hhit. unfold getOrFetch. rewrite bind_run. unfold cache_get.
  rewrite Hon, Hhit. reflexivity.
Qed.

Lemma trackByNumber_responded (operation param filter number : string)
    (w : World) (r : Response) :
  c_shipment (cache w) !! trackerCacheKey operation param number = None
  \/ cacheDisabled w = true ->
  fetch (length (calls w)) (getCall (trackerEndpoint filter number)) = Responded r ->
  resp_status r <> 429 -> resp_status r <> 402 ->
  trackByNumber operation param filter number w
  = if resp_ok r then
      (Ok (trackerSelection r),
       trackerStored operation param filter number (trackerSelection r) w)
    else if resp_status r =? 404 then
      (Ok None, trackerStored operation param filter number None w)
    else
      (Throw (ApiError (resp_status r) (resp_body r)),
       logCall (getCall (trackerEndpoint filter number)) w).
Proof.
  intros Hmiss Hfetch H429 H402. unfold trackByNumber.
  unfold mbind at 1, M_bind at 1, readCacheDisabled.
  rewrite getOrFetch_fetches by exact Hmiss.
  unfold mbind at 1, M_bind at 1. unfold mbind at 1, M_bind at 1.
  rewrite (request_responded _ _ _ _ r Hfetch H429 H402).
  unfold trackerSelection, trackerStored.
  destruct (resp_ok r); cbn [negb].
  - destruct (Nat.eqb (length (listedShipments (body_listing (resp_body r)))) 0);
      reflexivity.
  - destruct (resp_status r =? 404); reflexivity.
Qed.

(** A tracker that the backend answers with a 2xx returns null exactly when
    the listing is empty; otherwise it returns one of the listed shipments,
    mapped; either way the result is stored under the tracker's key for two
    hours. *)
Theorem trackByNumber_selects_listed (operation param filter number : string)
    (w : World) (r : Response) :
  c_shipment (cache w) !! trackerCacheKey operation param number = None
  \/ cacheDisabled w = true ->
  fetch (length (calls w)) (getCall (trackerEndpoint filter number)) = Responded r ->
  resp_ok r = true ->
  exists result,
    trackByNumber operation param filter number w
    = (Ok result, trackerStored operation param filter number result w) /\
    (result = None <-> listedShipments (body_listing (resp_body r)) = []) /\
    (forall s, result = Some s ->
       In s (map (mapToShipment clock_now)
               (listedShipments (body_listing (resp_body r))))).
Proof.
  intros Hmiss Hfetch Hok. destruct (ok_not_special r Hok) as [H429 H402].
  exists (trackerSelection r). split; [|split].
  - rewrite (trackByNumber_responded _ _ _ _ _ r Hmiss Hfetch H429 H402), Hok.
    reflexivity.
  - unfold trackerSelection.
    destruct (listedShipments (body_listing (resp_body r))) as [|x l] eqn:E.
    + simpl. tauto.
    + cbn [length Nat.eqb]. split; [|discriminate].
      intros Hnone. apply selectBestMatch_None in Hnone. discriminate.
  - intros s. unfold trackerSelection.
    destruct (Nat.eqb _ 0); [discriminate|]. apply selectBestMatch_In.
Qed.

(** A 404 is remembered: after a tracker met a 404, tracking the same
    number again, in any letter case, returns null from the cache with no
    remote call. *)
Theorem trackByNumber_remembers_404 (operation param filter number number' : string)
    (w : World) (r : Response) :
  c_shipment (cache w) !! trackerCacheKey operation param number = None ->
  cacheDisabled w = false ->
  fetch (length (calls w)) (getCall (trackerEndpoint filter number)) = Responded r ->
  resp_status r = 404 ->
  caseVariant number number' ->
  trackByNumber operation param filter number'
    (snd (trackByNumber operation param filter number w))
  = (Ok None, snd (trackByNumber operation param filter number w)).
Proof.
  intros Hmiss Hon Hfetch Hst Hcase.
  rewrite (trackByNumber_responded _ _ _ _ _ r (or_introl Hmiss) Hfetch)
    by (rewrite Hst; discriminate).
  unfold resp_ok. rewrite Hst. cbn [Z.leb Z.compare Pos.compare Pos.compare_cont
                                      andb Z.eqb Pos.eqb snd].
  unfold trackByNumber. rewrite bind_run. unfold readCacheDisabled.
  cbn [trackerStored withCache logCall cacheDisabled]. rewrite Hon.
  apply (getOrFetch_hit shipmentSlot _ _ _ (TTL_HOUR * 2)); [exact Hon|].
  cbn [cache withCache slot_read slot_write shipmentSlot c_shipment].
  assert (Hkey : trackerCacheKey operation param number'
                 = trackerCacheKey operation param number).
  { unfold trackerCacheKey. rewrite Hcase. reflexivity. }
  rewrite Hkey. apply lookup_insert_eq.
Qed.

End TrackerFlow.

Lemma trackByNumber_selects_listed_witness :
  exists result,
    trackByNumber (H := exampleHost) (H0 := listingRemote) "shipment:bl" "bl"
      "bl_number" "maeu123456789" freshWorld
    = (Ok result,
       trackerStored (H := exampleHost) "shipment:bl" "bl" "bl_number"
         "maeu123456789" result freshWorld) /\
    (result = None <-> listedShipments (body_listing oneShipmentBody) = []) /\
    (forall s, result = Some s ->
       In s (map (mapToShipment (clock_now (Remote := listingRemote)))
               (listedShipments (body_listing oneShipmentBody)))).
Proof.
  apply (trackByNumber_selects_listed (H := exampleHost) (H0 := listingRemote)
           "shipment:bl" "bl" "bl_number" "maeu123456789" freshWorld
           {| resp_status := 200; resp_retryAfter := None;
              resp_body := oneShipmentBody |}).
  - left. apply lookup_empty.
  - reflexivity.
  - reflexivity.
Defined.

Lemma trackByNumber_remembers_404_witness :
  trackByNumber (H := exampleHost) (H0 := notFoundRemote) "shipment:bl" "bl"
    "bl_number" "MAEU123456789"
    (snd (trackByNumber (H := exampleHost) (H0 := notFoundRemote) "shipment:bl"
            "bl" "bl_number" "maeu123456789" freshWorld))
  = (Ok None,
     snd (trackByNumber (H := exampleHost) (H0 := notFoundRemote) "shipment:bl"
            "bl" "bl_number" "maeu123456789" freshWorld)).
Proof.
  apply (trackByNumber_remembers_404 (H := exampleHost) (H0 := notFoundRemote)
           "shipment:bl" "bl" "bl_number" "maeu123456789" "MAEU123456789"
           freshWorld
           {| resp_status := 404; resp_retryAfter := None; resp_body := emptyBody |}).
  - apply lookup_empty.
  - reflexivity.
  - reflexivity.
  - reflexivity.
  - reflexivity.
Defined.

(** ** The cache discipline of the sharing link *)

Section SharingLinkCache.
Context `{Host} `{Remote}.

Lemma getSharingLink_hit (id : string) (w : World) (result : SharingLinkResult)
    (ttl : Z) :
  cacheDisabled w = false ->
  c_link (cache w) !! sharingLinkCacheKey id = Some (result, ttl) ->
  getSharingLink id w = (Ok (Some result), w).
Proof.
  intros Hon Hhit. unfold getSharingLink. cbv zeta. rewrite bind_run.
  unfold cache_get. cbn [slot_read linkSlot]. rewrite Hon, Hhit. reflexivity.
Qed.

Lemma getSharingLink_fetches (id : string) (w : World) :
  c_link (cache w) !! sharingLinkCacheKey id = None \/ cacheDisabled w = true ->
  getSharingLink id w = fetchSharingLink id w.
Proof.
  intros Hmiss. unfold getSharingLink. cbv zeta. rewrite bind_run.
  unfold cache_get. cbn [slot_read linkSlot].
  destruct (cacheDisabled w); [reflexivity|].
  destruct Hmiss as [-> | Hoff]; [reflexivity | discriminate].
Qed.

(** The fetch makes its one call, stores nothing but a link it returns,
    and leaves the client's flag alone. *)
Lemma fetchSharingLink_run (id : string) (w : World) :
  calls (snd (fetchSharingLink id w))
  = (calls w ++ [getCall ("/ocean/shipments/" ++ id)])%list /\
  cacheDisabled (snd (fetchSharingLink id w)) = cacheDisabled w /\
  match fst (fetchSharingLink id w) with
  | Ok (Some result) =>
      c_link (cache (snd (fetchSharingLink id w))) !! sharingLinkCacheKey id
      = Some (result, TTL_DAY)
  | _ => cache (snd (fetchSharingLink id w)) = cache w
  end.
Proof.
  unfold fetchSharingLink. rewrite bind_run, request_run.
  destruct (requestOutcome _) as [r|e]; cbn [fst snd];
    [|repeat split].
  destruct (resp_ok r); cbn [negb].
  - cbv zeta. destruct (ld_tokens _ ≫= tokens_map) as [token|];
      [|repeat split].
    destruct (truthy token); cbn [negb]; [|repeat split].
    split; [reflexivity|]. split; [reflexivity|]. cbn. apply lookup_insert_eq.
  - destruct (resp_status r =? 404); repeat split.
Qed.

(** With the cache enabled, a link that [getSharingLink] returned is served
    again from the cache, with no remote call; with the cache disabled
    every call fetches.  A call that returns null or throws, whatever the
    reason (a 404, another error status, a payload without token), leaves
    the cache as it was: a negative result is never cached. *)
Theorem getSharingLink_caches_links_only (id : string) (w : World) :
  (cacheDisabled w = false ->
   forall result,
     fst (getSharingLink id w) = Ok (Some result) ->
     getSharingLink id (snd (getSharingLink id w))
     = (Ok (Some result), snd (getSharingLink id w))) /\
  (cacheDisabled w = true ->
   calls (snd (getSharingLink id (snd (getSharingLink id w))))
   = (calls w ++ [getCall ("/ocean/shipments/" ++ id);
                  getCall ("/ocean/shipments/" ++ id)])%list) /\
  (fst (getSharingLink id w) = Ok None -> cache (snd (getSharingLink id w)) = cache w) /\
  (forall e,
     fst (getSharingLink id w) = Throw e ->
     cache (snd (getSharingLink id w)) = cache w).
Proof.
  destruct (fetchSharingLink_run id w) as (Hcalls & Hflag & Hstore).
  destruct (cacheDisabled w) eqn:Hoff.
  - rewrite (getSharingLink_fetches id w (or_intror Hoff)).
    split; [discriminate|]. split; [|split].
    + intros _. rewrite getSharingLink_fetches by (right; congruence).
      destruct (fetchSharingLink_run id (snd (fetchSharingLink id w)))
        as (Hcalls' & _). rewrite Hcalls', Hcalls, <- app_assoc. reflexivity.
    + intros Hnull. rewrite Hnull in Hstore. exact Hstore.
    + intros e He. rewrite He in Hstore. exact Hstore.
  - destruct (c_link (cache w) !! sharingLinkCacheKey id)
      as [[cachedLink ttl]|] eqn:Hlook.
    + rewrite (getSharingLink_hit id w cachedLink ttl Hoff Hlook). cbn [fst snd].
      split; [|split; [|split]]; try discriminate.
      intros _ result [= <-]. exact (getSharingLink_hit id w cachedLink ttl Hoff Hlook).
    + rewrite (getSharingLink_fetches id w (or_introl Hlook)).
      split; [|split; [|split]]; try discriminate.
      * intros _ result Hres. rewrite Hres in Hstore.
        exact (getSharingLink_hit id _ result TTL_DAY Hflag Hstore).
      * intros Hnull. rewrite Hnull in Hstore. exact Hstore.
      * intros e He. rewrite He in Hstore. exact Hstore.
Qed.

End SharingLinkCache.

(** ** Invariants of the mapper *)

Section MapperInvariants.

Lemma js_or_default_truthy (a : option string) (d : string) :
  d <> "" -> js_or_default a d <> "".
Proof.
  intros Hd. unfold js_or_default. destruct a as [[|c x]|]; simpl;
    try assumption. discriminate.
Qed.

(** The timestamps of a mapped shipment are always populated, and its
    discarded timestamp is absent or a non-empty string: a mapped shipment
    passes the discarded filter exactly when it has no discarded timestamp. *)
Theorem mapToShipment_timestamps (now : string) (raw : RawShipment) :
  now <> "" ->
  created_at (mapToShipment now raw) <> "" /\
  updated_at (mapToShipment now raw) <> "" /\
  discarded_at (mapToShipment now raw) <> Some "" /\
  (notDiscarded (mapToShipment now raw) = true
   <-> discarded_at (mapToShipment now raw) = None) /\
  (discarded_at (mapToShipment now raw) = None
   <-> truthy (r_discardedAt raw) = false /\ truthy (r_discarded_at raw) = false).
Proof.
  intros Hnow. unfold notDiscarded, mapToShipment.
  cbn [created_at updated_at discarded_at].
  split; [apply js_or_default_truthy, Hnow|].
  split; [apply js_or_default_truthy, Hnow|].
  unfold js_or.
  destruct (r_discardedAt raw) as [[|c x]|]; destruct (r_discarded_at raw) as [[|d y]|];
    cbn; repeat split; try discriminate; try tauto;
    intros; try discriminate; try tauto.
  all: try (destruct H as [? ?]; discriminate).
Qed.

Lemma js_or_one_spelling (a b : option string) :
  oneSpelling a b -> js_or b a = js_or a b.
Proof.
  intros ([-> | ->] & Ha & Hb); unfold js_or.
  - destruct b as [[|c x]|]; try reflexivity. contradiction.
  - destruct a as [[|c x]|]; try reflexivity. contradiction.
Qed.

(** Naming-convention invariance: a payload that uses one spelling per
    field maps to the same shipment when the camel-case and snake-case
    spellings are exchanged. *)
Theorem mapToShipment_convention_invariant (now : string) (raw : RawShipment) :
  oneConvention raw ->
  mapToShipment now (swapConventions raw) = mapToShipment now raw.
Proof.
  intros (Hc & Hbl & Hbk & Hcr & Hup & Hcu & Hdi).
  unfold mapToShipment. cbn [swapConventions r_id r_requestId r_status
    r_shippingStatus r_containerNumber r_container_number r_blNumber r_bl_number
    r_bookingNumber r_booking_number r_carrier r_shippingLine r_createdAt
    r_created_at r_updatedAt r_updated_at r_customReference r_custom_reference
    r_vessel r_vesselName r_vesselImo r_pol r_portOfLoading r_polCode r_etd r_atd
    r_pod r_portOfDischarge r_podCode r_eta r_ata r_milestones r_events
    r_coordinates r_latitude r_longitude r_discardedAt r_discarded_at].
  rewrite (js_or_one_spelling _ _ Hc), (js_or_one_spelling _ _ Hbl),
    (js_or_one_spelling _ _ Hbk), (js_or_one_spelling _ _ Hcr),
    (js_or_one_spelling _ _ Hup), (js_or_one_spelling _ _ Hcu),
    (js_or_one_spelling _ _ Hdi).
  rewrite (orb_comm (truthy (r_discarded_at raw))). reflexivity.
Qed.

(** When both spellings carry a value, the camel-case one wins. *)
Lemma mapToShipment_camel_case_wins (now : string) (raw : RawShipment) :
  truthy (r_containerNumber raw) = true ->
  container_number (mapToShipment now raw) = r_containerNumber raw.
Proof.
  intros Hc. unfold mapToShipment. cbn [container_number]. unfold js_or.
  rewrite Hc. reflexivity.
Qed.

End MapperInvariants.

(** ** Validation of reference numbers *)

Section Validation.

Lemma matchRepeats_cons (r : Repeat) (rest : list Repeat) (s : list ascii) :
  matchRepeats (r :: rest) s = true <->
  exists k, (rep_min r <= k <= rep_max r)%nat /\ (k <= length s)%nat /\
            forallb (rep_class r) (firstn k s) = true /\
            matchRepeats rest (skipn k s) = true.
Proof.
  cbn [matchRepeats]. rewrite existsb_exists. split.
  - intros (k & Hin & Hk). apply in_seq in Hin.
    rewrite !andb_true_iff, Nat.leb_le in Hk. exists k. repeat split; try tauto; lia.
  - intros (k & Hrange & Hlen & Hclass & Hrest). exists k. split.
    + apply in_seq. lia.
    + rewrite !andb_true_iff, Nat.leb_le. tauto.
Qed.

Lemma matchRepeats_last (r : Repeat) (s : list ascii) :
  matchRepeats [r] s = true <->
  (rep_min r <= length s <= rep_max r)%nat /\ forallb (rep_class r) s = true.
Proof.
  rewrite matchRepeats_cons. split.
  - intros (k & Hrange & Hlen & Hclass & Hrest).
    assert (Hk : k = length s).
    { cbn [matchRepeats] in Hrest.
      destruct (skipn k s) eqn:E; [|discriminate].
      apply (f_equal (@length ascii)) in E. rewrite length_skipn in E. simpl in E. lia. }
    subst k. rewrite firstn_all in Hclass. split; [lia | exact Hclass].
  - intros [Hrange Hclass]. exists (length s).
    rewrite firstn_all, skipn_all. repeat split; try lia; assumption.
Qed.

Lemma matchRepeats_prefix (class : ascii -> bool) (n : nat) (r : Repeat)
    (s : list ascii) :
  matchRepeats [exactly class n; r] s = true <->
  (n <= length s)%nat /\ forallb class (firstn n s) = true /\
  (rep_min r <= length s - n <= rep_max r)%nat /\
  forallb (rep_class r) (skipn n s) = true.
Proof.
  rewrite matchRepeats_cons. cbn [exactly rep_min rep_max rep_class]. split.
  - intros (k & Hrange & Hlen & Hclass & Hrest).
    assert (k = n) by lia. subst k.
    apply matchRepeats_last in Hrest. rewrite length_skipn in Hrest. tauto.
  - intros (Hlen & Hclass & Hrange & Hrest). exists n.
    repeat split; try lia; try assumption.
    apply matchRepeats_last. rewrite length_skipn. tauto.
Qed.

Lemma existsb_pointwise {A} (f g : A -> bool) (l : list A) :
  (forall x, f x = g x) -> existsb f l = existsb g l.
Proof.
  intros Hfg. induction l as [|x l IH]; simpl; [reflexivity|].
  rewrite Hfg, IH. reflexivity.
Qed.

Lemma forallb_map_invariant (class : ascii -> bool) (f : ascii -> ascii)
    (l : list ascii) :
  (forall c, class (f c) = class c) -> forallb class (map f l) = forallb class l.
Proof.
  intros Hinv. induction l as [|c l IH]; simpl; [reflexivity|].
  rewrite Hinv, IH. reflexivity.
Qed.

(** A pattern whose classes do not tell [c] from [f c] matches [map f s]
    when it matches [s]. *)
Lemma matchRepeats_map (f : ascii -> ascii) (pattern : list Repeat) (s : list ascii) :
  Forall (fun r => forall c, rep_class r (f c) = rep_class r c) pattern ->
  matchRepeats pattern (map f s) = matchRepeats pattern s.
Proof.
  intros Hinv. revert s. induction Hinv as [|r rest Hr _ IH]; intros s.
  - destruct s; reflexivity.
  - cbn [matchRepeats]. apply existsb_pointwise. intros k.
    rewrite length_map, firstn_map, skipn_map, IH.
    rewrite (forallb_map_invariant _ _ _ Hr). reflexivity.
Qed.

Lemma isLetter_upper (c : ascii) : isLetter (upperAscii c) = isLetter c.
Proof. destruct c as [[] [] [] [] [] [] [] []]; reflexivity. Qed.

Lemma isDigit_upper (c : ascii) : isDigit (upperAscii c) = isDigit c.
Proof. destruct c as [[] [] [] [] [] [] [] []]; reflexivity. Qed.

Lemma chars_toUpperCase (s : string) :
  list_ascii_of_string (toUpperCase s) = map upperAscii (list_ascii_of_string s).
Proof.
  induction s as [|c r IH]; simpl; [reflexivity|]. rewrite IH. reflexivity.
Qed.

Lemma chars_length (s : string) :
  length (list_ascii_of_string s) = String.length s.
Proof. induction s as [|c r IH]; simpl; [reflexivity|]. rewrite IH. reflexivity. Qed.

Lemma letters_then_digits_upper (r : Repeat) (s : string) :
  (forall c, rep_class r (upperAscii c) = rep_class r c) ->
  matchRepeats [exactly isLetter 4; r] (list_ascii_of_string (toUpperCase s))
  = matchRepeats [exactly isLetter 4; r] (list_ascii_of_string s).
Proof.
  intros Hr. rewrite chars_toUpperCase. apply matchRepeats_map.
  repeat constructor; [exact isLetter_upper | exact Hr].
Qed.

(** On ASCII text the container check of the command line and that of the
    client accept the same strings, and neither minds the letter case:
    upper-casing the number first, as the client does, changes nothing. *)
Theorem validateContainerNumber_agrees (s : string) :
  asciiText s = true ->
  containerRegex_test s = validateContainerNumber s /\
  validateContainerNumber (toUpperCase s) = validateContainerNumber s /\
  validateBLNumber (toUpperCase s) = validateBLNumber s.
Proof.
  intros _. unfold containerRegex_test, validateContainerNumber, validateBLNumber.
  rewrite !letters_then_digits_upper by exact isDigit_upper. repeat split.
Qed.

Lemma forallb_weaken (p q : ascii -> bool) (l : list ascii) :
  (forall c, p c = true -> q c = true) -> forallb p l = true -> forallb q l = true.
Proof.
  intros Hpq. rewrite !forallb_forall. auto.
Qed.

Lemma forallb_take_drop (p : ascii -> bool) (n : nat) (l : list ascii) :
  forallb p (firstn n l) = true -> forallb p (skipn n l) = true ->
  forallb p l = true.
Proof.
  intros H1 H2. rewrite <- (firstn_skipn n l), forallb_app, H1, H2. reflexivity.
Qed.

(** The three formats, on ASCII text: a valid container number has 11
    characters and a valid BL number 12 to 16, so no string is both; and
    each of them, being 6 to 20 letters and digits, is also a valid booking
    number. *)
Theorem validation_formats (s : string) :
  asciiText s = true ->
  (validateContainerNumber s = true ->
   String.length s = 11%nat /\ validateBLNumber s = false /\
   validateBookingNumber s = true) /\
  (validateBLNumber s = true ->
   (12 <= String.length s <= 16)%nat /\ validateBookingNumber s = true) /\
  (validateBookingNumber s = true -> (6 <= String.length s <= 20)%nat).
Proof.
  intros _.
  unfold validateContainerNumber, validateBLNumber, validateBookingNumber.
  rewrite !letters_then_digits_upper by exact isDigit_upper.
  rewrite !matchRepeats_prefix, matchRepeats_last.
  cbn [exactly between rep_min rep_max rep_class].
  rewrite chars_length.
  assert (Halnum : forall n,
            forallb isLetter (firstn n (list_ascii_of_string s)) = true ->
            forallb isDigit (skipn n (list_ascii_of_string s)) = true ->
            forallb isLetterOrDigit (list_ascii_of_string s) = true).
  { intros n Hl Hd. apply (forallb_take_drop _ n).
    - revert Hl. apply forallb_weaken. intros c Hc. unfold isLetterOrDigit.
      rewrite Hc. reflexivity.
    - revert Hd. apply forallb_weaken. intros c Hc. unfold isLetterOrDigit.
      rewrite Hc. apply orb_true_r. }
  split; [|split].
  - intros (Hlen & Hl & Hrange & Hd). split; [lia|]. split.
    + apply not_true_iff_false. rewrite matchRepeats_prefix.
      cbn [between rep_min rep_max rep_class]. rewrite chars_length. lia.
    + split; [lia | exact (Halnum 4%nat Hl Hd)].
  - intros (Hlen & Hl & Hrange & Hd). split; [lia|].
    split; [lia | exact (Halnum 4%nat Hl Hd)].
  - intros [Hrange _]. exact Hrange.
Qed.

End Validation.

Example validateContainerNumber_example :
  validateContainerNumber "hamu1058953" = true /\
  validateContainerNumber "HAMU105895" = false /\
  validateBLNumber "MAEU123456789" = true /\
  validateBookingNumber "SO-12345" = false.
Proof. repeat split. Qed.

(** ** Rate limit tracker *)

Section RateLimit.
Context `{Host}.

(** Without recent server numbers the status is an estimate from the local
    call log: the limit is 100, the remaining budget is [100 - count] and
    never negative, and the warning is raised exactly when more than 80
    calls are logged. *)
Theorem getRateLimitStatus_estimate (now : Z) (file : RateLimitFile) :
  hasRecentServerData now (loadRateLimitData file) = false
  \/ serverRemaining (loadRateLimitData file) = None ->
  rs_limit (getRateLimitStatus now file) = 100 /\
  rs_localCallCount (getRateLimitStatus now file)
  = length (localCalls (loadRateLimitData file)) /\
  exists n,
    rs_remaining (getRateLimitStatus now file) = StoredNum n /\
    0 <= n <= 100 /\
    n = Z.max 0 (100 - Z.of_nat (length (localCalls (loadRateLimitData file)))) /\
    (rs_warning (getRateLimitStatus now file)
     = Some "Approaching rate limit (estimated)"
     <-> (80 < length (localCalls (loadRateLimitData file)))%nat) /\
    (rs_warning (getRateLimitStatus now file) = None
     <-> (length (localCalls (loadRateLimitData file)) <= 80)%nat).
Proof.
  intros Hold. unfold getRateLimitStatus.
  set (data := loadRateLimitData file) in *.
  set (count := length (localCalls data)).
  assert (Hbranch :
    match hasRecentServerData now data, serverRemaining data with
    | true, Some _ => False
    | _, _ => True
    end).
  { destruct Hold as [-> | ->]; [exact I|].
    destruct (hasRecentServerData now data); exact I. }
  destruct (hasRecentServerData now data), (serverRemaining data);
    try contradiction; cbn;
    (split; [reflexivity|]; split; [reflexivity|];
     exists (Z.max 0 (100 - Z.of_nat count));
     split; [reflexivity|]; split; [lia|]; split; [reflexivity|];
     destruct (Z.ltb_spec (Z.max 0 (100 - Z.of_nat count)) 20);
     split; split; intros; try discriminate; try reflexivity; lia).
Qed.

Lemma update_content (clock : nat -> Z) (headers : RateLimitHeaders)
    (file : RateLimitFile) :
  rl_writable file = true ->
  exists resetAt,
    loadRateLimitData (updateRateLimitFromResponse clock headers file)
    = {| serverRemaining :=
           if truthy (h_remaining headers)
           then storeNum <$> (parseInt10 <$> h_remaining headers)
           else serverRemaining (loadRateLimitData file);
         serverLimit :=
           if truthy (h_limit headers)
           then storeNum <$> (parseInt10 <$> h_limit headers)
           else serverLimit (loadRateLimitData file);
         serverResetAt := resetAt;
         lastServerUpdate := Some (clock (readingsBeforeUpdate headers));
         localCalls :=
           filterWindow clock (S (S (readingsBeforeUpdate headers)))
             (localCalls (loadRateLimitData file)
                ++ [clock (S (readingsBeforeUpdate headers))])%list |}.
Proof.
  intros Hw. unfold updateRateLimitFromResponse, readingsBeforeUpdate,
    saveRateLimitData.
  rewrite Hw.
  destruct (h_reset headers ||| h_retryAfter headers) as [text|];
    [|eexists; reflexivity].
  destruct (truthy text); [|eexists; reflexivity].
  destruct (parseInt10 text) as [|resetVal]; [eexists; reflexivity|].
  destruct (10000000000 <? resetVal); eexists; reflexivity.
Qed.

(** After a response that carries [X-RateLimit-Remaining], a status read
    within 60 seconds reports what the header parsed to, or [null] when it
    did not parse, and warns exactly when that is below 20 or [null]. *)
Theorem status_reports_header (clock : nat -> Z) (headers : RateLimitHeaders)
    (file : RateLimitFile) (text : string) (now : Z) :
  rl_writable file = true ->
  h_remaining headers = Some text -> text <> "" ->
  clock (readingsBeforeUpdate headers) <> 0 ->
  now - clock (readingsBeforeUpdate headers) < 60000 ->
  rs_remaining
    (getRateLimitStatus now (updateRateLimitFromResponse clock headers file))
  = storeNum (parseInt10 text) /\
  (rs_warning
     (getRateLimitStatus now (updateRateLimitFromResponse clock headers file))
   = Some "Approaching rate limit"
   <-> match parseInt10 text with NaN => True | Num n => n < 20 end) /\
  (rs_warning
     (getRateLimitStatus now (updateRateLimitFromResponse clock headers file))
   = None
   <-> match parseInt10 text with NaN => False | Num n => 20 <= n end).
Proof.
  intros Hw Hrem Htext Hclock Hrecent.
  destruct (update_content clock headers file Hw) as [resetAt Hcontent].
  unfold getRateLimitStatus. rewrite Hcontent.
  cbn [hasRecentServerData lastServerUpdate serverRemaining].
  rewrite Hrem. apply truthy_string_nonempty in Htext.
  change (truthy (Some text)) with (truthy text). rewrite Htext.
  assert (Hnz : truthy (clock (readingsBeforeUpdate headers)) = true).
  { unfold truthy, truthy_Z. apply negb_true_iff, Z.eqb_neq, Hclock. }
  rewrite Hnz. apply Z.ltb_lt in Hrecent. rewrite Hrecent.
  cbn [andb fmap option_fmap option_map rs_remaining rs_warning].
  split; [reflexivity|].
  destruct (parseInt10 text) as [|n]; cbn [storeNum].
  - split; split; intros; try discriminate; try reflexivity; tauto.
  - destruct (Z.ltb_spec n 20);
      split; split; intros; try discriminate; try reflexivity; lia.
Qed.

(** A response without [X-RateLimit-Remaining] still refreshes the time of
    the last server update: the number an earlier response left in the
    file, however old, is reported as current for the next 60 seconds. *)
Theorem status_reports_stale_number (clock : nat -> Z)
    (headers : RateLimitHeaders) (file : RateLimitFile) (old : Stored) (now : Z) :
  rl_writable file = true ->
  truthy (h_remaining headers) = false ->
  serverRemaining (loadRateLimitData file) = Some old ->
  clock (readingsBeforeUpdate headers) <> 0 ->
  now - clock (readingsBeforeUpdate headers) < 60000 ->
  rs_remaining
    (getRateLimitStatus now (updateRateLimitFromResponse clock headers file))
  = old.
Proof.
  intros Hw Hrem Hold Hclock Hrecent.
  destruct (update_content clock headers file Hw) as [resetAt Hcontent].
  unfold getRateLimitStatus. rewrite Hcontent.
  cbn [hasRecentServerData lastServerUpdate serverRemaining].
  rewrite Hrem, Hold.
  assert (Hnz : truthy (clock (readingsBeforeUpdate headers)) = true).
  { unfold truthy, truthy_Z. apply negb_true_iff, Z.eqb_neq, Hclock. }
  rewrite Hnz. apply Z.ltb_lt in Hrecent. rewrite Hrecent. reflexivity.
Qed.

Lemma filterWindow_In (clock : nat -> Z) (k : nat) (l : list Z) (t : Z) :
  In t (filterWindow clock k l) <->
  exists i, nth_error l i = Some t /\ clock (k + i)%nat - 60000 < t.
Proof.
  revert k. induction l as [|x r IH]; intros k; cbn [filterWindow].
  - split; [intros [] | intros ([|i] & Hi & _); discriminate].
  - destruct (Z.ltb_spec (clock k - 60000) x) as [Hkeep | Hdrop].
    + cbn [In]. rewrite IH. split.
      * intros [<- | (i & Hi & Ht)].
        -- exists O. rewrite Nat.add_0_r. split; [reflexivity | exact Hkeep].
        -- exists (S i). rewrite Nat.add_succ_r. split; assumption.
      * intros ([|i] & Hi & Ht).
        -- left. injection Hi as <-. reflexivity.
        -- right. exists i. rewrite Nat.add_succ_r in Ht. split; assumption.
    + rewrite IH. split.
      * intros (i & Hi & Ht). exists (S i). rewrite Nat.add_succ_r.
        split; assumption.
      * intros ([|i] & Hi & Ht).
        -- injection Hi as <-. rewrite Nat.add_0_r in Ht. lia.
        -- exists i. rewrite Nat.add_succ_r in Ht. split; assumption.
Qed.

(** The local call log is a sliding window of 60 seconds.  With a clock
    that does not run backwards, the log after an update holds only calls
    of the old log and the call just made, each less than 60 seconds before
    the update began; and it holds every one of them that is less than 60
    seconds before the update ended. *)
Theorem update_keeps_last_minute (clock : nat -> Z) (headers : RateLimitHeaders)
    (file : RateLimitFile) :
  rl_writable file = true ->
  (forall i j, (i <= j)%nat -> clock i <= clock j) ->
  let old := localCalls (loadRateLimitData file) in
  let new := localCalls (loadRateLimitData
                           (updateRateLimitFromResponse clock headers file)) in
  let made := clock (S (readingsBeforeUpdate headers)) in
  let ended := clock (S (S (readingsBeforeUpdate headers)) + length old)%nat in
  (forall t, In t new -> (In t old \/ t = made) /\ clock O - 60000 < t) /\
  (forall t, (In t old \/ t = made) -> ended - 60000 < t -> In t new).
Proof.
  intros Hw Hmono old new made ended.
  destruct (update_content clock headers file Hw) as [resetAt Hcontent].
  subst new. rewrite Hcontent. cbn [localCalls]. fold old. fold made. split.
  - intros t Ht. apply filterWindow_In in Ht. destruct Ht as (i & Hi & Hlate).
    split.
    + apply nth_error_In in Hi. apply in_app_or in Hi.
      destruct Hi as [Hi | [<- | []]]; [left; exact Hi | right; reflexivity].
    + pose proof (Hmono O (S (S (readingsBeforeUpdate headers)) + i)%nat) as Hle.
      lia.
  - intros t Hin Hlate.
    assert (Hin' : In t (old ++ [made])%list).
    { apply in_or_app. destruct Hin as [Hin | ->]; [left; exact Hin|].
      right. left. reflexivity. }
    apply In_nth_error in Hin'. destruct Hin' as [i Hi].
    apply filterWindow_In. exists i. split; [exact Hi|].
    assert (Hlen : (i < length (old ++ [made])%list)%nat).
    { apply nth_error_Some. rewrite Hi. discriminate. }
    rewrite length_app in Hlen. cbn [length] in Hlen.
    pose proof (Hmono (S (S (readingsBeforeUpdate headers)) + i)%nat
                  (S (S (readingsBeforeUpdate headers)) + length old)%nat) as Hle.
    unfold ended in Hlate. lia.
Qed.

End RateLimit.

(** ** Listing, lookup by id and the aggregate of active shipments *)

Section Listings.
Context `{Host} `{Remote}.

Lemma listShipments_responded (options : option ListOptions) (w : World)
    (r : Response) :
  c_listing (cache w) !! listCacheKey options = None \/ cacheDisabled w = true ->
  fetch (length (calls w)) (getCall (listEndpoint options)) = Responded r ->
  resp_status r <> 429 -> resp_status r <> 402 ->
  listShipments options w
  = if resp_ok r then
      (Ok (listingOfResponse r), listingStored options (listingOfResponse r) w)
    else
      (Throw (ApiError (resp_status r) (resp_body r)),
       logCall (getCall (listEndpoint options)) w).
Proof.
  intros Hmiss Hfetch H429 H402. unfold listShipments.
  unfold mbind at 1, M_bind at 1, readCacheDisabled.
  rewrite getOrFetch_fetches by exact Hmiss.
  unfold mbind at 1, M_bind at 1. unfold mbind at 1, M_bind at 1.
  rewrite (request_responded _ _ _ _ r Hfetch H429 H402).
  destruct (resp_ok r); reflexivity.
Qed.

(** [getShipmentById] is strict: any status outside 2xx, a 404 included,
    raises an [ApiError] with that status and leaves the cache as it was; a
    2xx returns the mapped shipment, never null, and stores it under the
    key of the id for two hours. *)
Theorem getShipmentById_strict (id : string) (w : World) (r : Response) :
  c_shipment (cache w) !! shipmentIdCacheKey id = None \/ cacheDisabled w = true ->
  fetch (length (calls w)) (getCall ("/ocean/shipments/" ++ id)) = Responded r ->
  resp_status r <> 429 -> resp_status r <> 402 ->
  (resp_ok r = false ->
   getShipmentById id w
   = (Throw (ApiError (resp_status r) (resp_body r)),
      logCall (getCall ("/ocean/shipments/" ++ id)) w)) /\
  (resp_ok r = true ->
   fst (getShipmentById id w)
   = Ok (Some (mapToShipment clock_now (body_shipment (resp_body r)))) /\
   c_shipment (cache (snd (getShipmentById id w))) !! shipmentIdCacheKey id
   = Some (Some (mapToShipment clock_now (body_shipment (resp_body r))),
           TTL_HOUR * 2)).
Proof.
  intros Hmiss Hfetch H429 H402.
  assert (Hrun : getShipmentById id w
            = if resp_ok r then
                (Ok (Some (mapToShipment clock_now (body_shipment (resp_body r)))),
                 withCache
                   (slot_write shipmentSlot
                      (<[shipmentIdCacheKey id
                         := (Some (mapToShipment clock_now
                                     (body_shipment (resp_body r))),
                             TTL_HOUR * 2)]> (c_shipment (cache w)))
                      (cache w))
                   (logCall (getCall ("/ocean/shipments/" ++ id)) w))
              else
                (Throw (ApiError (resp_status r) (resp_body r)),
                 logCall (getCall ("/ocean/shipments/" ++ id)) w)).
  { unfold getShipmentById.
    unfold mbind at 1, M_bind at 1, readCacheDisabled.
    rewrite getOrFetch_fetches by exact Hmiss.
    unfold mbind at 1, M_bind at 1. unfold mbind at 1, M_bind at 1.
    rewrite (request_responded _ _ _ _ r Hfetch H429 H402).
    destruct (resp_ok r); reflexivity. }
  rewrite Hrun. split; intros ->; [reflexivity|].
  split; [reflexivity|]. cbn. apply lookup_insert_eq.
Qed.

Lemma activeUncached_start (w : World) :
  activeUncached w ->
  c_search (cache w) !! activeCacheKey = None \/ cacheDisabled w = true.
Proof. intros [Hoff | (Hmiss & _)]; auto. Qed.

Lemma activeUncached_first (w : World) :
  activeUncached w ->
  c_listing (cache w) !! listCacheKey (Some (listingOf "EN_ROUTE")) = None
  \/ cacheDisabled w = true.
Proof. intros [Hoff | (_ & Hmiss & _)]; auto. Qed.

Lemma activeUncached_second (w : World) (l : Listing) :
  activeUncached w ->
  c_listing (cache (listingStored (Some (listingOf "EN_ROUTE")) l w))
    !! listCacheKey (Some (listingOf "PENDING")) = None
  \/ cacheDisabled (listingStored (Some (listingOf "EN_ROUTE")) l w) = true.
Proof.
  intros [Hoff | (_ & _ & Hmiss & Hne)]; [right; exact Hoff|].
  left. cbn. rewrite lookup_insert_ne by exact Hne. exact Hmiss.
Qed.

Lemma getActiveShipments_run (w : World) (r1 r2 : Response) :
  activeUncached w ->
  fetch (length (calls w)) (getCall (listEndpoint (Some (listingOf "EN_ROUTE"))))
  = Responded r1 ->
  fetch (S (length (calls w)))
    (getCall (listEndpoint (Some (listingOf "PENDING")))) = Responded r2 ->
  resp_ok r1 = true -> resp_status r2 <> 429 -> resp_status r2 <> 402 ->
  getActiveShipments w
  = if resp_ok r2 then
      (Ok (shipments (listingOfResponse r1) ++ shipments (listingOfResponse r2))%list,
       withCache
         (slot_write searchSlot
            (<[activeCacheKey
               := ((shipments (listingOfResponse r1)
                      ++ shipments (listingOfResponse r2))%list,
                   TTL_FIFTEEN_MINUTES)]>
               (c_search (cache w)))
            (cache (listingStored (Some (listingOf "PENDING")) (listingOfResponse r2)
                      (listingStored (Some (listingOf "EN_ROUTE"))
                         (listingOfResponse r1) w))))
         (listingStored (Some (listingOf "PENDING")) (listingOfResponse r2)
            (listingStored (Some (listingOf "EN_ROUTE")) (listingOfResponse r1) w)))
    else
      (Throw (ApiError (resp_status r2) (resp_body r2)),
       logCall (getCall (listEndpoint (Some (listingOf "PENDING"))))
         (listingStored (Some (listingOf "EN_ROUTE")) (listingOfResponse r1) w)).
Proof.
  intros Hun Hf1 Hf2 Hok1 Ha2 Hb2.
  destruct (ok_not_special r1 Hok1) as [Ha1 Hb1].
  unfold getActiveShipments. cbv zeta.
  unfold mbind at 1, M_bind at 1, readCacheDisabled.
  rewrite getOrFetch_fetches by exact (activeUncached_start w Hun).
  unfold mbind at 1, M_bind at 1. unfold mbind at 1, M_bind at 1.
  rewrite (listShipments_responded _ w r1 (activeUncached_first w Hun) Hf1 Ha1 Hb1).
  rewrite Hok1. unfold mbind at 1, M_bind at 1.
  rewrite (listShipments_responded _ _ r2
             (activeUncached_second w (listingOfResponse r1) Hun)).
  - destruct (resp_ok r2); reflexivity.
  - cbn. rewrite length_app, Nat.add_comm. exact Hf2.
  - exact Ha2.
  - exact Hb2.
Qed.

(** The aggregate of active shipments is the en-route listing followed by
    the pending listing, as they come, with no merging: a shipment the
    backend lists in both appears twice.  It takes two remote calls and is
    stored for fifteen minutes. *)
Theorem getActiveShipments_concatenates (w : World) (r1 r2 : Response) :
  activeUncached w ->
  fetch (length (calls w)) (getCall (listEndpoint (Some (listingOf "EN_ROUTE"))))
  = Responded r1 ->
  fetch (S (length (calls w)))
    (getCall (listEndpoint (Some (listingOf "PENDING")))) = Responded r2 ->
  resp_ok r1 = true -> resp_ok r2 = true ->
  fst (getActiveShipments w)
  = Ok (shipments (listingOfResponse r1) ++ shipments (listingOfResponse r2))%list /\
  calls (snd (getActiveShipments w))
  = (calls w ++ [getCall (listEndpoint (Some (listingOf "EN_ROUTE")));
                 getCall (listEndpoint (Some (listingOf "PENDING")))])%list /\
  c_search (cache (snd (getActiveShipments w))) !! activeCacheKey
  = Some ((shipments (listingOfResponse r1)
             ++ shipments (listingOfResponse r2))%list,
          TTL_FIFTEEN_MINUTES).
Proof.
  intros Hun Hf1 Hf2 Hok1 Hok2.
  destruct (ok_not_special r2 Hok2) as [Ha2 Hb2].
  rewrite (getActiveShipments_run w r1 r2 Hun Hf1 Hf2 Hok1 Ha2 Hb2), Hok2.
  split; [reflexivity|]. split.
  - cbn. rewrite <- app_assoc. reflexivity.
  - cbn. apply lookup_insert_eq.
Qed.

(** The aggregate fails as a whole when its second listing fails: a 404 to
    the pending listing raises the [ApiError] although the en-route
    shipments were listed; the en-route listing stays cached, the aggregate
    is not. *)
Theorem getActiveShipments_pending_404 (w : World) (r1 r2 : Response) :
  activeUncached w ->
  fetch (length (calls w)) (getCall (listEndpoint (Some (listingOf "EN_ROUTE"))))
  = Responded r1 ->
  fetch (S (length (calls w)))
    (getCall (listEndpoint (Some (listingOf "PENDING")))) = Responded r2 ->
  resp_ok r1 = true -> resp_status r2 = 404 ->
  fst (getActiveShipments w) = Throw (ApiError 404 (resp_body r2)) /\
  c_search (cache (snd (getActiveShipments w))) !! activeCacheKey
  = c_search (cache w) !! activeCacheKey /\
  c_listing (cache (snd (getActiveShipments w)))
    !! listCacheKey (Some (listingOf "EN_ROUTE"))
  = Some (listingOfResponse r1, TTL_FIFTEEN_MINUTES).
Proof.
  intros Hun Hf1 Hf2 Hok1 Hst2.
  assert (Ha2 : resp_status r2 <> 429) by (rewrite Hst2; discriminate).
  assert (Hb2 : resp_status r2 <> 402) by (rewrite Hst2; discriminate).
  rewrite (getActiveShipments_run w r1 r2 Hun Hf1 Hf2 Hok1 Ha2 Hb2).
  unfold resp_ok. rewrite Hst2. cbn.
  split; [reflexivity|]. split; [reflexivity|]. apply lookup_insert_eq.
Qed.

End Listings.

(** ** Invalidation and the connectivity check *)

Section Invalidation.
Context `{Host} `{Remote}.

Lemma invalidateShipment_run (id : string) (w : World) :
  invalidateShipment id w
  = (Ok (match c_shipment (cache w) !! shipmentIdCacheKey id with
         | Some _ => true | None => false end
         || match c_link (cache w) !! sharingLinkCacheKey id with
            | Some _ => true | None => false end),
     withCache
       {| c_shipment := delete (shipmentIdCacheKey id) (c_shipment (cache w));
          c_listing := c_listing (cache w);
          c_search := c_search (cache w);
          c_link := delete (sharingLinkCacheKey id) (c_link (cache w)) |}
       w).
Proof. destruct w as [[cs cl cr ck] d c s n]. reflexivity. Qed.

Lemma getSharingLink_miss_calls (id : string) (w : World) :
  c_link (cache w) !! sharingLinkCacheKey id = None ->
  calls (snd (getSharingLink id w))
  = (calls w ++ [getCall ("/ocean/shipments/" ++ id)])%list.
Proof.
  intros Hmiss. rewrite (getSharingLink_fetches id w (or_introl Hmiss)).
  apply fetchSharingLink_run.
Qed.

Lemma getShipmentById_miss_calls (id : string) (w : World) :
  c_shipment (cache w) !! shipmentIdCacheKey id = None ->
  calls (snd (getShipmentById id w))
  = (calls w ++ [getCall ("/ocean/shipments/" ++ id)])%list.
Proof.
  intros Hmiss. unfold getShipmentById. cbv zeta. rewrite bind_run.
  unfold readCacheDisabled. cbv beta iota.
  rewrite getOrFetch_fetches by (left; exact Hmiss).
  rewrite bind_run, bind_run, request_run.
  destruct (requestOutcome _) as [r|e]; [|reflexivity].
  destruct (negb (resp_ok r)); reflexivity.
Qed.

(** [invalidateShipment] tells whether it removed an entry, and afterwards
    both lookups of that id go to the backend again: [getSharingLink] and
    [getShipmentById] each make their one GET, whatever was cached before. *)
Theorem invalidateShipment_forces_refetch (id : string) (w : World) :
  (fst (invalidateShipment id w) = Ok true \/
   fst (invalidateShipment id w) = Ok false) /\
  (fst (invalidateShipment id w) = Ok true <->
   is_Some (c_shipment (cache w) !! shipmentIdCacheKey id) \/
   is_Some (c_link (cache w) !! sharingLinkCacheKey id)) /\
  calls (snd (getSharingLink id (snd (invalidateShipment id w))))
  = (calls w ++ [getCall ("/ocean/shipments/" ++ id)])%list /\
  calls (snd (getShipmentById id (snd (invalidateShipment id w))))
  = (calls w ++ [getCall ("/ocean/shipments/" ++ id)])%list.
Proof.
  rewrite invalidateShipment_run. cbn [fst snd].
  split; [|split; [|split]].
  - destruct (_ || _); auto.
  - destruct (c_shipment (cache w) !! shipmentIdCacheKey id) as [x|];
      destruct (c_link (cache w) !! sharingLinkCacheKey id) as [y|]; cbn;
      split; intros Hx; try reflexivity; try discriminate; eauto.
    destruct Hx as [[? [=]] | [? [=]]].
  - rewrite getSharingLink_miss_calls; [reflexivity|].
    cbn. apply lookup_delete_eq.
  - rewrite getShipmentById_miss_calls; [reflexivity|].
    cbn. apply lookup_delete_eq.
Qed.

(** Invalidating a shipment by id does not reach what the trackers cached:
    an entry a tracker stored under its own key is still served, with no
    remote call, after [invalidateShipment]. *)
Theorem invalidateShipment_spares_trackers (id operation param filter number : string)
    (w : World) (v : option Shipment) (ttl : Z) :
  trackerCacheKey operation param number <> shipmentIdCacheKey id ->
  cacheDisabled w = false ->
  c_shipment (cache w) !! trackerCacheKey operation param number = Some (v, ttl) ->
  trackByNumber operation param filter number (snd (invalidateShipment id w))
  = (Ok v, snd (invalidateShipment id w)).
Proof.
  intros Hne Hon Hhit. rewrite invalidateShipment_run. cbn [snd].
  unfold trackByNumber. cbv zeta. rewrite bind_run. unfold readCacheDisabled.
  cbv beta iota. cbn [cacheDisabled withCache]. rewrite Hon.
  apply (getOrFetch_hit _ _ _ _ ttl); [exact Hon|]. cbn.
  rewrite lookup_delete_ne by (intros E; apply Hne; symmetry; exact E).
  exact Hhit.
Qed.

(** [getApiStatus] never throws: whatever [fetch] does, it returns a
    status after exactly one GET and leaves the cache alone.  The status is
    valid exactly when the answer was a 2xx, and only then carries the rate
    limit.  The rate-limit file is one the client wrote itself. *)
Theorem getApiStatus_never_throws (rateLimit : RateLimitStatus) (w : World) :
  exists st,
    getApiStatus rateLimit w
    = (Ok st, logCall (getCall "/ocean/shipments?limit=1") w) /\
    (valid st = true <->
     exists r, fetch (length (calls w)) (getCall "/ocean/shipments?limit=1")
               = Responded r /\ resp_ok r = true) /\
    details st = (if valid st then Some rateLimit else None).
Proof.
  unfold getApiStatus, tryCatch. rewrite bind_run, request_run.
  unfold requestOutcome, getCall.
  destruct (fetch _ _) as [r| |m] eqn:Hfetch.
  - destruct (resp_status r =? 429) eqn:H429.
    { eexists. split; [reflexivity|]. cbn. split; [|reflexivity].
      split; [discriminate|]. intros (r' & [= <-] & Hok).
      destruct (ok_not_special r Hok) as [Ha _]. apply Z.eqb_eq in H429.
      contradiction. }
    destruct (resp_status r =? 402) eqn:H402.
    { eexists. split; [reflexivity|]. cbn. split; [|reflexivity].
      split; [discriminate|]. intros (r' & [= <-] & Hok).
      destruct (ok_not_special r Hok) as [_ Hb]. apply Z.eqb_eq in H402.
      contradiction. }
    destruct (resp_ok r) eqn:Hok.
    + eexists. split; [reflexivity|]. cbn. split; [|reflexivity].
      split; [|reflexivity]. intros _. exists r. split; [reflexivity|exact Hok].
    + eexists. split; [reflexivity|]. cbn. split; [|reflexivity].
      split; [discriminate|]. intros (r' & [= <-] & Hok'). congruence.
  - eexists. split; [reflexivity|]. cbn. split; [|reflexivity].
    split; [discriminate|]. intros (r' & [=] & _).
  - eexists. split; [reflexivity|]. cbn. split; [|reflexivity].
    split; [discriminate|]. intros (r' & [=] & _).
Qed.

End Invalidation.

(** ** The cache check of [createShipment] *)

Section CreateCacheReuse.
Context `{Host} `{Remote}.




End CreateCacheReuse.


(** ** The further properties on the example host *)

Lemma mapToShipment_timestamps_witness :
  created_at (mapToShipment "2024-03-01T00:00:00.000Z" camelCaseRaw) <> "" /\
  updated_at (mapToShipment "2024-03-01T00:00:00.000Z" camelCaseRaw) <> "" /\
  discarded_at (mapToShipment "2024-03-01T00:00:00.000Z" camelCaseRaw) <> Some "" /\
  (notDiscarded (mapToShipment "2024-03-01T00:00:00.000Z" camelCaseRaw) = true
   <-> discarded_at (mapToShipment "2024-03-01T00:00:00.000Z" camelCaseRaw) = None) /\
  (discarded_at (mapToShipment "2024-03-01T00:00:00.000Z" camelCaseRaw) = None
   <-> truthy (r_discardedAt camelCaseRaw) = false
       /\ truthy (r_discarded_at camelCaseRaw) = false).
Proof.
  apply (mapToShipment_timestamps "2024-03-01T00:00:00.000Z" camelCaseRaw).
  discriminate.
Defined.

Lemma mapToShipment_convention_invariant_witness :
  mapToShipment "2024-03-01T00:00:00.000Z" (swapConventions camelCaseRaw)
  = mapToShipment "2024-03-01T00:00:00.000Z" camelCaseRaw.
Proof.
  apply (mapToShipment_convention_invariant "2024-03-01T00:00:00.000Z" camelCaseRaw).
  unfold oneConvention, oneSpelling. cbn.
  repeat split; try discriminate;
    first [left; reflexivity | right; reflexivity].
Defined.

Lemma getRateLimitStatus_estimate_witness :
  rs_limit (getRateLimitStatus (exampleClock 0) noRateLimitFile) = 100 /\
  rs_localCallCount (getRateLimitStatus (exampleClock 0) noRateLimitFile)
  = length (localCalls (loadRateLimitData noRateLimitFile)) /\
  exists n,
    rs_remaining (getRateLimitStatus (exampleClock 0) noRateLimitFile) = StoredNum n /\
    0 <= n <= 100 /\
    n = Z.max 0 (100 - Z.of_nat (length (localCalls (loadRateLimitData noRateLimitFile)))) /\
    (rs_warning (getRateLimitStatus (exampleClock 0) noRateLimitFile)
     = Some "Approaching rate limit (estimated)"
     <-> (80 < length (localCalls (loadRateLimitData noRateLimitFile)))%nat) /\
    (rs_warning (getRateLimitStatus (exampleClock 0) noRateLimitFile) = None
     <-> (length (localCalls (loadRateLimitData noRateLimitFile)) <= 80)%nat).
Proof.
  apply (getRateLimitStatus_estimate (exampleClock 0) noRateLimitFile).
  left. reflexivity.
Defined.

Lemma status_reports_header_witness :
  rs_remaining
    (getRateLimitStatus (exampleClock 5)
       (updateRateLimitFromResponse (H := exampleHost) exampleClock
          (remainingHeader "42") noRateLimitFile))
  = StoredNum 42.
Proof.
  apply (status_reports_header (H := exampleHost) exampleClock
           (remainingHeader "42") noRateLimitFile "42" (exampleClock 5)).
  - reflexivity.
  - reflexivity.
  - discriminate.
  - discriminate.
  - reflexivity.
Defined.

Lemma status_reports_stale_number_witness :
  rs_remaining
    (getRateLimitStatus (exampleClock 5)
       (updateRateLimitFromResponse (H := exampleHost) exampleClock
          noRateLimitHeaders oldRateLimitFile))
  = StoredNum 5.
Proof.
  apply (status_reports_stale_number (H := exampleHost) exampleClock
           noRateLimitHeaders oldRateLimitFile (StoredNum 5) (exampleClock 5)).
  - reflexivity.
  - reflexivity.
  - reflexivity.
  - discriminate.
  - reflexivity.
Defined.

Lemma update_keeps_last_minute_witness :
  In (exampleClock 1)
    (localCalls
       (loadRateLimitData
          (updateRateLimitFromResponse (H := exampleHost) exampleClock
             noRateLimitHeaders oldRateLimitFile))) /\
  ~ In 1700000000000
      (localCalls
         (loadRateLimitData
            (updateRateLimitFromResponse (H := exampleHost) exampleClock
               noRateLimitHeaders oldRateLimitFile))).
Proof.
  assert (Hmono : forall i j, (i <= j)%nat -> exampleClock i <= exampleClock j)
    by (intros i j Hij; unfold exampleClock; lia).
  pose proof (update_keeps_last_minute (H := exampleHost) exampleClock
                noRateLimitHeaders oldRateLimitFile eq_refl Hmono) as Hwindow.
  cbv zeta in Hwindow. destruct Hwindow as [Honly Hall]. split.
  - apply Hall; [right; reflexivity | reflexivity].
  - intros Hin. apply Honly in Hin. destruct Hin as [_ Hlate].
    vm_compute in Hlate. discriminate.
Defined.

Lemma getShipmentById_strict_witness :
  getShipmentById (H := exampleHost) (H0 := notFoundRemote) "5773482" freshWorld
  = (Throw (ApiError 404 emptyBody),
     logCall (getCall "/ocean/shipments/5773482") freshWorld).
Proof.
  apply (getShipmentById_strict (H := exampleHost) (H0 := notFoundRemote)
           "5773482" freshWorld
           {| resp_status := 404; resp_retryAfter := None; resp_body := emptyBody |}).
  - left. apply lookup_empty.
  - reflexivity.
  - discriminate.
  - discriminate.
  - reflexivity.
Defined.

Lemma freshWorld_activeUncached : activeUncached (H := exampleHost) freshWorld.
Proof.
  right. split; [apply lookup_empty|]. split; [apply lookup_empty|].
  split; [apply lookup_empty|]. vm_compute. discriminate.
Defined.

Lemma getActiveShipments_concatenates_witness :
  fst (getActiveShipments (H := exampleHost) (H0 := listingRemote) freshWorld)
  = Ok [mapToShipment "2024-01-01T00:00:00.000Z" (rawWithPosition None None);
        mapToShipment "2024-01-01T00:00:00.000Z" (rawWithPosition None None)].
Proof.
  apply (getActiveShipments_concatenates (H := exampleHost) (H0 := listingRemote)
           freshWorld
           {| resp_status := 200; resp_retryAfter := None;
              resp_body := oneShipmentBody |}
           {| resp_status := 200; resp_retryAfter := None;
              resp_body := oneShipmentBody |}).
  - exact freshWorld_activeUncached.
  - reflexivity.
  - reflexivity.
  - reflexivity.
  - reflexivity.
Defined.

Lemma getActiveShipments_pending_404_witness :
  fst (getActiveShipments (H := exampleHost) (H0 := pendingMissingRemote) freshWorld)
  = Throw (ApiError 404 emptyBody).
Proof.
  apply (getActiveShipments_pending_404 (H := exampleHost)
           (H0 := pendingMissingRemote) freshWorld
           {| resp_status := 200; resp_retryAfter := None;
              resp_body := oneShipmentBody |}
           {| resp_status := 404; resp_retryAfter := None; resp_body := emptyBody |}).
  - exact freshWorld_activeUncached.
  - reflexivity.
  - reflexivity.
  - reflexivity.
  - reflexivity.
Defined.

Lemma invalidateShipment_spares_trackers_witness :
  trackByNumber (H := exampleHost) (H0 := notFoundRemote) "shipment:bl" "bl"
    "bl_number" "MAEU123456789"
    (snd (invalidateShipment (H := exampleHost) "A" trackedWorld))
  = (Ok (Some tiedA), snd (invalidateShipment (H := exampleHost) "A" trackedWorld)).
Proof.
  apply (invalidateShipment_spares_trackers (H := exampleHost)
           (H0 := notFoundRemote) "A" "shipment:bl" "bl" "bl_number"
           "MAEU123456789" trackedWorld (Some tiedA)
           (TTL_HOUR (Host := exampleHost) * 2)).
  - vm_compute. discriminate.
  - reflexivity.
  - cbn. apply lookup_insert_eq.
Defined.

Lemma validateContainerNumber_agrees_witness :
  containerRegex_test "hamu1058953" = validateContainerNumber "hamu1058953" /\
  validateContainerNumber (toUpperCase "hamu1058953")
  = validateContainerNumber "hamu1058953" /\
  validateBLNumber (toUpperCase "hamu1058953") = validateBLNumber "hamu1058953".
Proof. apply (validateContainerNumber_agrees "hamu1058953"). reflexivity. Defined.

Lemma validation_formats_witness :
  String.length "HAMU1058953" = 11%nat /\
  validateBLNumber "HAMU1058953" = false /\
  validateBookingNumber "HAMU1058953" = true.
Proof.
  apply (validation_formats "HAMU1058953"); reflexivity.
Defined.
